(** * webtrade ML scripts: [scripts/train-model.py] and [scripts/predict.py]

    A shallow embedding of the two command-line scripts.  Both scripts are
    thin drivers around numpy, scikit-learn, joblib and the json module, so
    the embedding has three layers:

    - the Python-level data the scripts handle (JSON values, exceptions,
      feature matrices, label vectors);
    - the library boundary, a class [Lib] whose fields are the library
      operations the scripts call.  Estimator methods take the state of the
      estimator object and return its new state, because Python estimators
      are mutable objects;
    - the process state [World] (standard streams, file system, heap of
      estimator objects, and a log of the library calls made) threaded
      through a state-and-exception monad [M] in which the scripts are
      written, statement by statement.

    Floating-point numbers are modelled as exact rationals [Q]: rounding
    and NaN are outside the model.  Arrays are lists: a 2-D float array is
    a list of rows, a 1-D integer array a list of integers.  A JSON object
    is the list of its members in order, with distinct keys.  A string is
    the sequence of the bytes of its UTF-8 encoding.

    The file system knows regular files, directories and paths that may
    not be written.  It is keyed by the paths as the scripts give them:
    two spellings of one path are two keys.  A text that was opened for
    writing is written in full; a dump that fails after its file was
    opened leaves the file cut short.

    The standard streams hold the lines the scripts print, and printing
    succeeds.  What a library writes on the error stream on its own, such
    as the warnings of scikit-learn, is outside the model, and so is a
    stream that cannot encode a text.

    Both scripts parse their command line with argparse before anything
    else; [main] is modelled from the point where [parser.parse_args()]
    has returned.  On a command line it rejects, argparse ends the process
    with status 2 before that point. *)

From Stdlib Require Import Ascii QArith Qminmax Qround Lqa Sorted.
From stdpp Require Import base gmap strings list pretty.

Local Open Scope string_scope.
Local Open Scope Z_scope.

(** ** Python-level data *)

Inductive exn_kind :=
  | TypeError | ValueError | KeyError | IndexError | AttributeError | OSError
  | PicklingError | EOFError.

Record exn := Exception { exn_kind_of : exn_kind; exn_msg : string }.

(** What a call that may raise hands back: [inl e] when it raised [e]. *)
Definition result (A : Type) : Type := exn + A.

#[local] Set Warnings "-register-all".
Inductive json :=
  | JNull
  | JBool (b : bool)
  | JInt (z : Z)
  | JFloat (q : Q)
  | JStr (s : string)
  | JArr (l : list json)
  | JObj (kvs : list (string * json)).

(** A 2-D float array, row by row, and a 1-D integer array. *)
Definition matrix : Type := list (list Q).
Definition labels : Type := list Z.

(** The bytes 10xxxxxx continue a character of a UTF-8 text; every other
    byte starts one. *)
Definition is_continuation (c : ascii) : bool :=
  (128 <=? nat_of_ascii c)%nat && (nat_of_ascii c <? 192)%nat.

(** [len(s)] of a [str]: the number of its characters. *)
Fixpoint code_points (s : string) : nat :=
  match s with
  | EmptyString => 0%nat
  | String c rest =>
      if is_continuation c then code_points rest else S (code_points rest)
  end.

(** [len(v)] on a value that came out of the JSON parser. *)
Definition py_len (v : json) : result nat :=
  match v with
  | JArr l => inr (length l)
  | JStr s => inr (code_points s)
  | JObj kvs => inr (length kvs)
  | _ => inl (Exception TypeError "object has no len()")
  end.

Fixpoint assoc {A} (k : string) (kvs : list (string * A)) : option A :=
  match kvs with
  | [] => None
  | (k', v) :: rest => if String.eqb k k' then Some v else assoc k rest
  end.

(** [KeyError(k)]: its message is [repr(k)], which for a key that holds no
    quote, as the keys of the scripts, is the key in single quotes. *)
Definition key_error (k : string) : exn :=
  Exception KeyError ("'" ++ k ++ "'").

(** [v[k]] for a string key [k]. *)
Definition py_getitem (v : json) (k : string) : result json :=
  match v with
  | JObj kvs =>
      match assoc k kvs with
      | Some x => inr x
      | None => inl (key_error k)
      end
  | _ => inl (Exception TypeError "indices must be integers")
  end.

(** [l[i]] for a non-negative index. *)
Definition py_index {A} (l : list A) (i : nat) : result A :=
  match l !! i with
  | Some x => inr x
  | None => inl (Exception IndexError "index out of bounds")
  end.

Definition qmax (a b : Q) : Q := if Qle_bool a b then b else a.

(** [np.max] of a 1-D array; numpy raises on an empty one. *)
Definition np_max (l : list Q) : result Q :=
  match l with
  | [] => inl (Exception ValueError "zero-size array to reduction operation maximum")
  | x :: rest => inr (fold_left qmax rest x)
  end.

(** Truth value of a string and of a dict. *)
Definition str_truthy (s : string) : bool :=
  match s with EmptyString => false | _ => true end.

Definition dict_truthy {A} (d : list (string * A)) : bool :=
  match d with [] => false | _ => true end.

(** The keyword arguments of [RandomForestClassifier(...)]. *)
Record rf_params := RFParams {
  n_estimators : Z;
  max_depth : Z;
  min_samples_split : Z;
  min_samples_leaf : Z;
  max_features : string;
  rf_random_state : Z;
  n_jobs : Z;
  class_weight : string
}.

(** ** The library boundary *)

Class Lib := {
  (** states of a classifier object and of a scaler object *)
  Clf : Type;
  Scl : Type;
  (** json *)
  json_loads : string -> result json;
  json_dumps : option nat -> json -> string;
  (** numpy *)
  np_array_features : json -> result matrix;
  np_array_labels : json -> result labels;
  np_array_row : json -> result matrix;
  np_mean : list Q -> Q;
  np_std : list Q -> Q;
  str_shape : matrix -> string;
  str_int_matrix : list (list Z) -> string;
  (** sklearn.model_selection *)
  train_test_split :
    matrix -> labels -> Q -> Z -> labels ->
    result (matrix * matrix * labels * labels);
  cross_val_score :
    Clf -> matrix -> labels -> nat -> string -> result (list Q) * Clf;
  (** sklearn.preprocessing *)
  StandardScaler : Scl;
  scaler_fit_transform : Scl -> matrix -> result matrix * Scl;
  scaler_transform : Scl -> matrix -> result matrix * Scl;
  (** sklearn.ensemble *)
  RandomForestClassifier : rf_params -> Clf;
  clf_fit : Clf -> matrix -> labels -> result unit * Clf;
  clf_predict : Clf -> matrix -> result labels * Clf;
  clf_predict_proba : Clf -> matrix -> result matrix * Clf;
  clf_feature_importances : Clf -> result (list Q);
  (** sklearn.metrics *)
  accuracy_score : labels -> labels -> result Q;
  classification_report : labels -> labels -> list string -> result string;
  confusion_matrix : labels -> labels -> result (list (list Z));
  (** string formatting; pathlib: [str(Path(p).parent)] and [str(Path(p))];
      traceback *)
  fmt_float : nat -> Q -> string;
  str_dict : list (string * string) -> string;
  path_parent : string -> string;
  path_str : string -> string;
  format_exc : exn -> string
}.

(** ** Process state *)

Definition loc : Type := nat.
Bind Scope nat_scope with loc.

(** A statement returns, raises, or leaves the process through
    [sys.exit].  [SystemExit] is not an [Exception], so [try_except]
    below lets it through. *)
Inductive outcome (A : Type) :=
  | Ret (a : A)
  | Raise (e : exn)
  | Exit (code : Z).
Arguments Ret {A} a.
Arguments Raise {A} e.
Arguments Exit {A} code.

Section Runtime.
Context {L : Lib}.

Inductive pyobj :=
  | ObjClf (c : Clf)
  | ObjScaler (s : Scl).

(** What [joblib.dump] stores for the dict the trainer builds; a bundle
    written by other means may lack keys. *)
Record bundle := Bundle {
  b_model : option Clf;
  b_scaler : option Scl;
  b_metadata : option (list (string * string))
}.

(** A regular file: a text, a bundle as [joblib.dump] writes it, or what
    a dump that failed left of one. *)
Inductive file :=
  | FText (s : string)
  | FJoblib (b : bundle)
  | FPartial.

(** The log has one entry per call of [train_test_split], of
    [cross_val_score] and of a method of an estimator, with the arguments
    of the call and what it handed back.  The calls of the metrics
    functions, of [np.array] and of the json module are not logged. *)
Inductive libcall :=
  | CallSplit (X : matrix) (y : labels) (test_size : Q) (random_state : Z)
      (stratify : labels) (r : result (matrix * matrix * labels * labels))
  | CallFitTransform (scaler : loc) (X : matrix) (r : result matrix)
  | CallTransform (scaler : loc) (X : matrix) (r : result matrix)
  | CallFit (model : loc) (X : matrix) (y : labels) (r : result unit)
  | CallPredict (model : loc) (X : matrix) (r : result labels)
  | CallPredictProba (model : loc) (X : matrix) (r : result matrix)
  | CallCrossVal (model : loc) (X : matrix) (y : labels) (cv : nat)
      (scoring : string) (r : result (list Q)).

Record World := mkWorld {
  w_stdout : list string;      (* lines printed so far, oldest first *)
  w_stderr : list string;
  w_fs : gmap string file;     (* regular files by path *)
  w_dirs : gset string;        (* existing directories *)
  w_denied : gset string;      (* paths the process may not create or write *)
  w_now : string;              (* what datetime.now().isoformat() reads *)
  w_heap : list pyobj;         (* estimator objects, addressed by index *)
  w_calls : list libcall       (* library calls so far, oldest first *)
}.

Definition add_stdout (s : string) (w : World) : World :=
  mkWorld (w_stdout w ++ [s]) (w_stderr w) (w_fs w) (w_dirs w) (w_denied w)
          (w_now w) (w_heap w) (w_calls w).

Definition add_stderr (s : string) (w : World) : World :=
  mkWorld (w_stdout w) (w_stderr w ++ [s]) (w_fs w) (w_dirs w) (w_denied w)
          (w_now w) (w_heap w) (w_calls w).

Definition set_fs (fs : gmap string file) (w : World) : World :=
  mkWorld (w_stdout w) (w_stderr w) fs (w_dirs w) (w_denied w)
          (w_now w) (w_heap w) (w_calls w).

Definition set_dirs (d : gset string) (w : World) : World :=
  mkWorld (w_stdout w) (w_stderr w) (w_fs w) d (w_denied w)
          (w_now w) (w_heap w) (w_calls w).

Definition set_heap (h : list pyobj) (w : World) : World :=
  mkWorld (w_stdout w) (w_stderr w) (w_fs w) (w_dirs w) (w_denied w)
          (w_now w) h (w_calls w).

Definition add_call (c : libcall) (w : World) : World :=
  mkWorld (w_stdout w) (w_stderr w) (w_fs w) (w_dirs w) (w_denied w)
          (w_now w) (w_heap w) (w_calls w ++ [c]).

(** A process that has just started: nothing printed, no object
    allocated, no library call made. *)
Definition initial_world (fs : gmap string file) (dirs denied : gset string)
    (now : string) : World :=
  mkWorld [] [] fs dirs denied now [] [].

(** ** The monad of script statements *)

Definition M (A : Type) : Type := World -> outcome A * World.

Definition ret {A} (a : A) : M A := fun w => (Ret a, w).

Definition bind {A B} (m : M A) (k : A -> M B) : M B :=
  fun w =>
    match m w with
    | (Ret a, w') => k a w'
    | (Raise e, w') => (Raise e, w')
    | (Exit c, w') => (Exit c, w')
    end.

Definition raise {A} (e : exn) : M A := fun w => (Raise e, w).

Definition sys_exit {A} (code : Z) : M A := fun w => (Exit code, w).

Definition of_result {A} (r : result A) : outcome A :=
  match r with inl e => Raise e | inr a => Ret a end.

Definition lift {A} (r : result A) : M A := fun w => (of_result r, w).

(** [try: body  except Exception as e: handler e] *)
Definition try_except {A} (body : M A) (handler : exn -> M A) : M A :=
  fun w =>
    match body w with
    | (Raise e, w') => handler e w'
    | other => other
    end.

Definition print (s : string) : M unit := fun w => (Ret tt, add_stdout s w).
Definition eprint (s : string) : M unit := fun w => (Ret tt, add_stderr s w).

(** ** Files *)

(** Opening an existing file for reading and taking its content. *)
Definition read_file (path : string) : M file :=
  fun w =>
    match w_fs w !! path with
    | Some f => (Ret f, w)
    | None => (Raise (Exception OSError "No such file or directory"), w)
    end.

(** [open(path, 'r')] followed by reading the whole text. *)
Definition read_text (path : string) : M string :=
  bind (read_file path) (fun f =>
    match f with
    | FText s => ret s
    | FJoblib _ | FPartial =>
        raise (Exception ValueError "cannot decode file as text")
    end).

(** Whether [path] can be opened for writing: it may be written, it is
    not a directory, and its parent directory exists. *)
Definition can_write (path : string) (w : World) : bool :=
  bool_decide (path ∉ w_denied w) && bool_decide (path ∉ w_dirs w)
  && bool_decide (path_parent path ∈ w_dirs w).

(** [open(path, 'w')]: the file exists and is empty from here on. *)
Definition open_w (path : string) : M unit :=
  fun w =>
    if can_write path w
    then (Ret tt, set_fs (<[path := FText ""]> (w_fs w)) w)
    else (Raise (Exception OSError "cannot open file for writing"), w).

(** [f.write(s)] on a file opened by [open_w]. *)
Definition write_text (path : string) (s : string) : M unit :=
  fun w =>
    match w_fs w !! path with
    | Some (FText old) => (Ret tt, set_fs (<[path := FText (old ++ s)]> (w_fs w)) w)
    | _ => (Raise (Exception OSError "file is not open for writing"), w)
    end.

(** [Path.mkdir(parents=True, exist_ok=True)]: nothing to do for a
    directory that exists, [FileExistsError] where a regular file has the
    name; ancestors of [dir] are not tracked. *)
Definition mkdir_parents (dir : string) : M unit :=
  fun w =>
    if bool_decide (dir ∈ w_dirs w) then (Ret tt, w)
    else if bool_decide (is_Some (w_fs w !! dir))
    then (Raise (Exception OSError "File exists"), w)
    else if bool_decide (dir ∈ w_denied w)
    then (Raise (Exception OSError "cannot create directory"), w)
    else (Ret tt, set_dirs ({[dir]} ∪ w_dirs w) w).

(** ** Estimator objects on the heap *)

Definition alloc (o : pyobj) : M loc :=
  fun w => (Ret (length (w_heap w)), set_heap (w_heap w ++ [o]) w).

Definition no_attribute {A} (name : string) : outcome A :=
  Raise (Exception AttributeError ("object has no attribute " ++ name)).

(** A method call on the classifier at [l]: run the library operation on
    the object's state, store the state it leaves, log the call. *)
Definition clf_call {A} (l : loc) (name : string)
    (op : Clf -> result A * Clf) (ev : result A -> libcall) : M A :=
  fun w =>
    match w_heap w !! l with
    | Some (ObjClf c) =>
        let '(r, c') := op c in
        (of_result r, add_call (ev r) (set_heap (<[l := ObjClf c']> (w_heap w)) w))
    | _ => (no_attribute name, w)
    end.

Definition scaler_call {A} (l : loc) (name : string)
    (op : Scl -> result A * Scl) (ev : result A -> libcall) : M A :=
  fun w =>
    match w_heap w !! l with
    | Some (ObjScaler s) =>
        let '(r, s') := op s in
        (of_result r, add_call (ev r) (set_heap (<[l := ObjScaler s']> (w_heap w)) w))
    | _ => (no_attribute name, w)
    end.

(** [scaler.transform(X)], [model.predict(X)], [model.predict_proba(X)] *)
Definition transform (scaler : loc) (X : matrix) : M matrix :=
  scaler_call scaler "transform" (fun s => scaler_transform s X)
    (CallTransform scaler X).

Definition predict (model : loc) (X : matrix) : M labels :=
  clf_call model "predict" (fun c => clf_predict c X) (CallPredict model X).

Definition predict_proba (model : loc) (X : matrix) : M matrix :=
  clf_call model "predict_proba" (fun c => clf_predict_proba c X)
    (CallPredictProba model X).

(** [scaler.fit_transform(X)], [model.fit(X, y)] *)
Definition fit_transform (scaler : loc) (X : matrix) : M matrix :=
  scaler_call scaler "fit_transform" (fun s => scaler_fit_transform s X)
    (CallFitTransform scaler X).

Definition fit (model : loc) (X : matrix) (y : labels) : M unit :=
  clf_call model "fit" (fun c => clf_fit c X y) (CallFit model X y).

(** [model.feature_importances_]: an attribute read. *)
Definition feature_importances_ (model : loc) : M (list Q) :=
  fun w =>
    match w_heap w !! model with
    | Some (ObjClf c) => (of_result (clf_feature_importances c), w)
    | _ => (no_attribute "feature_importances_", w)
    end.

End Runtime.

Declare Scope script_scope.
Delimit Scope script_scope with script.
Notation "'let!' x ':=' c 'in' k" := (bind c (fun x => k))
  (at level 10, x name, c at level 100, k at level 200) : script_scope.
Notation "'let!' ' p ':=' c 'in' k" := (bind c (fun x => match x with p => k end))
  (at level 10, p pattern, c at level 100, k at level 200) : script_scope.
Notation "c >> k" := (bind c (fun _ => k))
  (at level 90, right associativity) : script_scope.
Local Open Scope script_scope.

(** ** [scripts/predict.py] *)

Module Predict.
Section Script.
Context {L : Lib}.

Record probs_dict := ProbsDict { buy : Q; hold : Q; sell : Q }.

(** The dict [predict_signal] returns. *)
Record prediction := Prediction {
  signal : string;
  confidence : Q;
  probabilities : probs_dict
}.

(** The dict as [json.dump] sees it, keys in insertion order. *)
Definition prediction_json (r : prediction) : json :=
  JObj [("signal", JStr (signal r));
        ("confidence", JFloat (confidence r));
        ("probabilities",
          JObj [("buy", JFloat (buy (probabilities r)));
                ("hold", JFloat (hold (probabilities r)));
                ("sell", JFloat (sell (probabilities r)))])].

(** What [parser.parse_args()] returns: [--model] and [--features] are
    required, [--output] is optional. *)
Record args := Args {
  arg_model : string;
  arg_features : string;
  arg_output : option string
}.

(** [joblib.load]: the estimators of the bundle become fresh objects. *)
Definition joblib_load (path : string)
    : M (option loc * option loc * option (list (string * string))) :=
  let! f := read_file path in
  match f with
  | FText _ => raise (Exception ValueError "not a joblib file")
  | FPartial => raise (Exception EOFError "Ran out of input")
  | FJoblib b =>
      let! m := match b_model b with
                | Some c => let! l := alloc (ObjClf c) in ret (Some l)
                | None => ret None
                end in
      let! s := match b_scaler b with
                | Some c => let! l := alloc (ObjScaler c) in ret (Some l)
                | None => ret None
                end in
      ret (m, s, b_metadata b)
  end.

Definition dict_item {A} (key : string) (v : option A) : M A :=
  match v with
  | Some x => ret x
  | None => raise (key_error key)
  end.

Definition load_model (model_path : string)
    : M (loc * loc * list (string * string)) :=
  let! '(m, s, md) := joblib_load model_path in
  let! model := dict_item "model" m in
  let! scaler := dict_item "scaler" s in
  ret (model, scaler, default [] md).

Definition label_map : gmap Z string :=
  {[ 0 := "sell"; 1 := "hold"; 2 := "buy" ]}.

Definition predict_signal (model scaler : loc) (features : json)
    : M prediction :=
  (* Convert to numpy array and reshape *)
  let! X := lift (np_array_row features) in
  (* Scale features *)
  let! X_scaled := transform scaler X in
  (* Predict *)
  let! preds := predict model X_scaled in
  let! prediction := lift (py_index preds 0) in
  let! probas := predict_proba model X_scaled in
  let! probabilities := lift (py_index probas 0) in
  (* Map to labels *)
  let signal := default "hold" (label_map !! prediction) in
  (* Get confidence (max probability) *)
  let! confidence := lift (np_max probabilities) in
  (* Map probabilities to labels *)
  let! p_buy := lift (py_index probabilities 2) in
  let! p_hold := lift (py_index probabilities 1) in
  let! p_sell := lift (py_index probabilities 0) in
  ret (Prediction signal confidence (ProbsDict p_buy p_hold p_sell)).

Definition feature_warning (n : nat) : string :=
  "Warning: Expected 13 features, got " ++ pretty n.

(** The [try] block of [main]. *)
Definition main_body (a : args) : M unit :=
  (* Load model *)
  eprint ("Loading model from " ++ arg_model a ++ "...") >>
  let! '(model, scaler, metadata) := load_model (arg_model a) in
  (if dict_truthy metadata
   then eprint ("Model metadata: " ++ str_dict metadata)
   else ret tt) >>
  (* Parse features *)
  let! features := lift (json_loads (arg_features a)) in
  let! n := lift (py_len features) in
  (if bool_decide (n ≠ 13%nat)
   then eprint (feature_warning n)
   else ret tt) >>
  (* Generate prediction *)
  let! result := predict_signal model scaler features in
  (* Output *)
  match arg_output a with
  | Some path =>
      if str_truthy path
      then
        open_w path >>
        write_text path (json_dumps (Some 2%nat) (prediction_json result)) >>
        eprint ("Prediction saved to " ++ path)
      else print (json_dumps None (prediction_json result))
  | None => print (json_dumps None (prediction_json result))
  end >>
  sys_exit 0.

(** The [except Exception as e] block of [main]. *)
Definition main_handler (e : exn) : M unit :=
  eprint ("Error: " ++ exn_msg e) >>
  eprint (format_exc e) >>
  sys_exit 1.

(** [main], once [parser.parse_args()] has returned [a]. *)
Definition main (a : args) : M unit :=
  try_except (main_body a) main_handler.

End Script.
End Predict.

(** ** [scripts/train-model.py] *)

Module TrainModel.
Section Script.
Context {L : Lib}.

(** The newline character some messages start with. *)
Definition nl : string := String "010"%char "".

(** What [parser.parse_args()] returns: [--input] and [--output] are
    required, [--test-size] is a float with a default. *)
Record args := Args {
  arg_input : string;
  arg_output : string;
  arg_test_size : Q
}.

Definition default_test_size : Q := 2 # 10.

(** [sum(labels == c)] *)
Definition count_label (c : Z) (ys : labels) : nat := count_occ Z.eq_dec ys c.

Definition load_data (input_file : string) : M (matrix * labels) :=
  let! text := read_text input_file in
  let! data := lift (json_loads text) in
  let! jfeatures := lift (py_getitem data "features") in
  let! features := lift (np_array_features jfeatures) in
  let! jlabels := lift (py_getitem data "labels") in
  let! labels := lift (np_array_labels jlabels) in
  print ("Loaded " ++ pretty (length features) ++ " samples") >>
  print ("Feature shape: " ++ str_shape features) >>
  print ("Label distribution: Buy=" ++ pretty (count_label 1 labels)
         ++ ", Hold=" ++ pretty (count_label 0 labels)
         ++ ", Sell=" ++ pretty (count_label (-1) labels)) >>
  ret (features, labels).

Definition rf_hyperparameters : rf_params :=
  {| n_estimators := 200;
     max_depth := 15;
     min_samples_split := 10;
     min_samples_leaf := 5;
     max_features := "sqrt";
     rf_random_state := 42;
     n_jobs := -1;
     class_weight := "balanced" |}.

Definition train_model (X_train : matrix) (y_train : labels) : M loc :=
  print (nl ++ "=== Training Model ===") >>
  (* RandomForest with good hyperparameters *)
  let! model := alloc (ObjClf (RandomForestClassifier rf_hyperparameters)) in
  (* Train *)
  fit model X_train y_train >>
  print "✓ Model training complete" >>
  ret model.

Definition feature_names : list string :=
  ["ma20_ma50"; "rsi"; "macd"; "macd_signal"; "macd_histogram";
   "bb_upper"; "bb_middle"; "bb_lower"; "obv";
   "ichi_tenkan"; "ichi_kijun"; "ichi_senkou_a"; "ichi_senkou_b"].

(** [zip]: stops with the shorter list. *)
Fixpoint zip {A B} (l : list A) (l' : list B) : list (A * B) :=
  match l, l' with
  | a :: t, b :: t' => (a, b) :: zip t t'
  | _, _ => []
  end.

(** [sorted(items, key=lambda x: x[1], reverse=True)]: descending by
    score, items of equal score in their original order. *)
Fixpoint insert_desc (x : string * Q) (l : list (string * Q))
    : list (string * Q) :=
  match l with
  | [] => [x]
  | y :: rest =>
      if Qle_bool (snd y) (snd x) then x :: l else y :: insert_desc x rest
  end.

Definition sorted_desc (items : list (string * Q)) : list (string * Q) :=
  foldr insert_desc [] items.

Fixpoint print_lines (ls : list string) : M unit :=
  match ls with
  | [] => ret tt
  | s :: rest => print s >> print_lines rest
  end.

Record metrics := Metrics {
  accuracy : Q;
  feature_importance : list (string * Q)
}.

(** [cross_val_score(model, X, y, cv=cv, scoring=scoring)] *)
Definition cross_val (model : loc) (X : matrix) (y : labels) (cv : nat)
    (scoring : string) : M (list Q) :=
  clf_call model "cross_val_score"
    (fun c => cross_val_score c X y cv scoring)
    (CallCrossVal model X y cv scoring).

Definition evaluate_model (model : loc) (X_test : matrix) (y_test : labels)
    : M metrics :=
  print (nl ++ "=== Evaluating Model ===") >>
  (* Predictions *)
  let! y_pred := predict model X_test in
  (* Accuracy *)
  let! accuracy := lift (accuracy_score y_test y_pred) in
  print ("Accuracy: " ++ fmt_float 4 accuracy
         ++ " (" ++ fmt_float 2 (accuracy * 100)%Q ++ "%)") >>
  (* Classification report *)
  print (nl ++ "Classification Report:") >>
  let! report :=
    lift (classification_report y_test y_pred ["Sell"; "Hold"; "Buy"]) in
  print report >>
  (* Confusion Matrix *)
  let! cm := lift (confusion_matrix y_test y_pred) in
  print (nl ++ "Confusion Matrix:") >>
  print (str_int_matrix cm) >>
  (* Cross-validation *)
  print (nl ++ "=== Cross-Validation ===") >>
  let! cv_scores := cross_val model X_test y_test 5 "accuracy" in
  print ("CV Accuracy: " ++ fmt_float 4 (np_mean cv_scores)
         ++ " (+/- " ++ fmt_float 4 (np_std cv_scores * 2)%Q ++ ")") >>
  (* Feature importance *)
  let! importance := feature_importances_ model in
  let feature_importance := zip feature_names importance in
  print (nl ++ "=== Feature Importance ===") >>
  let sorted_features := sorted_desc feature_importance in
  print_lines
    (map (fun '(name, score) => "  " ++ name ++ ": " ++ fmt_float 4 score)
         sorted_features) >>
  ret (Metrics accuracy feature_importance).

(** [joblib.dump] of the dict [save_model] builds.  The file is opened
    first, then the dict is pickled into it: the file holds the states
    the two objects have at this point, or, where one of the two is not an
    estimator that can be pickled, it is left cut short. *)
Definition joblib_dump (model scaler : loc)
    (metadata : list (string * string)) (path : string) : M unit :=
  fun w =>
    if can_write path w then
      match w_heap w !! model, w_heap w !! scaler with
      | Some (ObjClf c), Some (ObjScaler s) =>
          (Ret tt,
           set_fs (<[path := FJoblib (Bundle (Some c) (Some s)
                                        (Some metadata))]> (w_fs w)) w)
      | _, _ =>
          (Raise (Exception PicklingError "cannot pickle object"),
           set_fs (<[path := FPartial]> (w_fs w)) w)
      end
    else (Raise (Exception OSError "cannot open file for writing"), w).

Definition datetime_now_isoformat : M string := fun w => (Ret (w_now w), w).

(** The ['metadata'] entry of the dict [save_model] builds. *)
Definition bundle_metadata (trained_at : string) : list (string * string) :=
  [("trained_at", trained_at);
   ("model_type", "RandomForestClassifier");
   ("version", "1.0.0")].

(** [output_path] is rebound to [Path(output_path)], which names the same
    file; the message prints the path as [Path] spells it. *)
Definition save_model (model scaler : loc) (output_path : string) : M unit :=
  mkdir_parents (path_parent output_path) >>
  (* Save model *)
  let! trained_at := datetime_now_isoformat in
  joblib_dump model scaler (bundle_metadata trained_at) output_path >>
  print (nl ++ "✓ Model saved to " ++ path_str output_path).

(** [train_test_split(X, y, test_size=..., random_state=..., stratify=...)] *)
Definition split (X : matrix) (y : labels) (test_size : Q) (random_state : Z)
    (stratify : labels) : M (matrix * matrix * labels * labels) :=
  fun w =>
    let r := train_test_split X y test_size random_state stratify in
    (of_result r, add_call (CallSplit X y test_size random_state stratify r) w).

(** The [try] block of [main]. *)
Definition main_body (a : args) : M unit :=
  (* Load data *)
  let! '(X, y) := load_data (arg_input a) in
  (* Split data *)
  let! '(X_train, X_test, y_train, y_test) :=
    split X y (arg_test_size a) 42 y in
  print (nl ++ "Train set: " ++ pretty (length X_train) ++ " samples") >>
  print ("Test set: " ++ pretty (length X_test) ++ " samples") >>
  (* Scale features *)
  let! scaler := alloc (ObjScaler StandardScaler) in
  let! X_train_scaled := fit_transform scaler X_train in
  let! X_test_scaled := transform scaler X_test in
  (* Train model *)
  let! model := train_model X_train_scaled y_train in
  (* Evaluate *)
  let! metrics := evaluate_model model X_test_scaled y_test in
  (* Save model *)
  save_model model scaler (arg_output a) >>
  (* Print final results *)
  print (nl ++ "=== Training Complete ===") >>
  print ("Accuracy: " ++ fmt_float 4 (accuracy metrics)) >>
  print ("Feature Importance: "
         ++ json_dumps (Some 2%nat)
              (JObj (map (fun '(k, v) => (k, JFloat v))
                         (feature_importance metrics)))) >>
  (* Exit with success *)
  sys_exit 0.

(** The [except Exception as e] block of [main]. *)
Definition main_handler (e : exn) : M unit :=
  eprint (nl ++ "✗ Error: " ++ exn_msg e) >>
  eprint (format_exc e) >>
  sys_exit 1.

(** [main], once [parser.parse_args()] has returned [a]. *)
Definition main (a : args) : M unit :=
  try_except (main_body a) main_handler.

End Script.
End TrainModel.

(** ** A small executable instance of the library boundary

    A reader and a writer for a subset of JSON, a mean-centring scaler, a
    nearest-neighbour classifier and a split that holds out the last rows.
    It stands in for the real libraries where a statement about the
    scripts is evaluated on concrete inputs. *)

Module Tiny.

Definition dquote : ascii := ascii_of_nat 34.

Definition is_ws (c : ascii) : bool :=
  Ascii.eqb c " " || Ascii.eqb c "010" || Ascii.eqb c "009" || Ascii.eqb c "013".

Fixpoint skip_ws (cs : list ascii) : list ascii :=
  match cs with
  | c :: rest => if is_ws c then skip_ws rest else cs
  | [] => []
  end.

Definition digit_of (c : ascii) : option Z :=
  let n := Z.of_nat (nat_of_ascii c) in
  if (48 <=? n) && (n <=? 57) then Some (n - 48) else None.

(** Reads a run of digits: their value, how many there were, the rest. *)
Fixpoint read_digits (cs : list ascii) (acc : Z) (count : nat)
    : Z * nat * list ascii :=
  match cs with
  | c :: rest =>
      match digit_of c with
      | Some d => read_digits rest (10 * acc + d) (S count)
      | None => (acc, count, cs)
      end
  | [] => (acc, count, [])
  end.

Definition read_number (cs : list ascii) : option (json * list ascii) :=
  let '(neg, cs1) :=
    match cs with
    | c :: rest => if Ascii.eqb c "-" then (true, rest) else (false, cs)
    | [] => (false, cs)
    end in
  let sign := if neg then -1 else 1 in
  match read_digits cs1 0 0 with
  | (_, O, _) => None
  | (ip, _, cs2) =>
      match cs2 with
      | c :: rest =>
          if Ascii.eqb c "." then
            match read_digits rest 0 0 with
            | (_, O, _) => None
            | (fp, k, cs3) =>
                let scale := 10 ^ Z.of_nat k in
                Some (JFloat (Qred (Qmake (sign * (ip * scale + fp))
                                          (Z.to_pos scale))), cs3)
            end
          else Some (JInt (sign * ip), cs2)
      | [] => Some (JInt (sign * ip), cs2)
      end
  end.

(** Reads up to the closing quote; escapes are not supported. *)
Fixpoint read_string (cs : list ascii) (acc : string)
    : option (string * list ascii) :=
  match cs with
  | c :: rest =>
      if Ascii.eqb c dquote then Some (acc, rest)
      else read_string rest (acc ++ String c "")
  | [] => None
  end.

Fixpoint read_elems (value : list ascii -> option (json * list ascii))
    (fuel : nat) (cs : list ascii) (acc : list json)
    : option (list json * list ascii) :=
  match fuel with
  | O => None
  | S fuel' =>
      match value cs with
      | Some (v, rest) =>
          match skip_ws rest with
          | c :: rest' =>
              if Ascii.eqb c "," then read_elems value fuel' rest' (acc ++ [v])%list
              else if Ascii.eqb c "]" then Some ((acc ++ [v])%list, rest')
              else None
          | [] => None
          end
      | None => None
      end
  end.

Fixpoint read_members (value : list ascii -> option (json * list ascii))
    (fuel : nat) (cs : list ascii) (acc : list (string * json))
    : option (list (string * json) * list ascii) :=
  match fuel with
  | O => None
  | S fuel' =>
      match skip_ws cs with
      | q :: rest =>
          if Ascii.eqb q dquote then
            match read_string rest "" with
            | Some (key, rest1) =>
                match skip_ws rest1 with
                | c :: rest2 =>
                    if Ascii.eqb c ":" then
                      match value rest2 with
                      | Some (v, rest3) =>
                          match skip_ws rest3 with
                          | d :: rest4 =>
                              if Ascii.eqb d ","
                              then read_members value fuel' rest4 (acc ++ [(key, v)])%list
                              else if Ascii.eqb d "}"
                              then Some ((acc ++ [(key, v)])%list, rest4)
                              else None
                          | [] => None
                          end
                      | None => None
                      end
                    else None
                | [] => None
                end
            | None => None
            end
          else None
      | [] => None
      end
  end.

Fixpoint read_value (fuel : nat) (cs : list ascii)
    : option (json * list ascii) :=
  match fuel with
  | O => None
  | S fuel' =>
      match skip_ws cs with
      | c :: rest =>
          if Ascii.eqb c "[" then
            match skip_ws rest with
            | d :: rest' =>
                if Ascii.eqb d "]" then Some (JArr [], rest')
                else
                  match read_elems (read_value fuel') fuel' rest [] with
                  | Some (l, rest'') => Some (JArr l, rest'')
                  | None => None
                  end
            | [] => None
            end
          else if Ascii.eqb c "{" then
            match skip_ws rest with
            | d :: rest' =>
                if Ascii.eqb d "}" then Some (JObj [], rest')
                else
                  match read_members (read_value fuel') fuel' rest [] with
                  | Some (kvs, rest'') => Some (JObj kvs, rest'')
                  | None => None
                  end
            | [] => None
            end
          else if Ascii.eqb c dquote then
            match read_string rest "" with
            | Some (s, rest') => Some (JStr s, rest')
            | None => None
            end
          else read_number (c :: rest)
      | [] => None
      end
  end.

Definition decode_error : exn :=
  Exception ValueError "Expecting value".

Definition json_loads (s : string) : result json :=
  let cs := String.list_ascii_of_string s in
  match read_value (S (length cs)) cs with
  | Some (v, rest) =>
      match skip_ws rest with
      | [] => inr v
      | _ => inl (Exception ValueError "Extra data")
      end
  | None => inl decode_error
  end.

(** Fixed-point decimal with [places] digits after the point. *)
Definition fmt_float (places : nat) (q : Q) : string :=
  let scale := 10 ^ Z.of_nat places in
  let scaled := Qfloor (q * inject_Z scale + (1 # 2))%Q in
  let a := Z.abs scaled in
  let frac := pretty (a mod scale) in
  (if scaled <? 0 then "-" else "")
  ++ pretty (a / scale) ++ "."
  ++ String.concat "" (replicate (places - String.length frac) "0") ++ frac.

Definition quoted (s : string) : string :=
  String dquote (s ++ String dquote "").

Definition newline_indent (indent : option nat) (level : nat) : string :=
  match indent with
  | Some n => String "010"%char (String.concat "" (replicate (n * level) " "))
  | None => ""
  end.

Definition item_separator (indent : option nat) : string :=
  match indent with Some _ => "," | None => ", " end.

Fixpoint dumps (indent : option nat) (level : nat) (v : json) : string :=
  match v with
  | JNull => "null"
  | JBool b => if b then "true" else "false"
  | JInt z => pretty z
  | JFloat q => fmt_float 4 q
  | JStr s => quoted s
  | JArr [] => "[]"
  | JArr l =>
      "[" ++ newline_indent indent (S level)
      ++ (fix items (l : list json) : string :=
            match l with
            | [] => ""
            | [x] => dumps indent (S level) x
            | x :: rest =>
                dumps indent (S level) x ++ item_separator indent
                ++ newline_indent indent (S level) ++ items rest
            end) l
      ++ newline_indent indent level ++ "]"
  | JObj [] => "{}"
  | JObj kvs =>
      "{" ++ newline_indent indent (S level)
      ++ (fix members (kvs : list (string * json)) : string :=
            match kvs with
            | [] => ""
            | [(k, x)] => quoted k ++ ": " ++ dumps indent (S level) x
            | (k, x) :: rest =>
                quoted k ++ ": " ++ dumps indent (S level) x
                ++ item_separator indent
                ++ newline_indent indent (S level) ++ members rest
            end) kvs
      ++ newline_indent indent level ++ "}"
  end.

Definition json_dumps (indent : option nat) (v : json) : string :=
  dumps indent 0 v.

(** *** Arrays *)

Definition value_error {A} (msg : string) : result A :=
  inl (Exception ValueError msg).

Definition number_of (v : json) : option Q :=
  match v with
  | JInt z => Some (inject_Z z)
  | JFloat q => Some q
  | _ => None
  end.

Definition row_of (v : json) : option (list Q) :=
  match v with
  | JArr l => mapM number_of l
  | _ => None
  end.

Definition same_width (X : matrix) : bool :=
  match X with
  | [] => true
  | r :: rest => forallb (fun r' => Nat.eqb (length r') (length r)) rest
  end.

Definition np_array_features (v : json) : result matrix :=
  match v with
  | JArr rows =>
      match mapM row_of rows with
      | Some X => if same_width X then inr X
                  else value_error "inhomogeneous shape"
      | None => value_error "not an array of numeric rows"
      end
  | _ => value_error "not an array"
  end.

Definition int_of (v : json) : option Z :=
  match v with JInt z => Some z | _ => None end.

Definition np_array_labels (v : json) : result labels :=
  match v with
  | JArr l =>
      match mapM int_of l with
      | Some ys => inr ys
      | None => value_error "not an array of integers"
      end
  | _ => value_error "not an array"
  end.

Definition np_array_row (v : json) : result matrix :=
  match row_of v with
  | Some r => inr [r]
  | None => value_error "not a numeric array"
  end.

Definition qsum (l : list Q) : Q := fold_left Qplus l 0%Q.

Definition np_mean (l : list Q) : Q :=
  match l with
  | [] => 0%Q
  | _ => Qred (qsum l / inject_Z (Z.of_nat (length l)))
  end.

(** Standard deviation to six decimal places. *)
Definition np_std (l : list Q) : Q :=
  let m := np_mean l in
  let var := np_mean (map (fun x => ((x - m) * (x - m))%Q) l) in
  Qred (Qmake (Z.sqrt (Qfloor (var * inject_Z (10 ^ 12))%Q)) (Z.to_pos (10 ^ 6))).

Definition str_shape (X : matrix) : string :=
  "(" ++ pretty (length X) ++ ", "
  ++ pretty (match X with r :: _ => length r | [] => 0%nat end) ++ ")".

Definition str_int_matrix (m : list (list Z)) : string :=
  "[" ++ String.concat (String "010"%char " ")
           (map (fun r => "[" ++ String.concat " " (map pretty r) ++ "]") m)
  ++ "]".

(** *** Scaler: subtracts the column means seen at fitting time *)

Definition Scl : Type := option (list Q).

Definition StandardScaler : Scl := None.

Definition centre (mu : list Q) (X : matrix) : result matrix :=
  if forallb (fun r => Nat.eqb (length r) (length mu)) X
  then inr (map (fun r => zip_with (fun x m => Qred (x - m)) r mu) X)
  else value_error "X has a different number of features than the scaler".

Definition scaler_transform (s : Scl) (X : matrix) : result matrix * Scl :=
  match s with
  | Some mu => (centre mu X, s)
  | None => (value_error "This StandardScaler instance is not fitted yet", s)
  end.

Definition scaler_fit_transform (s : Scl) (X : matrix) : result matrix * Scl :=
  match X with
  | [] => (value_error "Found array with 0 samples", s)
  | r :: rest =>
      if same_width X then
        let n := inject_Z (Z.of_nat (length X)) in
        let mu := map (fun t => Qred (t / n))
                      (fold_left (zip_with Qplus) rest r) in
        (centre mu X, Some mu)
      else (value_error "inhomogeneous shape", s)
  end.

(** *** Classifier: the label of the nearest training row *)

Definition Clf : Type := option (matrix * labels).

Definition RandomForestClassifier (_ : rf_params) : Clf := None.

Definition clf_fit (c : Clf) (X : matrix) (y : labels) : result unit * Clf :=
  match X with
  | [] => (value_error "Found array with 0 samples", c)
  | _ =>
      if Nat.eqb (length X) (length y) && same_width X
      then (inr tt, Some (X, y))
      else (value_error "inconsistent numbers of samples", c)
  end.

Definition dist2 (a b : list Q) : Q :=
  qsum (zip_with (fun x y => ((x - y) * (x - y))%Q) a b).

(** Label of the training row nearest to [r]; the earliest wins a tie. *)
Fixpoint nearest (r : list Q) (X : matrix) (y : labels) (best : Q * Z) : Z :=
  match X, y with
  | x :: X', l :: y' =>
      let d := dist2 r x in
      nearest r X' y' (if Qle_bool (fst best) d then best else (d, l))
  | _, _ => snd best
  end.

Definition width (X : matrix) : nat :=
  match X with r :: _ => length r | [] => 0%nat end.

Definition predict_row (X : matrix) (y : labels) (r : list Q) : option Z :=
  match X, y with
  | x :: X', l :: y' =>
      if Nat.eqb (length r) (length x)
      then Some (nearest r X' y' (dist2 r x, l))
      else None
  | _, _ => None
  end.

Definition not_fitted {A} : result A :=
  value_error "This RandomForestClassifier instance is not fitted yet".

Definition clf_predict (c : Clf) (X : matrix) : result labels * Clf :=
  match c with
  | Some (Xt, yt) =>
      (match mapM (predict_row Xt yt) X with
       | Some ys => inr ys
       | None => value_error "X has a different number of features than the model"
       end, c)
  | None => (not_fitted, c)
  end.

Fixpoint insert_class (z : Z) (l : list Z) : list Z :=
  match l with
  | [] => [z]
  | x :: rest =>
      if z <? x then z :: l
      else if z =? x then l
      else x :: insert_class z rest
  end.

(** [classes_]: the distinct labels, ascending. *)
Definition classes (y : labels) : list Z := foldr insert_class [] y.

Definition one_hot (cs : list Z) (z : Z) : list Q :=
  map (fun c => if c =? z then 1%Q else 0%Q) cs.

Definition clf_predict_proba (c : Clf) (X : matrix) : result matrix * Clf :=
  match c with
  | Some (Xt, yt) =>
      (match mapM (predict_row Xt yt) X with
       | Some ys => inr (map (one_hot (classes yt)) ys)
       | None => value_error "X has a different number of features than the model"
       end, c)
  | None => (not_fitted, c)
  end.

Definition clf_feature_importances (c : Clf) : result (list Q) :=
  match c with
  | Some (Xt, _) =>
      inr (replicate (width Xt) (Qmake 1 (Pos.of_nat (width Xt))))
  | None => not_fitted
  end.

(** *** Model selection and metrics *)

(** Holds out the last [ceil(test_size * n)] rows. *)
Definition train_test_split (X : matrix) (y : labels) (test_size : Q)
    (random_state : Z) (stratify : labels)
    : result (matrix * matrix * labels * labels) :=
  let n := length X in
  let n_test := Z.to_nat (Qceiling (test_size * inject_Z (Z.of_nat n))%Q) in
  if negb (Nat.eqb n (length y)) then
    value_error "inconsistent numbers of samples"
  else if Nat.eqb n_test 0 || Nat.leb n n_test then
    value_error "the resulting train or test set will be empty"
  else
    inr (take (n - n_test) X, drop (n - n_test) X,
         take (n - n_test) y, drop (n - n_test) y).

Definition accuracy_score (y_true y_pred : labels) : result Q :=
  if Nat.eqb (length y_true) (length y_pred) then
    let hits := length (filter (fun p => fst p = snd p)
                               (zip_with pair y_true y_pred)) in
    match y_true with
    | [] => inr 0%Q
    | _ => inr (Qred (Qmake (Z.of_nat hits) (Pos.of_nat (length y_true))))
    end
  else value_error "inconsistent numbers of samples".

(** Scores every fold 1 once there are enough samples to make folds. *)
Definition cross_val_score (c : Clf) (X : matrix) (y : labels) (cv : nat)
    (scoring : string) : result (list Q) * Clf :=
  if Nat.eqb (length X) (length y) && Nat.leb cv (length y)
  then (inr (replicate cv 1%Q), c)
  else (value_error "n_splits cannot be greater than the number of samples", c).

Definition classification_report (y_true y_pred : labels)
    (target_names : list string) : result string :=
  if Nat.eqb (length (classes (y_true ++ y_pred)%list)) (length target_names)
  then inr ("precision recall f1-score support: "
            ++ String.concat ", " target_names)
  else value_error "Number of classes does not match size of target_names".

Definition confusion_matrix (y_true y_pred : labels)
    : result (list (list Z)) :=
  if Nat.eqb (length y_true) (length y_pred) then
    let cs := classes (y_true ++ y_pred)%list in
    let pairs := zip_with pair y_true y_pred in
    inr (map (fun t =>
           map (fun p =>
             Z.of_nat (length (filter (fun tp => tp = (t, p)) pairs))) cs) cs)
  else value_error "inconsistent numbers of samples".

(** *** Formatting *)

Definition str_dict (d : list (string * string)) : string :=
  "{" ++ String.concat ", "
           (map (fun '(k, v) => "'" ++ k ++ "': '" ++ v ++ "'") d)
  ++ "}".

(** Everything before the last slash, or [.] when there is none. *)
Fixpoint parent_chars (cs : list ascii) : option (list ascii) :=
  match cs with
  | [] => None
  | c :: rest =>
      match parent_chars rest with
      | Some p => Some (c :: p)
      | None => if Ascii.eqb c "/" then Some [] else None
      end
  end.

(** The texts between the slashes of a path. *)
Fixpoint components (cs cur : list ascii) : list (list ascii) :=
  match cs with
  | [] => [cur]
  | c :: rest =>
      if Ascii.eqb c "/" then cur :: components rest []
      else components rest (cur ++ [c])%list
  end.

Definition is_dot (part : list ascii) : bool :=
  match part with
  | [] => true
  | [c] => Ascii.eqb c "."
  | _ => false
  end.

Fixpoint join_slash (parts : list (list ascii)) : list ascii :=
  match parts with
  | [] => []
  | [p] => p
  | p :: rest => (p ++ "/"%char :: join_slash rest)%list
  end.

(** [str(Path(p))]: no empty component, no [.] component, no slash at the
    end. *)
Definition path_str (path : string) : string :=
  let cs := String.list_ascii_of_string path in
  let absolute :=
    match cs with c :: _ => Ascii.eqb c "/" | [] => false end in
  let parts := List.filter (fun p => negb (is_dot p)) (components cs []) in
  match parts with
  | [] => if absolute then "/" else "."
  | _ =>
      String.string_of_list_ascii
        ((if absolute then ["/"%char] else []) ++ join_slash parts)%list
  end.

Definition path_parent (path : string) : string :=
  match parent_chars (String.list_ascii_of_string (path_str path)) with
  | Some [] => "/"
  | Some p => String.string_of_list_ascii p
  | None => "."
  end.

Definition format_exc (e : exn) : string :=
  "Traceback (most recent call last): " ++ exn_msg e.

Definition lib : Lib :=
  Build_Lib Clf Scl
    json_loads json_dumps
    np_array_features np_array_labels np_array_row np_mean np_std
    str_shape str_int_matrix
    train_test_split cross_val_score
    StandardScaler scaler_fit_transform scaler_transform
    RandomForestClassifier clf_fit clf_predict clf_predict_proba
    clf_feature_importances
    accuracy_score classification_report confusion_matrix
    fmt_float str_dict path_parent path_str format_exc.

End Tiny.


(** * Vocabulary of the statements *)

Section Vocabulary.
Context {L : Lib}.

(** [wp m w Q]: running [m] from [w] ends in an outcome and a world that
    satisfy [Q]. *)
Definition wp {A} (m : M A) (w : World) (Q : outcome A -> World -> Prop)
    : Prop :=
  Q (fst (m w)) (snd (m w)).

(** What a statement must establish for the statements that follow it. *)
Definition then_wp {A B} (k : A -> M B) (Q : outcome B -> World -> Prop)
    (o : outcome A) (w : World) : Prop :=
  match o with
  | Ret a => wp (k a) w Q
  | Raise e => Q (Raise e) w
  | Exit c => Q (Exit c) w
  end.

(** What a [try] block must establish for its [except] block. *)
Definition except_wp {A} (handler : exn -> M A)
    (Q : outcome A -> World -> Prop) (o : outcome A) (w : World) : Prop :=
  match o with
  | Raise e => wp (handler e) w Q
  | _ => Q o w
  end.

(** A statement that reads and writes nothing but the heap. *)
Definition heap_only {A} (m : M A) : Prop :=
  forall w1 w2, w_heap w1 = w_heap w2 ->
    fst (m w1) = fst (m w2) /\ w_heap (snd (m w1)) = w_heap (snd (m w2)).

(** A frozen estimator: predicting with it leaves its state as it was. *)
Definition frozen_scaler (s : Scl) : Prop :=
  forall X, snd (scaler_transform s X) = s.

Definition frozen_clf (c : Clf) : Prop :=
  forall X, snd (clf_predict c X) = c /\ snd (clf_predict_proba c X) = c.

(** [w] after printing the lines [ls]. *)
Definition add_stdout_lines (ls : list string) (w : World) : World :=
  mkWorld (w_stdout w ++ ls) (w_stderr w) (w_fs w) (w_dirs w) (w_denied w)
          (w_now w) (w_heap w) (w_calls w).

(** *** What a run of the trainer has done *)

(** The training set read from the file at [arg_input]. *)
Definition loaded (a : TrainModel.args) (fs : gmap string file)
    (X : matrix) (y : labels) : Prop :=
  exists text data jfeatures jlabels,
    fs !! TrainModel.arg_input a = Some (FText text) /\
    json_loads text = inr data /\
    py_getitem data "features" = inr jfeatures /\
    np_array_features jfeatures = inr X /\
    py_getitem data "labels" = inr jlabels /\
    np_array_labels jlabels = inr y.

Definition was_split (a : TrainModel.args) (fs : gmap string file)
    (X : matrix) (y : labels) (X_train X_test : matrix)
    (y_train y_test : labels) : Prop :=
  loaded a fs X y /\
  train_test_split X y (TrainModel.arg_test_size a) 42 y
    = inr (X_train, X_test, y_train, y_test).

Definition was_scaled (X_train X_test X_train_scaled X_test_scaled : matrix)
    (s1 s2 : Scl) : Prop :=
  scaler_fit_transform StandardScaler X_train = (inr X_train_scaled, s1) /\
  scaler_transform s1 X_test = (inr X_test_scaled, s2).

Definition was_fitted (X_train_scaled : matrix) (y_train : labels) (c1 : Clf)
    : Prop :=
  clf_fit (RandomForestClassifier TrainModel.rf_hyperparameters)
          X_train_scaled y_train = (inr tt, c1).

Definition split_call (a : TrainModel.args) (X : matrix) (y : labels)
    (r : result (matrix * matrix * labels * labels)) : libcall :=
  CallSplit X y (TrainModel.arg_test_size a) 42 y r.

(** The library calls of a run of the trainer started as a fresh process:
    one case per place where the run can stop calling the library.  The
    scaler is the first object the trainer allocates, the classifier the
    second. *)
Inductive train_log (a : TrainModel.args) (fs : gmap string file)
    : list libcall -> Prop :=
  | log_not_loaded : train_log a fs []
  | log_split_failed X y e :
      loaded a fs X y ->
      train_test_split X y (TrainModel.arg_test_size a) 42 y = inl e ->
      train_log a fs [split_call a X y (inl e)]
  | log_fit_transform_failed X y Xtr Xte ytr yte e s1 :
      was_split a fs X y Xtr Xte ytr yte ->
      scaler_fit_transform StandardScaler Xtr = (inl e, s1) ->
      train_log a fs
        [split_call a X y (inr (Xtr, Xte, ytr, yte));
         CallFitTransform 0 Xtr (inl e)]
  | log_transform_failed X y Xtr Xte ytr yte Xtr_s s1 e s2 :
      was_split a fs X y Xtr Xte ytr yte ->
      scaler_fit_transform StandardScaler Xtr = (inr Xtr_s, s1) ->
      scaler_transform s1 Xte = (inl e, s2) ->
      train_log a fs
        [split_call a X y (inr (Xtr, Xte, ytr, yte));
         CallFitTransform 0 Xtr (inr Xtr_s);
         CallTransform 0 Xte (inl e)]
  | log_fit_failed X y Xtr Xte ytr yte Xtr_s Xte_s s1 s2 e c1 :
      was_split a fs X y Xtr Xte ytr yte ->
      was_scaled Xtr Xte Xtr_s Xte_s s1 s2 ->
      clf_fit (RandomForestClassifier TrainModel.rf_hyperparameters)
              Xtr_s ytr = (inl e, c1) ->
      train_log a fs
        [split_call a X y (inr (Xtr, Xte, ytr, yte));
         CallFitTransform 0 Xtr (inr Xtr_s);
         CallTransform 0 Xte (inr Xte_s);
         CallFit 1 Xtr_s ytr (inl e)]
  | log_predicted X y Xtr Xte ytr yte Xtr_s Xte_s s1 s2 c1 r c2 :
      was_split a fs X y Xtr Xte ytr yte ->
      was_scaled Xtr Xte Xtr_s Xte_s s1 s2 ->
      was_fitted Xtr_s ytr c1 ->
      clf_predict c1 Xte_s = (r, c2) ->
      train_log a fs
        [split_call a X y (inr (Xtr, Xte, ytr, yte));
         CallFitTransform 0 Xtr (inr Xtr_s);
         CallTransform 0 Xte (inr Xte_s);
         CallFit 1 Xtr_s ytr (inr tt);
         CallPredict 1 Xte_s r]
  | log_cross_validated X y Xtr Xte ytr yte Xtr_s Xte_s s1 s2 c1 y_pred c2 r c3 :
      was_split a fs X y Xtr Xte ytr yte ->
      was_scaled Xtr Xte Xtr_s Xte_s s1 s2 ->
      was_fitted Xtr_s ytr c1 ->
      clf_predict c1 Xte_s = (inr y_pred, c2) ->
      cross_val_score c2 Xte_s yte 5 "accuracy" = (r, c3) ->
      train_log a fs
        [split_call a X y (inr (Xtr, Xte, ytr, yte));
         CallFitTransform 0 Xtr (inr Xtr_s);
         CallTransform 0 Xte (inr Xte_s);
         CallFit 1 Xtr_s ytr (inr tt);
         CallPredict 1 Xte_s (inr y_pred);
         CallCrossVal 1 Xte_s yte 5 "accuracy" r].

(** A run of the trainer that saved the bundle [b]: every library call
    succeeded, and [b] holds the states the two estimators were left in. *)
Inductive trained (a : TrainModel.args) (fs : gmap string file) (now : string)
    : bundle -> list libcall -> Prop :=
  | Trained X y Xtr Xte ytr yte Xtr_s Xte_s s1 s2 c1 y_pred c2 cv_scores c3 :
      was_split a fs X y Xtr Xte ytr yte ->
      was_scaled Xtr Xte Xtr_s Xte_s s1 s2 ->
      was_fitted Xtr_s ytr c1 ->
      clf_predict c1 Xte_s = (inr y_pred, c2) ->
      cross_val_score c2 Xte_s yte 5 "accuracy" = (inr cv_scores, c3) ->
      trained a fs now
        (Bundle (Some c3) (Some s2) (Some (TrainModel.bundle_metadata now)))
        [split_call a X y (inr (Xtr, Xte, ytr, yte));
         CallFitTransform 0 Xtr (inr Xtr_s);
         CallTransform 0 Xte (inr Xte_s);
         CallFit 1 Xtr_s ytr (inr tt);
         CallPredict 1 Xte_s (inr y_pred);
         CallCrossVal 1 Xte_s yte 5 "accuracy" (inr cv_scores)].

(** What every run of the trainer from a fresh process ends in. *)
Definition train_post (a : TrainModel.args) (fs : gmap string file)
    (now : string) (o : outcome unit) (w' : World) : Prop :=
  train_log a fs (w_calls w') /\
  ((o = Exit 1 /\ w_fs w' = fs) \/
   (o = Exit 0 /\
    exists b, trained a fs now b (w_calls w') /\
              w_fs w' = <[TrainModel.arg_output a := FJoblib b]> fs)).

Definition is_exception {A} (r : result A) : bool :=
  match r with inl _ => true | inr _ => false end.

(** A logged call that raised. *)
Definition raised (ev : libcall) : bool :=
  match ev with
  | CallSplit _ _ _ _ _ r => is_exception r
  | CallFitTransform _ _ r => is_exception r
  | CallTransform _ _ r => is_exception r
  | CallFit _ _ _ r => is_exception r
  | CallPredict _ _ r => is_exception r
  | CallPredictProba _ _ r => is_exception r
  | CallCrossVal _ _ _ _ _ r => is_exception r
  end.

(** *** What the predictor writes to the error stream *)

(** The progress lines of the predictor. *)
Definition progress_line (a : Predict.args) (line : string) : Prop :=
  line = "Loading model from " ++ Predict.arg_model a ++ "..." \/
  (exists metadata, line = "Model metadata: " ++ str_dict metadata) \/
  (exists path, line = "Prediction saved to " ++ path).

(** *** What a call of [predict_signal] that returned has done *)

Definition predicted (model scaler : loc) (features : json) (w : World)
    (r : Predict.prediction) (w' : World) : Prop :=
  exists X Xs preds code probas p,
    np_array_row features = inr X /\
    w_calls w' = (w_calls w ++ [CallTransform scaler X (inr Xs);
                               CallPredict model Xs (inr preds);
                               CallPredictProba model Xs (inr probas)])%list /\
    preds !! 0%nat = Some code /\
    probas !! 0%nat = Some p /\
    Predict.signal r = default "hold" (Predict.label_map !! code) /\
    np_max p = inr (Predict.confidence r) /\
    p !! 2%nat = Some (Predict.buy (Predict.probabilities r)) /\
    p !! 1%nat = Some (Predict.hold (Predict.probabilities r)) /\
    p !! 0%nat = Some (Predict.sell (Predict.probabilities r)).

End Vocabulary.

Definition qsum (l : list Q) : Q := fold_right Qplus 0%Q l.

Definition is_maximum (m : Q) (p : list Q) : Prop :=
  In m p /\ Forall (fun x => (x <= m)%Q) p.

(** A row of class probabilities that is a probability distribution. *)
Definition distribution (p : list Q) : Prop :=
  Forall (fun x => (0 <= x)%Q) p /\ (qsum p == 1)%Q.

(** * Concrete inputs

    Inputs on which statements are evaluated with the [Tiny] library. *)

Module Example.

(** Ten samples of two features; the split of [Tiny] trains on the first
    five and tests on the last five. *)
Definition training_text : string :=
  "{" ++ Tiny.quoted "features"
  ++ ": [[0, 0], [5, 5], [9, 9], [1, 0], [5, 6],"
  ++ " [9, 8], [0, 1], [6, 5], [8, 9], [1, 1]], "
  ++ Tiny.quoted "labels" ++ ": [-1, 0, 1, -1, 0, 1, -1, 0, 1, -1]}".

Definition train_args : TrainModel.args :=
  TrainModel.Args "data.json" "models/model.joblib" (1 # 2).

Definition train_fs : gmap string (file (L := Tiny.lib)) :=
  {[ "data.json" := FText training_text ]}.

Definition dirs : gset string := {[ "."; "models" ]}.

Definition train_world : World (L := Tiny.lib) :=
  initial_world train_fs dirs ∅ "2024-01-01T00:00:00".

Definition trained_world : World (L := Tiny.lib) :=
  snd (TrainModel.main train_args train_world).

(** The same file cut short. *)
Definition malformed_text : string :=
  "{" ++ Tiny.quoted "features" ++ ": [[0, 0], [5, 5], [9, ".

Definition malformed_world : World (L := Tiny.lib) :=
  initial_world {[ "data.json" := FText malformed_text ]} dirs ∅
    "2024-01-01T00:00:00".

(** A fresh process that finds the bundle the trainer saved. *)
Definition predict_world : World (L := Tiny.lib) :=
  initial_world (w_fs trained_world) dirs ∅ "2024-01-02T00:00:00".

Definition predict_args (features : string) (output : option string)
    : Predict.args :=
  Predict.Args "models/model.joblib" features output.

(** A bundle for 13 features whose classifier knows one row per class
    code 0, 1, 2. *)
Definition row13 (v : Z) : list Q := replicate 13 (inject_Z v).

Definition clf13 : Tiny.Clf := Some ([row13 0; row13 5; row13 10], [0; 1; 2]).
Definition scaler13 : Tiny.Scl := Some (row13 0).

Definition bundle13 : bundle (L := Tiny.lib) :=
  @Bundle Tiny.lib (Some clf13) (Some scaler13) (Some [("version", "1.0.0")]).

Definition features13 : string := "[9, 9, 9, 9, 9, 9, 9, 9, 9, 9, 9, 9, 9.5]".

Definition fs13 : gmap string (file (L := Tiny.lib)) :=
  {[ "model.joblib" := FJoblib bundle13 ]}.

Definition world13 : World (L := Tiny.lib) :=
  initial_world fs13 {[ "." ]} ∅ "2024-01-02T00:00:00".

Definition args13 (output : option string) : Predict.args :=
  Predict.Args "model.joblib" features13 output.

(** The process after [load_model]: classifier at 0, scaler at 1. *)
Definition loaded13 : World (L := Tiny.lib) :=
  mkWorld [] [] fs13 {[ "." ]} ∅ "2024-01-02T00:00:00"
    [@ObjClf Tiny.lib clf13; @ObjScaler Tiny.lib scaler13] [].

Definition vector13 : json :=
  JArr (replicate 12 (JInt 9) ++ [JFloat (19 # 2)])%list.

(** What the trainer leaves in the bundle for [training_text]: the five
    centred training rows with their labels, and the column means. *)
Definition rows (l : list (Z * Z)) : matrix :=
  map (fun p => [inject_Z (fst p); inject_Z (snd p)]) l.

Definition y_train : labels := [-1; 0; 1; -1; 0].
Definition y_test : labels := [1; -1; 0; 1; -1].
Definition X_train : matrix := rows [(0, 0); (5, 5); (9, 9); (1, 0); (5, 6)].
Definition X_test : matrix := rows [(9, 8); (0, 1); (6, 5); (8, 9); (1, 1)].
Definition X_train_scaled : matrix :=
  rows [(-4, -4); (1, 1); (5, 5); (-3, -4); (1, 2)].
Definition X_test_scaled : matrix :=
  rows [(5, 4); (-4, -3); (2, 1); (4, 5); (-3, -3)].

Definition trained_clf : Tiny.Clf := Some (X_train_scaled, y_train).
Definition trained_scaler : Tiny.Scl := Some [inject_Z 4; inject_Z 4].

Definition trained_bundle : bundle (L := Tiny.lib) :=
  @Bundle Tiny.lib (Some trained_clf) (Some trained_scaler)
    (Some (TrainModel.bundle_metadata "2024-01-01T00:00:00")).

(** The library calls of the trainer on [training_text]. *)
Definition trained_calls : list libcall :=
  [CallSplit (X_train ++ X_test)%list (y_train ++ y_test)%list (1 # 2) 42
     (y_train ++ y_test)%list (inr (X_train, X_test, y_train, y_test));
   CallFitTransform 0 X_train (inr X_train_scaled);
   CallTransform 0 X_test (inr X_test_scaled);
   CallFit 1 X_train_scaled y_train (inr tt);
   CallPredict 1 X_test_scaled (inr y_test);
   CallCrossVal 1 X_test_scaled y_test 5 "accuracy" (inr (replicate 5 1%Q))].

(** The vector of [features13] scaled, what [predict_signal] returns for
    it and the world it leaves. *)
Definition prediction13 : Predict.prediction :=
  Predict.Prediction "buy" 1 (Predict.ProbsDict 1 0 0).

Definition after13 : World (L := Tiny.lib) :=
  snd (Predict.predict_signal 0 1 vector13 loaded13).

End Example.

(** * More concrete inputs

    Process states in the middle of a run, for statements about single
    functions of the scripts. *)

Module Cases.

(** The estimators of the trainer after fitting on
    [Example.training_text]: the scaler is the first object, the
    classifier the second. *)
Definition trained_heap : list (pyobj (L := Tiny.lib)) :=
  [@ObjScaler Tiny.lib Example.trained_scaler;
   @ObjClf Tiny.lib Example.trained_clf].

(** The trainer about to evaluate, and about to save. *)
Definition evaluating : World (L := Tiny.lib) :=
  mkWorld [] [] Example.train_fs {[ "." ]} ∅ "2024-01-01T00:00:00"
    trained_heap [].

(** The same, where the output path may not be written. *)
Definition read_only : World (L := Tiny.lib) :=
  mkWorld [] [] Example.train_fs {[ "." ]} {[ "models/model.joblib" ]}
    "2024-01-01T00:00:00" trained_heap [].

Definition metrics : TrainModel.metrics :=
  TrainModel.Metrics 1 [("ma20_ma50", 1 # 2); ("rsi", 1 # 2)].

(** A classifier that knows two classes only. *)
Definition clf2 : Tiny.Clf :=
  Some ([Example.row13 0; Example.row13 10], [0; 1]).

Definition loaded2 : World (L := Tiny.lib) :=
  mkWorld [] [] Example.fs13 {[ "." ]} ∅ "2024-01-02T00:00:00"
    [@ObjClf Tiny.lib clf2; @ObjScaler Tiny.lib Example.scaler13] [].

(** A classifier that knows four classes, and a vector by the rows of
    the fourth. *)
Definition clf4 : Tiny.Clf :=
  Some ([Example.row13 0; Example.row13 5; Example.row13 10;
         Example.row13 20], [0; 1; 2; 3]).

Definition loaded4 : World (L := Tiny.lib) :=
  mkWorld [] [] Example.fs13 {[ "." ]} ∅ "2024-01-02T00:00:00"
    [@ObjClf Tiny.lib clf4; @ObjScaler Tiny.lib Example.scaler13] [].

Definition vector4 : json := JArr (replicate 13 (JInt 20)).

Definition prediction4 : Predict.prediction :=
  Predict.Prediction "hold" 1 (Predict.ProbsDict 0 0 0).

Definition after4 : World (L := Tiny.lib) :=
  snd (Predict.predict_signal 0 1 vector4 loaded4).

(** A training file without the [features] key. *)
Definition no_features_text : string :=
  "{" ++ Tiny.quoted "labels" ++ ": [1, 0]}".

Definition no_features : World (L := Tiny.lib) :=
  initial_world {[ "data.json" := FText no_features_text ]} {[ "." ]} ∅
    "2024-01-01T00:00:00".

End Cases.

(** * Symbolic execution of scripts *)

Ltac wsimpl :=
  cbn [w_stdout w_stderr w_fs w_dirs w_denied w_now w_heap w_calls
       add_stdout add_stderr set_fs set_dirs set_heap add_call initial_world
       add_stdout_lines then_wp except_wp of_result no_attribute fst snd]
    in *.

Section WP.
Context {L : Lib}.

Lemma wp_run {A} (m : M A) w Q o w' : wp m w Q -> m w = (o, w') -> Q o w'.
Proof. unfold wp. intros H E. now rewrite E in H. Qed.

Lemma wp_ret {A} (a : A) w Q : Q (Ret a) w -> wp (ret a) w Q.
Proof. exact id. Qed.

Lemma wp_bind {A B} (m : M A) (k : A -> M B) w Q :
  wp m w (then_wp k Q) -> wp (bind m k) w Q.
Proof.
  unfold wp, then_wp, bind. destruct (m w) as [[a|e|c] w']; simpl; auto.
Qed.

Lemma wp_try {A} (body : M A) handler w Q :
  wp body w (except_wp handler Q) -> wp (try_except body handler) w Q.
Proof.
  unfold wp, except_wp, try_except.
  destruct (body w) as [[a|e|c] w']; simpl; auto.
Qed.

Lemma wp_raise {A} (e : exn) w (Q : outcome A -> World -> Prop) :
  Q (Raise e) w -> wp (raise e) w Q.
Proof. exact id. Qed.

Lemma wp_sys_exit {A} code w (Q : outcome A -> World -> Prop) :
  Q (Exit code) w -> wp (sys_exit code) w Q.
Proof. exact id. Qed.

Lemma wp_lift {A} (r : result A) w Q :
  (forall e, r = inl e -> Q (Raise e) w) ->
  (forall a, r = inr a -> Q (Ret a) w) ->
  wp (lift r) w Q.
Proof. unfold wp, lift. destruct r; simpl; auto. Qed.

Lemma wp_print s w Q : Q (Ret tt) (add_stdout s w) -> wp (print s) w Q.
Proof. exact id. Qed.

Lemma wp_eprint s w Q : Q (Ret tt) (add_stderr s w) -> wp (eprint s) w Q.
Proof. exact id. Qed.

Lemma wp_alloc o w Q :
  (forall l h, l = length (w_heap w) -> h = (w_heap w ++ [o])%list ->
     Q (Ret l) (set_heap h w)) ->
  wp (alloc o) w Q.
Proof. intros H. now apply H. Qed.

Lemma wp_clf_call {A} l name (op : Clf -> result A * Clf) ev w Q :
  (forall c r c' h, w_heap w !! l = Some (ObjClf c) -> op c = (r, c') ->
     h = <[l := ObjClf c']> (w_heap w) ->
     Q (of_result r) (add_call (ev r) (set_heap h w))) ->
  ((forall c, w_heap w !! l <> Some (ObjClf c)) -> Q (no_attribute name) w) ->
  wp (clf_call l name op ev) w Q.
Proof.
  unfold wp, clf_call. intros Hc Hn.
  destruct (w_heap w !! l) as [[c|s]|] eqn:E.
  - destruct (op c) as [r c'] eqn:Eop. now apply (Hc c r c').
  - apply Hn. congruence.
  - apply Hn. congruence.
Qed.

Lemma wp_scaler_call {A} l name (op : Scl -> result A * Scl) ev w Q :
  (forall s r s' h, w_heap w !! l = Some (ObjScaler s) -> op s = (r, s') ->
     h = <[l := ObjScaler s']> (w_heap w) ->
     Q (of_result r) (add_call (ev r) (set_heap h w))) ->
  ((forall s, w_heap w !! l <> Some (ObjScaler s)) -> Q (no_attribute name) w) ->
  wp (scaler_call l name op ev) w Q.
Proof.
  unfold wp, scaler_call. intros Hs Hn.
  destruct (w_heap w !! l) as [[c|s]|] eqn:E.
  - apply Hn. congruence.
  - destruct (op s) as [r s'] eqn:Eop. now apply (Hs s r s').
  - apply Hn. congruence.
Qed.

Lemma wp_read_file path w Q :
  (forall f, w_fs w !! path = Some f -> Q (Ret f) w) ->
  (w_fs w !! path = None ->
   Q (Raise (Exception OSError "No such file or directory")) w) ->
  wp (read_file path) w Q.
Proof.
  unfold wp, read_file. intros Hf Hn.
  destruct (w_fs w !! path) as [f|]; simpl; auto.
Qed.

Lemma wp_open_w path w Q :
  (can_write path w = true ->
   Q (Ret tt) (set_fs (<[path := FText ""]> (w_fs w)) w)) ->
  (can_write path w = false ->
   Q (Raise (Exception OSError "cannot open file for writing")) w) ->
  wp (open_w path) w Q.
Proof.
  unfold wp, open_w. intros Ht Hf. destruct (can_write path w); simpl; auto.
Qed.

Lemma wp_write_text path s w Q :
  (forall old, w_fs w !! path = Some (FText old) ->
     Q (Ret tt) (set_fs (<[path := FText (old ++ s)]> (w_fs w)) w)) ->
  ((forall old, w_fs w !! path <> Some (FText old)) ->
     Q (Raise (Exception OSError "file is not open for writing")) w) ->
  wp (write_text path s) w Q.
Proof.
  unfold wp, write_text. intros Ht Hf.
  destruct (w_fs w !! path) as [[old|b|]|] eqn:E.
  - now apply Ht.
  - apply Hf. congruence.
  - apply Hf. congruence.
  - apply Hf. congruence.
Qed.

Lemma wp_mkdir_parents dir w Q :
  (dir ∈ w_dirs w -> Q (Ret tt) w) ->
  (dir ∉ w_dirs w -> is_Some (w_fs w !! dir) ->
   Q (Raise (Exception OSError "File exists")) w) ->
  (dir ∉ w_dirs w -> dir ∈ w_denied w ->
   Q (Raise (Exception OSError "cannot create directory")) w) ->
  (dir ∉ w_dirs w -> w_fs w !! dir = None -> dir ∉ w_denied w ->
   Q (Ret tt) (set_dirs ({[dir]} ∪ w_dirs w) w)) ->
  wp (mkdir_parents dir) w Q.
Proof.
  unfold wp, mkdir_parents. intros H1 H2 H3 H4.
  repeat case_bool_decide; simpl; auto.
  apply H4; auto. now apply eq_None_not_Some.
Qed.

Lemma wp_feature_importances_ model w Q :
  (forall c r, w_heap w !! model = Some (ObjClf c) ->
     clf_feature_importances c = r -> Q (of_result r) w) ->
  ((forall c, w_heap w !! model <> Some (ObjClf c)) ->
     Q (no_attribute "feature_importances_") w) ->
  wp (feature_importances_ model) w Q.
Proof.
  unfold wp, feature_importances_. intros Hc Hn.
  destruct (w_heap w !! model) as [[c|s]|] eqn:E.
  - now apply (Hc c).
  - apply Hn. congruence.
  - apply Hn. congruence.
Qed.

Lemma print_lines_run ls w :
  TrainModel.print_lines ls w = (Ret tt, add_stdout_lines ls w).
Proof.
  revert w. induction ls as [|s rest IH]; intros w; simpl.
  - unfold ret, add_stdout_lines. rewrite app_nil_r. now destruct w.
  - unfold bind, print. rewrite IH. unfold add_stdout_lines, add_stdout; simpl.
    now rewrite <- app_assoc.
Qed.

Lemma wp_print_lines ls w Q :
  Q (Ret tt) (add_stdout_lines ls w) -> wp (TrainModel.print_lines ls) w Q.
Proof. unfold wp. now rewrite print_lines_run. Qed.

Lemma wp_split X y ts rs st w Q :
  (forall e, train_test_split X y ts rs st = inl e ->
     Q (Raise e) (add_call (CallSplit X y ts rs st (inl e)) w)) ->
  (forall v, train_test_split X y ts rs st = inr v ->
     Q (Ret v) (add_call (CallSplit X y ts rs st (inr v)) w)) ->
  wp (TrainModel.split X y ts rs st) w Q.
Proof.
  unfold wp, TrainModel.split. intros He Hv.
  destruct (train_test_split X y ts rs st); simpl; auto.
Qed.

Lemma wp_datetime_now w Q :
  Q (Ret (w_now w)) w -> wp TrainModel.datetime_now_isoformat w Q.
Proof. exact id. Qed.

Lemma wp_joblib_dump model scaler md path w Q :
  (can_write path w = false ->
   Q (Raise (Exception OSError "cannot open file for writing")) w) ->
  (forall c s, can_write path w = true ->
     w_heap w !! model = Some (ObjClf c) ->
     w_heap w !! scaler = Some (ObjScaler s) ->
     Q (Ret tt)
       (set_fs (<[path := FJoblib (Bundle (Some c) (Some s) (Some md))]>
                  (w_fs w)) w)) ->
  (can_write path w = true ->
   (forall c s, ~ (w_heap w !! model = Some (ObjClf c) /\
                   w_heap w !! scaler = Some (ObjScaler s))) ->
   Q (Raise (Exception PicklingError "cannot pickle object"))
     (set_fs (<[path := FPartial]> (w_fs w)) w)) ->
  wp (TrainModel.joblib_dump model scaler md path) w Q.
Proof.
  unfold wp, TrainModel.joblib_dump. intros Hden Hok Hpickle.
  destruct (can_write path w) eqn:E; [|now apply Hden].
  destruct (w_heap w !! model) as [[c|s]|] eqn:Em;
    try (apply Hpickle; [reflexivity | intros ? ? [? ?]; congruence]).
  destruct (w_heap w !! scaler) as [[c'|s]|] eqn:Es;
    try (apply Hpickle; [reflexivity | intros ? ? [? ?]; congruence]).
  now apply Hok.
Qed.

End WP.

(** Brings a heap made of known objects, or an address in it, to a list
    literal, or a numeral. *)
Ltac heap_norm H := cbn [length app insert list_insert] in H.

(** One statement of the script under [wp]. *)
Ltac wp_step :=
  wsimpl;
  lazymatch goal with
  | |- wp (bind _ _) _ _ => apply wp_bind
  | |- wp (try_except _ _) _ _ => apply wp_try
  | |- wp (ret _) _ _ => apply wp_ret
  | |- wp (raise _) _ _ => apply wp_raise
  | |- wp (sys_exit _) _ _ => apply wp_sys_exit
  | |- wp (print _) _ _ => apply wp_print
  | |- wp (eprint _) _ _ => apply wp_eprint
  | |- wp (TrainModel.print_lines _) _ _ => apply wp_print_lines
  | |- wp TrainModel.datetime_now_isoformat _ _ => apply wp_datetime_now
  | |- wp (alloc _) _ _ =>
      let Hl := fresh in let Hh := fresh in
      apply wp_alloc; intros ? ? Hl Hh; wsimpl;
      heap_norm Hl; heap_norm Hh; subst
  | |- wp (lift _) _ _ => apply wp_lift; [intros ? ? | intros ? ?]
  | |- wp (TrainModel.split _ _ _ _ _) _ _ => apply wp_split; intros ? ?
  | |- wp (read_file _) _ _ => apply wp_read_file; [intros ? ? | intros ?]
  | |- wp (open_w _) _ _ => apply wp_open_w; intros ?
  | |- wp (write_text _ _) _ _ => apply wp_write_text; [intros ? ? | intros ?]
  | |- wp (mkdir_parents _) _ _ =>
      apply wp_mkdir_parents;
      [intros ? | intros ? ? | intros ? ? | intros ? ? ?]
  | |- wp (TrainModel.joblib_dump _ _ _ _) _ _ =>
      apply wp_joblib_dump; [intros ? | intros ? ? ? ? ? | intros ? ?]
  | |- wp (feature_importances_ _) _ _ =>
      apply wp_feature_importances_; [intros ? [?|?] ? ? | intros ?]
  | |- wp (clf_call _ _ _ _) _ _ =>
      let Hh := fresh in
      apply wp_clf_call;
      [intros ? [?|?] ? ? ? ? Hh; wsimpl; heap_norm Hh; subst | intros ?]
  | |- wp (scaler_call _ _ _ _) _ _ =>
      let Hh := fresh in
      apply wp_scaler_call;
      [intros ? [?|?] ? ? ? ? Hh; wsimpl; heap_norm Hh; subst | intros ?]
  | |- wp (match ?x with _ => _ end) _ _ => destruct x eqn:?
  end;
  wsimpl.

(** Uses what is known about the results of library calls and about the
    heap to discard the branches a run cannot take. *)
Ltac prune :=
  repeat match goal with
  | H : _ !! _ = Some (ObjClf _) |- _ => progress cbn in H
  | H : _ !! _ = Some (ObjScaler _) |- _ => progress cbn in H
  | H : forall c, _ !! _ <> Some _ |- _ =>
      exfalso; eapply H; cbn; reflexivity
  | H : forall c s, ~ (_ !! _ = Some _ /\ _ !! _ = Some _) |- _ =>
      exfalso; eapply H; split; cbn; reflexivity
  | H : <[?k:=_]> _ !! ?k = _ |- _ => rewrite lookup_insert_eq in H
  | H : forall old, <[?k:=_]> _ !! ?k <> Some _ |- _ =>
      exfalso; eapply H; apply lookup_insert_eq
  | H : py_len (JArr _) = _ |- _ => progress cbn in H
  | H1 : ?t = _, H2 : ?t = _ |- _ => rewrite H1 in H2
  | _ => progress simplify_eq
  end.

Ltac wp_exec := repeat (wp_step; prune).

(** * Facts about the interpreter-level helpers *)

Lemma py_index_inr {A} (l : list A) i x :
  py_index l i = inr x -> l !! i = Some x.
Proof. unfold py_index. destruct (l !! i); congruence. Qed.

Lemma qmax_cases a b :
  (qmax a b = a /\ (b <= a)%Q) \/ (qmax a b = b /\ (a <= b)%Q).
Proof.
  unfold qmax. destruct (Qle_bool a b) eqn:E.
  - right. split; [reflexivity|]. now apply Qle_bool_iff.
  - left. split; [reflexivity|].
    apply Qlt_le_weak, Qnot_le_lt. intros H. apply Qle_bool_iff in H. congruence.
Qed.

Lemma fold_qmax_spec rest x :
  In (fold_left qmax rest x) (x :: rest) /\
  (x <= fold_left qmax rest x)%Q /\
  Forall (fun y => (y <= fold_left qmax rest x)%Q) rest.
Proof.
  revert x. induction rest as [|y rest IH]; intros x; simpl.
  - repeat split; [now left | apply Qle_refl | constructor].
  - destruct (IH (qmax x y)) as (Hin & Hle & Hall).
    destruct (qmax_cases x y) as [[E Hyx]|[E Hxy]]; rewrite E in *.
    + split; [|split].
      * destruct Hin as [<-|Hin]; [now left | now right; right].
      * exact Hle.
      * constructor; [eapply Qle_trans; eassumption | exact Hall].
    + split; [|split].
      * right. exact Hin.
      * eapply Qle_trans; eassumption.
      * constructor; assumption.
Qed.

(** [np_max] returns an element of the array that bounds all the others. *)
Lemma np_max_is_maximum p m : np_max p = inr m -> is_maximum m p.
Proof.
  destruct p as [|x rest]; simpl; [discriminate|]. intros [= <-].
  destruct (fold_qmax_spec rest x) as (Hin & Hle & Hall).
  split; [exact Hin | now constructor].
Qed.

Lemma qsum_nonneg p : Forall (fun x => (0 <= x)%Q) p -> (0 <= qsum p)%Q.
Proof.
  induction 1 as [|x p Hx Hp IH]; simpl; [apply Qle_refl | lra].
Qed.

Lemma qsum_ge_member p m :
  Forall (fun x => (0 <= x)%Q) p -> In m p -> (m <= qsum p)%Q.
Proof.
  induction 1 as [|x p Hx Hp IH]; simpl; [contradiction|].
  intros [<-|Hin].
  - pose proof (qsum_nonneg p Hp). lra.
  - specialize (IH Hin). lra.
Qed.

Lemma maximum_of_distribution p m :
  Forall (fun x => (0 <= x)%Q) p -> (qsum p == 1)%Q -> is_maximum m p ->
  (0 <= m <= 1)%Q.
Proof.
  intros Hp Hs [Hin _]. split.
  - exact (proj1 (List.Forall_forall _ _) Hp m Hin).
  - rewrite <- Hs. now apply qsum_ge_member.
Qed.

Lemma label_map_lookup (code : Z) :
  Predict.label_map !! code =
    if decide (code = 0) then Some "sell"
    else if decide (code = 1) then Some "hold"
    else if decide (code = 2) then Some "buy"
    else None.
Proof.
  unfold Predict.label_map.
  repeat case_decide; subst; simplify_map_eq; reflexivity.
Qed.

(** * [predict_signal] *)

Section PredictSignal.
Context {L : Lib}.

Lemma predict_signal_wp model scaler features w :
  wp (Predict.predict_signal model scaler features) w (fun o w' =>
       forall r, o = Ret r -> predicted model scaler features w r w').
Proof.
  unfold Predict.predict_signal, transform, predict, predict_proba.
  repeat wp_step; try (intros ? [=]).
  subst. unfold predicted. wsimpl.
  repeat match goal with
         | H : py_index _ _ = inr _ |- _ => apply py_index_inr in H
         end.
  do 6 eexists. rewrite <- !app_assoc. simpl.
  repeat split; eauto.
Qed.

Lemma predict_signal_ret model scaler features w r w' :
  Predict.predict_signal model scaler features w = (Ret r, w') ->
  predicted model scaler features w r w'.
Proof.
  intros Hrun.
  exact (wp_run _ _ _ _ _ (predict_signal_wp model scaler features w) Hrun
           r eq_refl).
Qed.

(** C2. Whenever [predict_signal] returns, the [signal] field of the result
    is the entry of the fixed table 0 -> sell, 1 -> hold, 2 -> buy for the
    class code the classifier predicted for the scaled vector (the first
    element of what [model.predict] returned); a code outside the table
    gives the default of the lookup, hold. *)
Theorem signal_from_label_map model scaler features w r w' :
  Predict.predict_signal model scaler features w = (Ret r, w') ->
  exists X Xs preds probas code,
    w_calls w' = (w_calls w ++ [CallTransform scaler X (inr Xs);
                               CallPredict model Xs (inr preds);
                               CallPredictProba model Xs (inr probas)])%list /\
    preds !! 0%nat = Some code /\
    Predict.signal r = default "hold" (Predict.label_map !! code) /\
    (code = 0 -> Predict.signal r = "sell") /\
    (code = 1 -> Predict.signal r = "hold") /\
    (code = 2 -> Predict.signal r = "buy") /\
    (forall k v, Predict.label_map !! k = Some v <->
       (k = 0 /\ v = "sell") \/ (k = 1 /\ v = "hold") \/ (k = 2 /\ v = "buy")).
Proof.
  intros Hrun.
  destruct (predict_signal_ret _ _ _ _ _ _ Hrun)
    as (X & Xs & preds & code & probas & p & _ & Hlog & Hcode & _ & Hsig & _).
  exists X, Xs, preds, probas, code.
  repeat split; try assumption.
  - intros ->. now rewrite Hsig.
  - intros ->. now rewrite Hsig.
  - intros ->. now rewrite Hsig.
  - rewrite label_map_lookup. repeat case_decide; subst; intros [= <-]; auto.
  - intros [[-> ->]|[[-> ->]|[-> ->]]]; reflexivity.
Qed.

Lemma qsum_first_three p p0 p1 p2 :
  p !! 0%nat = Some p0 -> p !! 1%nat = Some p1 -> p !! 2%nat = Some p2 ->
  (qsum p == p2 + p1 + p0 + qsum (drop 3 p))%Q.
Proof.
  destruct p as [|x0 [|x1 [|x2 rest]]]; try discriminate.
  intros [= <-] [= <-] [= <-]. unfold qsum. cbn [drop fold_right].
  rewrite drop_0. generalize (fold_right Qplus 0%Q rest). intros q. lra.
Qed.

(** C5. Whenever [predict_signal] returns, [confidence] is the maximum of
    the probability row the classifier returned for the vector, and the
    [probabilities] dict holds the entries of that row by fixed index:
    buy from index 2, hold from index 1, sell from index 0.  When the row
    is a probability distribution, [confidence] is in [0, 1], and the
    three values of the dict sum to 1 less the probabilities past index
    2: to 1 when the row has exactly three entries, to at most 1
    otherwise. *)
Theorem confidence_and_probabilities model scaler features w r w' :
  Predict.predict_signal model scaler features w = (Ret r, w') ->
  exists Xs probas p,
    last (w_calls w') = Some (CallPredictProba model Xs (inr probas)) /\
    probas !! 0%nat = Some p /\
    np_max p = inr (Predict.confidence r) /\
    is_maximum (Predict.confidence r) p /\
    p !! 2%nat = Some (Predict.buy (Predict.probabilities r)) /\
    p !! 1%nat = Some (Predict.hold (Predict.probabilities r)) /\
    p !! 0%nat = Some (Predict.sell (Predict.probabilities r)) /\
    (distribution p -> (0 <= Predict.confidence r <= 1)%Q) /\
    (distribution p -> length p = 3%nat ->
       (Predict.buy (Predict.probabilities r)
        + Predict.hold (Predict.probabilities r)
        + Predict.sell (Predict.probabilities r) == 1)%Q) /\
    (distribution p ->
       (Predict.buy (Predict.probabilities r)
        + Predict.hold (Predict.probabilities r)
        + Predict.sell (Predict.probabilities r)
        == 1 - qsum (drop 3 p))%Q /\
       (Predict.buy (Predict.probabilities r)
        + Predict.hold (Predict.probabilities r)
        + Predict.sell (Predict.probabilities r) <= 1)%Q).
Proof.
  intros Hrun.
  destruct (predict_signal_ret _ _ _ _ _ _ Hrun)
    as (X & Xs & preds & code & probas & p
        & _ & Hlog & _ & Hp & _ & Hmax & H2 & H1 & H0).
  exists Xs, probas, p.
  pose proof (np_max_is_maximum _ _ Hmax) as Hismax.
  pose proof (qsum_first_three _ _ _ _ H0 H1 H2) as Hsplit.
  split; [|repeat split; try assumption; try apply Hismax].
  - rewrite Hlog.
    change [CallTransform scaler X (inr Xs); CallPredict model Xs (inr preds);
            CallPredictProba model Xs (inr probas)]
      with ([CallTransform scaler X (inr Xs); CallPredict model Xs (inr preds)]
            ++ [CallPredictProba model Xs (inr probas)])%list.
    rewrite app_assoc. apply last_snoc.
  - destruct H as [Hnn Hsum]. now apply (maximum_of_distribution p).
  - destruct H as [Hnn Hsum]. now apply (maximum_of_distribution p).
  - intros [_ Hsum] Hlen.
    destruct p as [|p0 [|p1 [|p2 [|? ?]]]]; try discriminate Hlen.
    cbn in H2, H1, H0, Hsum. simplify_eq. lra.
  - destruct H as [_ Hsum]. rewrite Hsum in Hsplit. lra.
  - destruct H as [Hnn Hsum]. rewrite Hsum in Hsplit.
    assert (0 <= qsum (drop 3 p))%Q.
    { apply qsum_nonneg.
      apply List.Forall_forall. intros x Hx.
      apply (proj1 (List.Forall_forall _ _) Hnn).
      apply list_elem_of_In. apply list_elem_of_In in Hx.
      eapply (subseteq_drop 3 p). exact Hx. }
    lra.
Qed.

(** ** Determinism *)

Lemma heap_only_ret {A} (a : A) : heap_only (ret a).
Proof. intros w1 w2 H. now split. Qed.

Lemma heap_only_lift {A} (r : result A) : heap_only (lift r).
Proof. intros w1 w2 H. now split. Qed.

Lemma heap_only_bind {A B} (m : M A) (k : A -> M B) :
  heap_only m -> (forall a, heap_only (k a)) -> heap_only (bind m k).
Proof.
  intros Hm Hk w1 w2 H. unfold bind.
  destruct (Hm w1 w2 H) as [Ho Hh].
  destruct (m w1) as [o1 v1], (m w2) as [o2 v2]. simpl in Ho, Hh. subst o2.
  destruct o1; try now split.
  now apply Hk.
Qed.

Lemma heap_only_clf_call {A} l name (op : Clf -> result A * Clf) ev :
  heap_only (clf_call l name op ev).
Proof.
  intros w1 w2 H. unfold clf_call. rewrite <- H.
  destruct (w_heap w1 !! l) as [[c|s]|]; try now split.
  destruct (op c) as [r c']. now split.
Qed.

Lemma heap_only_scaler_call {A} l name (op : Scl -> result A * Scl) ev :
  heap_only (scaler_call l name op ev).
Proof.
  intros w1 w2 H. unfold scaler_call. rewrite <- H.
  destruct (w_heap w1 !! l) as [[c|s]|]; try now split.
  destruct (op s) as [r s']. now split.
Qed.

(** The outcome of [predict_signal] depends on the world through the heap
    only. *)
Lemma predict_signal_heap_only model scaler features :
  heap_only (Predict.predict_signal model scaler features).
Proof.
  unfold Predict.predict_signal, transform, predict, predict_proba.
  repeat first
    [ apply heap_only_bind; [|intros ?]
    | apply heap_only_lift
    | apply heap_only_ret
    | apply heap_only_clf_call
    | apply heap_only_scaler_call ].
Qed.

Lemma frozen_scaler_step s X r s' :
  frozen_scaler s -> scaler_transform s X = (r, s') -> s' = s.
Proof. intros F E. specialize (F X). now rewrite E in F. Qed.

Lemma frozen_predict_step c X r c' :
  frozen_clf c -> clf_predict c X = (r, c') -> c' = c.
Proof. intros F E. destruct (F X) as [F1 _]. now rewrite E in F1. Qed.

Lemma frozen_proba_step c X r c' :
  frozen_clf c -> clf_predict_proba c X = (r, c') -> c' = c.
Proof. intros F E. destruct (F X) as [_ F2]. now rewrite E in F2. Qed.

(** With frozen estimators [predict_signal] leaves the heap as it was. *)
Lemma predict_signal_frozen model scaler features w c s :
  w_heap w !! model = Some (ObjClf c) ->
  w_heap w !! scaler = Some (ObjScaler s) ->
  frozen_clf c -> frozen_scaler s ->
  w_heap (snd (Predict.predict_signal model scaler features w)) = w_heap w.
Proof.
  intros Hm Hs Fc Fs.
  change (wp (Predict.predict_signal model scaler features) w
            (fun _ w' => w_heap w' = w_heap w)).
  unfold Predict.predict_signal, transform, predict, predict_proba.
  assert (Hid_s : <[scaler := ObjScaler s]> (w_heap w) = w_heap w)
    by now apply list_insert_id.
  assert (Hid_c : <[model := ObjClf c]> (w_heap w) = w_heap w)
    by now apply list_insert_id.
  repeat (wp_step;
    repeat match goal with
    | H : w_heap w !! scaler = Some (ObjScaler ?s0) |- _ =>
        lazymatch s0 with s => fail | _ =>
          assert (s0 = s) by congruence; subst s0 end
    | H : w_heap w !! model = Some (ObjClf ?c0) |- _ =>
        lazymatch c0 with c => fail | _ =>
          assert (c0 = c) by congruence; subst c0 end
    | H : scaler_transform s _ = (_, ?s') |- _ =>
        lazymatch s' with s => fail | _ =>
          pose proof (frozen_scaler_step _ _ _ _ Fs H); subst s' end
    | H : clf_predict c _ = (_, ?c') |- _ =>
        lazymatch c' with c => fail | _ =>
          pose proof (frozen_predict_step _ _ _ _ Fc H); subst c' end
    | H : clf_predict_proba c _ = (_, ?c') |- _ =>
        lazymatch c' with c => fail | _ =>
          pose proof (frozen_proba_step _ _ _ _ Fc H); subst c' end
    | _ => rewrite Hid_s in *
    | _ => rewrite Hid_c in *
    end);
  wsimpl; rewrite ?Hid_s, ?Hid_c; reflexivity.
Qed.

(** C10. With a frozen classifier and a frozen scaler on the heap, a second
    call of [predict_signal] on the same vector, made in the world the
    first call leaves, has the outcome of the first: the same result
    object, or the same exception. *)
Theorem predict_signal_deterministic model scaler features w c s :
  w_heap w !! model = Some (ObjClf c) ->
  w_heap w !! scaler = Some (ObjScaler s) ->
  frozen_clf c -> frozen_scaler s ->
  fst (Predict.predict_signal model scaler features
         (snd (Predict.predict_signal model scaler features w)))
  = fst (Predict.predict_signal model scaler features w).
Proof.
  intros Hm Hs Fc Fs.
  apply predict_signal_heap_only.
  now apply (predict_signal_frozen _ _ _ _ c s).
Qed.

End PredictSignal.

(** * The two scripts as processes *)

Ltac unfold_predict_main :=
  unfold Predict.main, Predict.main_body, Predict.main_handler,
    Predict.load_model, Predict.joblib_load, Predict.dict_item,
    Predict.predict_signal, transform, predict, predict_proba.

Ltac unfold_train_main :=
  unfold TrainModel.main, TrainModel.main_body, TrainModel.main_handler,
    TrainModel.load_data, TrainModel.train_model, TrainModel.evaluate_model,
    TrainModel.save_model, TrainModel.cross_val, read_text,
    fit_transform, transform, fit, predict.

Section Processes.
Context {L : Lib}.

(** ** What a run of the trainer ends in *)

Lemma train_main_spec a fs dirs denied now :
  wp (TrainModel.main a) (initial_world fs dirs denied now) (train_post a fs now).
Proof.
  unfold_train_main.
  wp_exec.
  all: unfold train_post, split_call; wsimpl; cbn [app length].
  all: repeat match goal with u : unit |- _ => destruct u end.
  all: split.
  all: try (econstructor; cbv [was_split was_scaled was_fitted loaded];
            eauto 12; fail).
  all: try (left; split; reflexivity).
  all: right; split; [reflexivity|];
       eexists; split; [|reflexivity];
       econstructor; cbv [was_split was_scaled was_fitted loaded];
       eauto 12.
Qed.

Lemma train_main_log a fs dirs denied now :
  train_log a fs (w_calls (snd (TrainModel.main a (initial_world fs dirs denied now)))).
Proof. apply (train_main_spec a fs dirs denied now). Qed.

Lemma train_main_exit_0 a fs dirs denied now :
  fst (TrainModel.main a (initial_world fs dirs denied now)) = Exit 0 ->
  exists b,
    trained a fs now b
      (w_calls (snd (TrainModel.main a (initial_world fs dirs denied now)))) /\
    w_fs (snd (TrainModel.main a (initial_world fs dirs denied now)))
      = <[TrainModel.arg_output a := FJoblib b]> fs.
Proof.
  intros Hex.
  destruct (train_main_spec a fs dirs denied now) as [_ [[H1 _]|(_ & H0)]].
  - rewrite Hex in H1. discriminate.
  - exact H0.
Qed.

(** An exception that leaves the [try] block ends the process with
    status 1. *)
Lemma predict_exception_fatal a w e w1 :
  Predict.main_body a w = (Raise e, w1) -> fst (Predict.main a w) = Exit 1.
Proof.
  intros H. unfold Predict.main, try_except. rewrite H. reflexivity.
Qed.

Lemma train_exception_fatal a w e w1 :
  TrainModel.main_body a w = (Raise e, w1) -> fst (TrainModel.main a w) = Exit 1.
Proof.
  intros H. unfold TrainModel.main, try_except. rewrite H. reflexivity.
Qed.

(** The predictor lets a vector of the wrong length through. *)
Lemma mismatch_continues a fs dirs denied now b c s l X :
  fs !! Predict.arg_model a = Some (FJoblib b) ->
  b_model b = Some c -> b_scaler b = Some s ->
  json_loads (Predict.arg_features a) = inr (JArr l) ->
  length l <> 13%nat ->
  np_array_row (JArr l) = inr X ->
  let w' := snd (Predict.main a (initial_world fs dirs denied now)) in
  In (Predict.feature_warning (length l)) (w_stderr w') /\
  exists r, In (CallTransform 1 X r) (w_calls w') /\
    forall Xs, r = inr Xs -> exists r', In (CallPredict 0 Xs r') (w_calls w').
Proof.
  intros Hf Hm Hs Hj Hl HX.
  change (wp (Predict.main a) (initial_world fs dirs denied now) (fun o w' =>
    In (Predict.feature_warning (length l)) (w_stderr w') /\
    exists r, In (CallTransform 1 X r) (w_calls w') /\
      forall Xs, r = inr Xs -> exists r', In (CallPredict 0 Xs r') (w_calls w'))).
  unfold_predict_main.
  wp_exec.
  all: try match goal with
           | H : bool_decide _ = false |- _ =>
               apply bool_decide_eq_false in H; contradiction
           end.
  all: (split; [cbn [app In]; auto 10 |
        eexists; split; [cbn [app In length]; eauto 10 |
          intros; simplify_eq; try (eexists; cbn [app In length]; eauto 10)]]).
Qed.

(** A run of the predictor that ends with status 0 has written to the
    error stream its progress lines and, at most, the feature-count
    warning. *)
Lemma predict_exit_0_stderr a fs dirs denied now :
  fst (Predict.main a (initial_world fs dirs denied now)) = Exit 0 ->
  Forall (fun line => progress_line a line \/
                      exists n, line = Predict.feature_warning n)
         (w_stderr (snd (Predict.main a (initial_world fs dirs denied now)))).
Proof.
  change (wp (Predict.main a) (initial_world fs dirs denied now) (fun o w' =>
    o = Exit 0 ->
    Forall (fun line => progress_line a line \/
                        exists n, line = Predict.feature_warning n)
           (w_stderr w'))).
  unfold_predict_main.
  wp_exec.
  all: intros Hex; try discriminate Hex.
  all: cbn [app];
    repeat (apply Forall_cons_2;
            [ unfold progress_line;
              first [ left; left; reflexivity
                    | left; right; left; eexists; reflexivity
                    | left; right; right; eexists; reflexivity
                    | right; eexists; reflexivity ] | ]);
    apply Forall_nil_2.
Qed.

(** A run of either script that ends with status 0 has survived no
    exception of a library call: every call in its log returned. *)
Lemma predict_exit_0_calls a fs dirs denied now :
  fst (Predict.main a (initial_world fs dirs denied now)) = Exit 0 ->
  Forall (fun ev => raised ev = false)
         (w_calls (snd (Predict.main a (initial_world fs dirs denied now)))).
Proof.
  change (wp (Predict.main a) (initial_world fs dirs denied now) (fun o w' =>
    o = Exit 0 -> Forall (fun ev => raised ev = false) (w_calls w'))).
  unfold_predict_main.
  wp_exec.
  all: intros Hex; try discriminate Hex.
  all: cbn [app]; repeat (apply Forall_cons_2; [reflexivity|]);
    apply Forall_nil_2.
Qed.

Lemma train_exit_0_calls a fs dirs denied now :
  fst (TrainModel.main a (initial_world fs dirs denied now)) = Exit 0 ->
  Forall (fun ev => raised ev = false)
         (w_calls (snd (TrainModel.main a (initial_world fs dirs denied now)))).
Proof.
  intros Hex.
  destruct (train_main_exit_0 a fs dirs denied now Hex) as (b & Htr & _).
  destruct Htr. unfold split_call.
  repeat (apply Forall_cons_2; [reflexivity|]). apply Forall_nil_2.
Qed.

(** C4. A parsed features array whose length is not 13 makes the predictor
    print the warning and go on: the vector reaches [scaler.transform],
    and what that returns reaches [model.predict].  Every exception, in
    either script, ends the process with status 1, and neither script
    goes on after a library call that raised: in a run that ends with
    status 0 every logged call returned.  A run of the predictor that
    ends with status 0 has on its error stream, besides the progress
    lines, nothing but that warning. *)
Theorem feature_count_mismatch_is_not_fatal a fs dirs denied now b c s l X :
  fs !! Predict.arg_model a = Some (FJoblib b) ->
  b_model b = Some c -> b_scaler b = Some s ->
  json_loads (Predict.arg_features a) = inr (JArr l) ->
  length l <> 13%nat ->
  np_array_row (JArr l) = inr X ->
  let w' := snd (Predict.main a (initial_world fs dirs denied now)) in
  In (Predict.feature_warning (length l)) (w_stderr w') /\
  (exists r, In (CallTransform 1 X r) (w_calls w') /\
     forall Xs, r = inr Xs ->
       exists r', In (CallPredict 0 Xs r') (w_calls w')) /\
  (forall pa w e w1, Predict.main_body pa w = (Raise e, w1) ->
     fst (Predict.main pa w) = Exit 1) /\
  (forall ta w e w1, TrainModel.main_body ta w = (Raise e, w1) ->
     fst (TrainModel.main ta w) = Exit 1) /\
  (forall pa fs0 dirs0 denied0 now0,
     fst (Predict.main pa (initial_world fs0 dirs0 denied0 now0)) = Exit 0 ->
     Forall (fun line => progress_line pa line \/
                         exists n, line = Predict.feature_warning n)
       (w_stderr (snd (Predict.main pa
                         (initial_world fs0 dirs0 denied0 now0)))) /\
     Forall (fun ev => raised ev = false)
       (w_calls (snd (Predict.main pa
                        (initial_world fs0 dirs0 denied0 now0))))) /\
  (forall ta fs0 dirs0 denied0 now0,
     fst (TrainModel.main ta (initial_world fs0 dirs0 denied0 now0)) = Exit 0 ->
     Forall (fun ev => raised ev = false)
       (w_calls (snd (TrainModel.main ta
                        (initial_world fs0 dirs0 denied0 now0))))).
Proof.
  intros Hf Hm Hs Hj Hl HX w'.
  destruct (mismatch_continues a fs dirs denied now b c s l X
              Hf Hm Hs Hj Hl HX) as [Hwarn Hcalls].
  split; [exact Hwarn|]. split; [exact Hcalls|].
  split; [exact predict_exception_fatal|].
  split; [exact train_exception_fatal|].
  split; [|exact train_exit_0_calls].
  intros pa fs0 dirs0 denied0 now0 Hex. split.
  - now apply predict_exit_0_stderr.
  - now apply predict_exit_0_calls.
Qed.

(** C8. When the JSON given to either script does not parse, the process
    ends with status 1 and the file system is as it was: no file and no
    directory has been created or written. *)
Theorem malformed_json_exits_1 pa ta w1 w2 text e1 e2 :
  json_loads (Predict.arg_features pa) = inl e1 ->
  w_fs w2 !! TrainModel.arg_input ta = Some (FText text) ->
  json_loads text = inl e2 ->
  (fst (Predict.main pa w1) = Exit 1 /\
   w_fs (snd (Predict.main pa w1)) = w_fs w1 /\
   w_dirs (snd (Predict.main pa w1)) = w_dirs w1) /\
  (fst (TrainModel.main ta w2) = Exit 1 /\
   w_fs (snd (TrainModel.main ta w2)) = w_fs w2 /\
   w_dirs (snd (TrainModel.main ta w2)) = w_dirs w2).
Proof.
  intros He1 Hf He2. split.
  - change (wp (Predict.main pa) w1 (fun o w' =>
              o = Exit 1 /\ w_fs w' = w_fs w1 /\ w_dirs w' = w_dirs w1)).
    unfold_predict_main. wp_exec. all: auto.
  - change (wp (TrainModel.main ta) w2 (fun o w' =>
              o = Exit 1 /\ w_fs w' = w_fs w2 /\ w_dirs w' = w_dirs w2)).
    unfold_train_main. wp_exec. all: auto.
Qed.

(** C9. When a run with [--output path] succeeds, the run on the same
    model file and the same features without [--output] succeeds too, and
    there is one result object of which the file holds the serialization
    with [indent=2] and the standard output the serialization without
    indent. *)
Theorem output_file_matches_stdout a fs dirs denied now path :
  Predict.arg_output a = Some path -> str_truthy path = true ->
  fst (Predict.main a (initial_world fs dirs denied now)) = Exit 0 ->
  let a' := Predict.Args (Predict.arg_model a) (Predict.arg_features a) None in
  exists r,
    w_fs (snd (Predict.main a (initial_world fs dirs denied now))) !! path
      = Some (FText (json_dumps (Some 2%nat) (Predict.prediction_json r))) /\
    fst (Predict.main a' (initial_world fs dirs denied now)) = Exit 0 /\
    w_stdout (snd (Predict.main a' (initial_world fs dirs denied now)))
      = [json_dumps None (Predict.prediction_json r)].
Proof.
  intros Ho Hp. cbv zeta.
  set (a' := Predict.Args _ _ _).
  change (wp (Predict.main a) (initial_world fs dirs denied now) (fun o w' =>
    o = Exit 0 -> exists r,
      w_fs w' !! path
        = Some (FText (json_dumps (Some 2%nat) (Predict.prediction_json r))) /\
      wp (Predict.main a') (initial_world fs dirs denied now) (fun o2 w2 =>
        o2 = Exit 0 /\
        w_stdout w2 = [json_dumps None (Predict.prediction_json r)]))).
  unfold_predict_main.
  wp_exec.
  all: intros Hex; try discriminate Hex.
  all: (eexists; split; [apply lookup_insert_eq|]).
  all: subst a'; cbn [Predict.arg_model Predict.arg_features Predict.arg_output].
  all: wp_exec.
  all: split; reflexivity.
Qed.

End Processes.

(** ** What the trainer passes to the library *)

(** Finds the library call [H] speaks of in the log of a run. *)
Ltac find_call H :=
  cbn [In] in H;
  repeat match type of H with
         | _ \/ _ => destruct H as [H|H]
         end;
  try contradiction; try discriminate H;
  try (unfold split_call in H; discriminate H);
  simplify_eq.

Section Trainer.
Context {L : Lib}.

(** C1. The label vector the trainer passes to [model.fit] is the
    training part that [train_test_split] returned for the label array as
    it was read from the input file: the labels reach the classifier as
    they are, and nothing maps -1, 0, 1 to 0, 1, 2. *)
Theorem fit_receives_split_labels a fs dirs denied now m X_fit y_fit r :
  In (CallFit m X_fit y_fit r)
     (w_calls (snd (TrainModel.main a (initial_world fs dirs denied now)))) ->
  exists X y X_train X_test y_test,
    loaded a fs X y /\
    train_test_split X y (TrainModel.arg_test_size a) 42 y
      = inr (X_train, X_test, y_fit, y_test).
Proof.
  intros Hin.
  pose proof (train_main_log a fs dirs denied now) as Hlog.
  destruct Hlog; find_call Hin;
    match goal with
    | H : was_split _ _ _ _ _ _ _ _ |- _ => destruct H as [Hload Hsplit]
    end;
    eauto 10.
Qed.

(** C6. Every cross-validation the trainer runs is
    [cross_val_score(model, X, y, cv=5, scoring='accuracy')] with [y] the
    test labels of the split and [X] the scaled test features, and a run
    that ends with status 0 has made that call. *)
Theorem cross_validation_on_test_partition a fs dirs denied now :
  let run := TrainModel.main a (initial_world fs dirs denied now) in
  (forall m X y cv scoring r,
     In (CallCrossVal m X y cv scoring r) (w_calls (snd run)) ->
     cv = 5%nat /\ scoring = "accuracy" /\
     exists X0 y0 X_train X_test y_train X_train_scaled s1 s2,
       was_split a fs X0 y0 X_train X_test y_train y /\
       was_scaled X_train X_test X_train_scaled X s1 s2) /\
  (fst run = Exit 0 ->
   exists m X y r,
     In (CallCrossVal m X y 5 "accuracy" (inr r)) (w_calls (snd run))).
Proof.
  intros run. split.
  - intros m X y cv scoring r Hin.
    pose proof (train_main_log a fs dirs denied now) as Hlog.
    fold run in Hlog.
    destruct Hlog; find_call Hin.
    repeat split; eauto 12.
  - intros Hex.
    destruct (train_main_exit_0 a fs dirs denied now Hex) as (b & Htr & _).
    fold run in Htr. destruct Htr.
    do 4 eexists. cbn [In]. eauto 10.
Qed.

(** C7. The scaler is fitted by one call, [fit_transform] on the training
    features of the split, and [transform] is called on the test features
    only, after that fit; the classifier is fitted on what [fit_transform]
    returned for the training features, and [predict] and
    [cross_val_score] are given what [transform] returned for the test
    features from the scaler as [fit_transform] left it.  A run that ends
    with status 0 has made these calls.  When [transform] leaves the state
    of a scaler as it was, the scaler saved in the bundle is the state
    [fit_transform] produced from the training features alone. *)
Theorem scaler_fitted_on_training_partition a fs dirs denied now :
  let run := TrainModel.main a (initial_world fs dirs denied now) in
  (forall s X r,
     In (CallFitTransform s X r) (w_calls (snd run)) ->
     exists X0 y0 X_test y_train y_test,
       was_split a fs X0 y0 X X_test y_train y_test) /\
  (forall s X r,
     In (CallTransform s X r) (w_calls (snd run)) ->
     exists X0 y0 X_train y_train y_test X_train_scaled,
       was_split a fs X0 y0 X_train X y_train y_test /\
       In (CallFitTransform s X_train (inr X_train_scaled))
          (w_calls (snd run))) /\
  (forall m X y r,
     In (CallFit m X y r) (w_calls (snd run)) ->
     exists s X_train, In (CallFitTransform s X_train (inr X))
                          (w_calls (snd run))) /\
  ((forall s X, snd (scaler_transform s X) = s) ->
   fst run = Exit 0 ->
   exists b X0 y0 X_train X_test y_train y_test,
     w_fs (snd run) !! TrainModel.arg_output a = Some (FJoblib b) /\
     was_split a fs X0 y0 X_train X_test y_train y_test /\
     b_scaler b = Some (snd (scaler_fit_transform StandardScaler X_train))) /\
  (forall m X r,
     In (CallPredict m X r) (w_calls (snd run)) ->
     exists X0 y0 X_train X_test y_train y_test X_train_scaled s1 s2,
       was_split a fs X0 y0 X_train X_test y_train y_test /\
       was_scaled X_train X_test X_train_scaled X s1 s2 /\
       In (CallTransform 0 X_test (inr X)) (w_calls (snd run))) /\
  (forall m X y cv scoring r,
     In (CallCrossVal m X y cv scoring r) (w_calls (snd run)) ->
     exists X0 y0 X_train X_test y_train X_train_scaled s1 s2,
       was_split a fs X0 y0 X_train X_test y_train y /\
       was_scaled X_train X_test X_train_scaled X s1 s2 /\
       In (CallTransform 0 X_test (inr X)) (w_calls (snd run))) /\
  (fst run = Exit 0 ->
   exists X0 y0 X_train X_test y_train y_test X_train_scaled X_test_scaled
          s1 s2 y_pred cv_scores,
     was_split a fs X0 y0 X_train X_test y_train y_test /\
     was_scaled X_train X_test X_train_scaled X_test_scaled s1 s2 /\
     In (CallFitTransform 0 X_train (inr X_train_scaled))
        (w_calls (snd run)) /\
     In (CallTransform 0 X_test (inr X_test_scaled)) (w_calls (snd run)) /\
     In (CallFit 1 X_train_scaled y_train (inr tt)) (w_calls (snd run)) /\
     In (CallPredict 1 X_test_scaled (inr y_pred)) (w_calls (snd run)) /\
     In (CallCrossVal 1 X_test_scaled y_test 5 "accuracy" (inr cv_scores))
        (w_calls (snd run))).
Proof.
  intros run.
  pose proof (train_main_log a fs dirs denied now) as Hlog. fold run in Hlog.
  split; [|split; [|split; [|split; [|split; [|split]]]]].
  - intros s X r Hin. destruct Hlog; find_call Hin; eauto 10.
  - intros s X r Hin.
    destruct Hlog; find_call Hin; do 6 eexists;
      (split; [eassumption | cbn [In]; eauto 10]).
  - intros m X y r Hin.
    destruct Hlog; find_call Hin; do 2 eexists; cbn [In]; eauto 10.
  - intros Hfrozen Hex.
    destruct (train_main_exit_0 a fs dirs denied now Hex) as (b & Htr & Hfs).
    fold run in Htr, Hfs. destruct Htr.
    match goal with H : was_scaled _ _ _ _ _ _ |- _ => destruct H as [Hft Htf] end.
    do 7 eexists. split; [|split; [eassumption|]].
    + rewrite Hfs. apply lookup_insert_eq.
    + cbn [b_scaler]. rewrite Hft. cbn [snd].
      pose proof (Hfrozen s1 Xte) as Hs. rewrite Htf in Hs. cbn [snd] in Hs.
      now subst.
  - intros m X r Hin.
    destruct Hlog; find_call Hin; do 9 eexists;
      (split; [eassumption|]; split; [eassumption|]; cbn [In]; eauto 10).
  - intros m X y cv scoring r Hin.
    destruct Hlog; find_call Hin; do 8 eexists;
      (split; [eassumption|]; split; [eassumption|]; cbn [In]; eauto 10).
  - intros Hex.
    destruct (train_main_exit_0 a fs dirs denied now Hex) as (b & Htr & _).
    fold run in Htr. destruct Htr.
    do 12 eexists.
    split; [eassumption|]. split; [eassumption|].
    cbn [In]. repeat split; eauto 10.
Qed.

End Trainer.

(** ** Bundles the trainer produces *)

Lemma lookup_clf_after_scaler_update `{L : Lib} (h : list pyobj)
    (scaler model : loc) s' c :
  <[scaler := ObjScaler s']> h !! model = Some (ObjClf c) ->
  h !! model = Some (ObjClf c).
Proof.
  intros H. apply list_lookup_insert_Some in H.
  destruct H as [(_ & Heq & _)|[_ H]]; [discriminate Heq | exact H].
Qed.

(** The class code behind the signal comes from [model.predict] on the
    classifier the heap holds when [predict_signal] is called. *)
Lemma predict_signal_code `{L : Lib} model scaler features w c r w' :
  w_heap w !! model = Some (ObjClf c) ->
  Predict.predict_signal model scaler features w = (Ret r, w') ->
  exists Xs preds c' code,
    clf_predict c Xs = (inr preds, c') /\
    preds !! 0%nat = Some code /\
    Predict.signal r = default "hold" (Predict.label_map !! code).
Proof.
  intros Hm Hrun.
  enough (wp (Predict.predict_signal model scaler features) w (fun o _ =>
            forall r, o = Ret r ->
            exists Xs preds c' code,
              clf_predict c Xs = (inr preds, c') /\
              preds !! 0%nat = Some code /\
              Predict.signal r = default "hold" (Predict.label_map !! code)))
    as Hwp.
  { exact (wp_run _ _ _ _ _ Hwp Hrun r eq_refl). }
  clear Hrun.
  unfold Predict.predict_signal, transform, predict, predict_proba.
  repeat (wp_step;
          repeat match goal with
          | H : <[_ := ObjScaler _]> _ !! _ = Some (ObjClf _) |- _ =>
              apply lookup_clf_after_scaler_update in H
          | H1 : ?t = _, H2 : ?t = _ |- _ => rewrite H1 in H2
          | _ => progress simplify_eq
          end);
    try (intros ? [=]).
  subst.
  repeat match goal with
         | H : py_index _ _ = inr _ |- _ => apply py_index_inr in H
         end.
  eauto 10.
Qed.

(** [load_model] puts the classifier and the scaler of a bundle on the
    heap and returns their addresses. *)
Lemma load_model_heap `{L : Lib} path w b c s :
  w_fs w !! path = Some (FJoblib b) ->
  b_model b = Some c -> b_scaler b = Some s ->
  exists model scaler w',
    Predict.load_model path w
      = (Ret (model, scaler, default [] (b_metadata b)), w') /\
    w_heap w' !! model = Some (ObjClf c) /\
    w_heap w' !! scaler = Some (ObjScaler s) /\
    w_fs w' = w_fs w.
Proof.
  intros Hf Hm Hs.
  exists (length (w_heap w)), (S (length (w_heap w))),
    (set_heap ((w_heap w ++ [ObjClf c]) ++ [ObjScaler s]) w).
  split; [|split; [|split]].
  - unfold Predict.load_model, Predict.joblib_load, bind, read_file.
    rewrite Hf, Hm, Hs. cbn. rewrite length_app. cbn.
    rewrite Nat.add_1_r. reflexivity.
  - cbn. rewrite <- app_assoc. apply list_lookup_middle. reflexivity.
  - cbn. rewrite lookup_app_r; rewrite length_app; cbn; [|lia].
    now replace (S (length (w_heap w)) - (length (w_heap w) + 1))%nat
      with 0%nat by lia.
  - reflexivity.
Qed.

Section TrainedBundle.
Context {L : Lib}.

(** What the library is relied on for: the training labels of a split are
    among the labels given, a fitted classifier predicts labels it was
    fitted on, and neither predicting nor cross-validating changes the
    classifier. *)
Hypothesis split_keeps_labels :
  forall X y ts rs st X_train X_test y_train y_test,
    train_test_split X y ts rs st = inr (X_train, X_test, y_train, y_test) ->
    forall z, In z y_train -> In z y.
Hypothesis predict_among_fitted :
  forall c X y c' X' ys c'',
    clf_fit c X y = (inr tt, c') ->
    clf_predict c' X' = (inr ys, c'') ->
    forall z, In z ys -> In z y.
Hypothesis predict_frozen : forall c X, snd (clf_predict c X) = c.
Hypothesis cross_val_frozen :
  forall c X y cv scoring, snd (cross_val_score c X y cv scoring) = c.

(** C3. Let the trainer end with status 0 on an input whose labels are all
    -1, 0 or 1.  The bundle it saved holds a classifier with which
    [predict_signal], whenever it returns, has a class code among -1, 0, 1
    behind its signal: code 0 gives sell, codes -1 and 1 give hold, and
    the signal is never buy. *)
Theorem trained_bundle_never_signals_buy a fs dirs denied now :
  fst (TrainModel.main a (initial_world fs dirs denied now)) = Exit 0 ->
  (forall X y, loaded a fs X y ->
     forall z, In z y -> z = -1 \/ z = 0 \/ z = 1) ->
  exists b c,
    w_fs (snd (TrainModel.main a (initial_world fs dirs denied now)))
      !! TrainModel.arg_output a = Some (FJoblib b) /\
    b_model b = Some c /\
    forall w model scaler features r w',
      w_heap w !! model = Some (ObjClf c) ->
      Predict.predict_signal model scaler features w = (Ret r, w') ->
      exists Xs preds c' code,
        clf_predict c Xs = (inr preds, c') /\
        preds !! 0%nat = Some code /\
        (code = -1 \/ code = 0 \/ code = 1) /\
        (code = 0 -> Predict.signal r = "sell") /\
        (code = -1 \/ code = 1 -> Predict.signal r = "hold") /\
        Predict.signal r <> "buy".
Proof.
  intros Hex Hdom.
  destruct (train_main_exit_0 a fs dirs denied now Hex) as (b & Htr & Hfs).
  destruct Htr as [X y Xtr Xte ytr yte Xtr_s Xte_s s1 s2 c1 y_pred c2 cvs c3
                   [Hload Hsplit] _ Hfit Hpred Hcv].
  assert (c2 = c1) as ->.
  { pose proof (predict_frozen c1 Xte_s) as H. now rewrite Hpred in H. }
  assert (c3 = c1) as ->.
  { pose proof (cross_val_frozen c1 Xte_s yte 5%nat "accuracy") as H.
    now rewrite Hcv in H. }
  eexists _, c1. split; [rewrite Hfs; apply lookup_insert_eq|].
  split; [reflexivity|].
  intros w model scaler features r w' Hm Hrun.
  destruct (predict_signal_code _ _ _ _ _ _ _ Hm Hrun)
    as (Xs & preds & c' & code & Hp & Hcode & Hsig).
  assert (Hin : code = -1 \/ code = 0 \/ code = 1).
  { apply (Hdom X y Hload).
    apply (split_keeps_labels _ _ _ _ _ _ _ _ _ Hsplit).
    apply (predict_among_fitted _ _ _ _ _ _ _ Hfit Hp).
    apply list_elem_of_In. eapply list_elem_of_lookup_2. exact Hcode. }
  exists Xs, preds, c', code.
  repeat split; try assumption.
  - intros ->. now rewrite Hsig.
  - intros [-> | ->]; now rewrite Hsig.
  - rewrite Hsig. destruct Hin as [-> | [-> | ->]]; discriminate.
Qed.

End TrainedBundle.

(** * The [Tiny] library keeps what the trainer relies on *)

Lemma tiny_split_keeps_labels X y ts rs st X_train X_test y_train y_test :
  Tiny.train_test_split X y ts rs st = inr (X_train, X_test, y_train, y_test) ->
  forall z, In z y_train -> In z y.
Proof.
  unfold Tiny.train_test_split. intros H z Hz.
  repeat match type of H with
         | (if ?b then _ else _) = _ => destruct b; [discriminate H|]
         end.
  injection H as <- <- <- <-.
  apply list_elem_of_In. apply list_elem_of_In in Hz.
  exact (subseteq_take _ _ _ Hz).
Qed.

Lemma tiny_nearest_in r X y best :
  Tiny.nearest r X y best = snd best \/ In (Tiny.nearest r X y best) y.
Proof.
  revert y best. induction X as [|x X IH]; intros [|l y] best; simpl;
    try (now left).
  destruct (IH y (if Qle_bool (fst best) (Tiny.dist2 r x) then best
                  else (Tiny.dist2 r x, l))) as [H|H].
  - rewrite H. destruct (Qle_bool _ _); simpl; auto.
  - auto.
Qed.

Lemma tiny_predict_row_in X y r z : Tiny.predict_row X y r = Some z -> In z y.
Proof.
  unfold Tiny.predict_row. destruct X as [|x X], y as [|l y]; try discriminate.
  destruct (Nat.eqb _ _); [|discriminate]. intros [= <-].
  destruct (tiny_nearest_in r X y (Tiny.dist2 r x, l)) as [H|H].
  - left. now rewrite H.
  - now right.
Qed.

Lemma tiny_predict_among_fitted (c : Tiny.Clf) X y c' X' ys c'' :
  Tiny.clf_fit c X y = (inr tt, c') ->
  Tiny.clf_predict c' X' = (inr ys, c'') ->
  forall z, In z ys -> In z y.
Proof.
  unfold Tiny.clf_fit, Tiny.clf_predict. intros Hfit Hpred z Hz.
  destruct X as [|x X]; [discriminate|].
  destruct (_ && _); [|discriminate]. injection Hfit as <-.
  destruct (mapM _ X') as [ys'|] eqn:E; [|discriminate].
  injection Hpred as <- _.
  apply mapM_Some in E.
  apply list_elem_of_In in Hz. apply list_elem_of_lookup_1 in Hz.
  destruct Hz as [i Hi].
  destruct (Forall2_lookup_r _ _ _ _ _ E Hi) as (row & _ & Hrow).
  exact (tiny_predict_row_in _ _ _ _ Hrow).
Qed.

Lemma tiny_predict_frozen (c : Tiny.Clf) X : snd (Tiny.clf_predict c X) = c.
Proof. destruct c as [[Xt yt]|]; reflexivity. Qed.

Lemma tiny_predict_proba_frozen (c : Tiny.Clf) X :
  snd (Tiny.clf_predict_proba c X) = c.
Proof. destruct c as [[Xt yt]|]; reflexivity. Qed.

Lemma tiny_cross_val_frozen (c : Tiny.Clf) X y cv scoring :
  snd (Tiny.cross_val_score c X y cv scoring) = c.
Proof. unfold Tiny.cross_val_score. now destruct (_ && _). Qed.

Lemma tiny_transform_frozen (s : Tiny.Scl) X :
  snd (Tiny.scaler_transform s X) = s.
Proof. now destruct s. Qed.

(** * The statements on concrete inputs *)

(** The example classifier returns class code 2 for [vector13], and the
    signal is buy. *)
Lemma signal_from_label_map_witness :
  Predict.predict_signal (L := Tiny.lib) 0 1 Example.vector13 Example.loaded13
    = (Ret Example.prediction13, Example.after13) /\
  exists X Xs preds probas code,
    w_calls Example.after13
      = (w_calls Example.loaded13
         ++ [CallTransform 1 X (inr Xs); CallPredict 0 Xs (inr preds);
             CallPredictProba 0 Xs (inr probas)])%list /\
    preds !! 0%nat = Some code /\
    Predict.signal Example.prediction13
      = default "hold" (Predict.label_map !! code) /\
    (code = 0 -> Predict.signal Example.prediction13 = "sell") /\
    (code = 1 -> Predict.signal Example.prediction13 = "hold") /\
    (code = 2 -> Predict.signal Example.prediction13 = "buy") /\
    (forall k v, Predict.label_map !! k = Some v <->
       (k = 0 /\ v = "sell") \/ (k = 1 /\ v = "hold") \/ (k = 2 /\ v = "buy")).
Proof.
  split; [reflexivity|].
  apply (signal_from_label_map (L := Tiny.lib) 0 1
           Example.vector13 Example.loaded13). reflexivity.
Defined.

(** The probability row of the example is (0, 0, 1): confidence 1, and
    the three values of the dict sum to 1. *)
Lemma confidence_and_probabilities_witness :
  Predict.predict_signal (L := Tiny.lib) 0 1 Example.vector13 Example.loaded13
    = (Ret Example.prediction13, Example.after13) /\
  distribution [0; 0; 1]%Q /\
  (0 <= Predict.confidence Example.prediction13 <= 1)%Q /\
  (Predict.buy (Predict.probabilities Example.prediction13)
   + Predict.hold (Predict.probabilities Example.prediction13)
   + Predict.sell (Predict.probabilities Example.prediction13) == 1)%Q.
Proof.
  assert (Hdist : distribution [0; 0; 1]%Q).
  { split; [|reflexivity]. repeat constructor; discriminate. }
  split; [reflexivity|]. split; [exact Hdist|].
  destruct (confidence_and_probabilities (L := Tiny.lib) 0 1
              Example.vector13 Example.loaded13
              Example.prediction13 Example.after13 eq_refl)
    as (Xs & probas & p & Hlast & Hp & _ & _ & _ & _ & _ & Hconf & Hsum & _).
  injection Hlast as _ <-. injection Hp as <-.
  split; [exact (Hconf Hdist) | exact (Hsum Hdist eq_refl)].
Defined.

(** A classifier of four classes that is sure of the fourth: the row
    (0, 0, 0, 1) is a probability distribution, and the three values of
    the dict are 0, 0 and 0. *)
Lemma three_probabilities_need_not_sum_to_1 :
  Predict.predict_signal (L := Tiny.lib) 0 1 Cases.vector4 Cases.loaded4
    = (Ret Cases.prediction4, Cases.after4) /\
  (exists Xs,
     last (w_calls Cases.after4)
       = Some (CallPredictProba 0 Xs (inr [[0; 0; 0; 1]%Q]))) /\
  distribution [0; 0; 0; 1]%Q /\
  ~ (Predict.buy (Predict.probabilities Cases.prediction4)
     + Predict.hold (Predict.probabilities Cases.prediction4)
     + Predict.sell (Predict.probabilities Cases.prediction4) == 1)%Q.
Proof.
  split; [reflexivity|]. split; [eexists; reflexivity|]. split.
  - split; [|reflexivity]. repeat constructor; discriminate.
  - cbn. intros H. discriminate H.
Qed.

(** The example estimators are frozen, and a second prediction agrees
    with the first. *)
Lemma predict_signal_deterministic_witness :
  frozen_clf (L := Tiny.lib) Example.clf13 /\
  frozen_scaler (L := Tiny.lib) Example.scaler13 /\
  fst (Predict.predict_signal (L := Tiny.lib) 0 1 Example.vector13
         (snd (Predict.predict_signal 0 1 Example.vector13 Example.loaded13)))
  = fst (Predict.predict_signal 0 1 Example.vector13 Example.loaded13).
Proof.
  assert (Hc : frozen_clf (L := Tiny.lib) Example.clf13)
    by (intros X; split; reflexivity).
  assert (Hs : frozen_scaler (L := Tiny.lib) Example.scaler13)
    by (intros X; reflexivity).
  split; [exact Hc|]. split; [exact Hs|].
  exact (predict_signal_deterministic (L := Tiny.lib) 0 1 Example.vector13
           Example.loaded13 Example.clf13 Example.scaler13
           eq_refl eq_refl Hc Hs).
Defined.

(** The bundle trained on two features takes a vector of two features:
    the predictor warns and ends with status 0. *)
Lemma feature_count_mismatch_is_not_fatal_witness :
  fst (Predict.main (L := Tiny.lib) (Example.predict_args "[9, 8.5]" None)
         Example.predict_world) = Exit 0 /\
  In "Warning: Expected 13 features, got 2"
     (w_stderr (snd (Predict.main (L := Tiny.lib)
                       (Example.predict_args "[9, 8.5]" None)
                       Example.predict_world))).
Proof.
  split; [reflexivity|].
  refine (proj1 (feature_count_mismatch_is_not_fatal (L := Tiny.lib)
            (Example.predict_args "[9, 8.5]" None)
            (w_fs Example.trained_world) Example.dirs ∅ "2024-01-02T00:00:00"
            Example.trained_bundle Example.trained_clf Example.trained_scaler
            [JInt 9; JFloat (17 # 2)] [[9; 17 # 2]%Q]
            eq_refl eq_refl eq_refl eq_refl _ eq_refl)).
  discriminate.
Defined.

(** Features and a training file cut short: status 1, nothing written. *)
Lemma malformed_json_exits_1_witness :
  fst (Predict.main (L := Tiny.lib) (Example.predict_args "[9, 8" (Some "out.json"))
         Example.predict_world) = Exit 1 /\
  w_fs (snd (Predict.main (L := Tiny.lib)
               (Example.predict_args "[9, 8" (Some "out.json"))
               Example.predict_world)) !! "out.json" = None /\
  fst (TrainModel.main (L := Tiny.lib) Example.train_args
         Example.malformed_world) = Exit 1 /\
  w_fs (snd (TrainModel.main (L := Tiny.lib) Example.train_args
               Example.malformed_world)) !! "models/model.joblib" = None.
Proof.
  destruct (malformed_json_exits_1 (L := Tiny.lib)
              (Example.predict_args "[9, 8" (Some "out.json"))
              Example.train_args Example.predict_world Example.malformed_world
              Example.malformed_text Tiny.decode_error Tiny.decode_error
              eq_refl eq_refl eq_refl)
    as [(Hp1 & Hp2 & _) (Ht1 & Ht2 & _)].
  split; [exact Hp1|]. split; [rewrite Hp2; reflexivity|].
  split; [exact Ht1|]. rewrite Ht2. reflexivity.
Defined.

(** With and without [--output] the example predictor serializes the same
    result object. *)
Lemma output_file_matches_stdout_witness :
  fst (Predict.main (L := Tiny.lib) (Example.args13 (Some "out.json"))
         Example.world13) = Exit 0 /\
  exists r,
    w_fs (snd (Predict.main (L := Tiny.lib) (Example.args13 (Some "out.json"))
                 Example.world13)) !! "out.json"
      = Some (FText (Tiny.json_dumps (Some 2%nat) (Predict.prediction_json r))) /\
    fst (Predict.main (L := Tiny.lib) (Example.args13 None) Example.world13)
      = Exit 0 /\
    w_stdout (snd (Predict.main (L := Tiny.lib) (Example.args13 None)
                     Example.world13))
      = [Tiny.json_dumps None (Predict.prediction_json r)].
Proof.
  split; [reflexivity|].
  exact (output_file_matches_stdout (L := Tiny.lib)
           (Example.args13 (Some "out.json"))
           Example.fs13 {[ "." ]} ∅ "2024-01-02T00:00:00" "out.json"
           eq_refl eq_refl eq_refl).
Defined.

(** The call of [fit] in the example run has the training labels of the
    split, as they are in the input file. *)
Lemma fit_receives_split_labels_witness :
  In (CallFit 1 Example.X_train_scaled Example.y_train (inr tt))
     (w_calls Example.trained_world) /\
  exists X y X_train X_test y_test,
    loaded (L := Tiny.lib) Example.train_args Example.train_fs X y /\
    Tiny.train_test_split X y (1 # 2) 42 y
      = inr (X_train, X_test, Example.y_train, y_test).
Proof.
  assert (Hin : In (CallFit 1 Example.X_train_scaled Example.y_train (inr tt))
                   (w_calls Example.trained_world)).
  { change (w_calls Example.trained_world) with Example.trained_calls.
    do 3 right. left. reflexivity. }
  split; [exact Hin|].
  apply (fit_receives_split_labels (L := Tiny.lib) Example.train_args
           Example.train_fs Example.dirs ∅ "2024-01-01T00:00:00"
           1%nat Example.X_train_scaled Example.y_train (inr tt)).
  exact Hin.
Defined.

(** The input labels of the training part are -1, 0, 1, -1, 0; mapped by
    -1 -> 0, 0 -> 1, 1 -> 2 they would be 0, 1, 2, 0, 1.  The classifier
    is fitted on the former, and on nothing else. *)
Lemma fit_labels_are_not_remapped :
  (exists X0 y0 X_train X_test y_test,
     In (CallSplit X0 y0 (1 # 2) 42 y0
           (inr (X_train, X_test, [-1; 0; 1; -1; 0], y_test)))
        (w_calls Example.trained_world)) /\
  (exists m X r,
     In (CallFit m X [-1; 0; 1; -1; 0] r)
        (w_calls Example.trained_world)) /\
  (forall m X y r,
     In (CallFit m X y r) (w_calls Example.trained_world) ->
     y <> map (fun z => z + 1) [-1; 0; 1; -1; 0]).
Proof.
  split; [|split].
  - exists (Example.X_train ++ Example.X_test)%list,
      (Example.y_train ++ Example.y_test)%list,
      Example.X_train, Example.X_test, Example.y_test.
    change (w_calls Example.trained_world) with Example.trained_calls.
    left. reflexivity.
  - exists 1%nat, Example.X_train_scaled, (inr tt).
    change (w_calls Example.trained_world) with Example.trained_calls.
    do 3 right. left. reflexivity.
  - intros m X y r Hin.
    change (w_calls Example.trained_world) with Example.trained_calls in Hin.
    unfold Example.trained_calls in Hin.
    cbn [In] in Hin.
    repeat match type of Hin with
           | _ \/ _ => destruct Hin as [Hin|Hin]
           end;
      try discriminate Hin; try contradiction.
    injection Hin as _ _ <- _. discriminate.
Qed.

(** The cross-validation of the example run is on its five test rows. *)
Lemma cross_validation_on_test_partition_witness :
  fst (TrainModel.main (L := Tiny.lib) Example.train_args Example.train_world)
    = Exit 0 /\
  In (CallCrossVal 1 Example.X_test_scaled Example.y_test 5
        "accuracy" (inr (replicate 5 1%Q)))
     (w_calls Example.trained_world) /\
  exists X0 y0 X_train X_test y_train X_train_scaled s1 s2,
    was_split (L := Tiny.lib) Example.train_args Example.train_fs
      X0 y0 X_train X_test y_train Example.y_test /\
    was_scaled (L := Tiny.lib) X_train X_test X_train_scaled
      Example.X_test_scaled s1 s2.
Proof.
  assert (Hin : In (CallCrossVal 1 Example.X_test_scaled Example.y_test 5
                      "accuracy" (inr (replicate 5 1%Q)))
                   (w_calls Example.trained_world)).
  { change (w_calls Example.trained_world) with Example.trained_calls.
    do 5 right. left. reflexivity. }
  split; [reflexivity|]. split; [exact Hin|].
  apply (proj1 (cross_validation_on_test_partition (L := Tiny.lib)
                  Example.train_args Example.train_fs Example.dirs ∅
                  "2024-01-01T00:00:00")
           1%nat Example.X_test_scaled Example.y_test 5%nat "accuracy"
           (inr (replicate 5 1%Q))).
  exact Hin.
Defined.

(** The scaler of the example bundle holds the column means of the five
    training rows. *)
Lemma scaler_fitted_on_training_partition_witness :
  (forall s X, snd (Tiny.scaler_transform s X) = s) /\
  fst (TrainModel.main (L := Tiny.lib) Example.train_args Example.train_world)
    = Exit 0 /\
  exists b X0 y0 X_train X_test y_train y_test,
    w_fs Example.trained_world !! "models/model.joblib" = Some (FJoblib b) /\
    was_split (L := Tiny.lib) Example.train_args Example.train_fs
      X0 y0 X_train X_test y_train y_test /\
    b_scaler b = Some (snd (Tiny.scaler_fit_transform Tiny.StandardScaler X_train)).
Proof.
  assert (Hfrozen : forall s X, snd (Tiny.scaler_transform s X) = s)
    by (intros [mu|] X; reflexivity).
  split; [exact Hfrozen|]. split; [reflexivity|].
  pose proof (scaler_fitted_on_training_partition (L := Tiny.lib)
                Example.train_args Example.train_fs Example.dirs ∅
                "2024-01-01T00:00:00") as T.
  cbv zeta in T. destruct T as (_ & _ & _ & T & _).
  assert (Hex : fst (TrainModel.main (L := Tiny.lib) Example.train_args
                       (initial_world Example.train_fs Example.dirs ∅
                          "2024-01-01T00:00:00")) = Exit 0) by reflexivity.
  specialize (T Hfrozen Hex).
  exact T.
Defined.

Lemma example_labels_in_domain X y :
  loaded (L := Tiny.lib) Example.train_args Example.train_fs X y ->
  forall z, In z y -> z = -1 \/ z = 0 \/ z = 1.
Proof.
  intros (text & data & jf & jl & Hfile & Hdata & _ & _ & Hjl & Hy) z Hz.
  change (Some (FText (L := Tiny.lib) Example.training_text)
          = Some (FText text)) in Hfile.
  injection Hfile as <-.
  vm_compute in Hdata. injection Hdata as <-.
  vm_compute in Hjl. injection Hjl as <-.
  vm_compute in Hy. injection Hy as <-.
  cbn [In] in Hz. intuition auto.
Qed.

(** The bundle of the example run: a vector near the rows labelled 1
    (buy) gets class code 1, and the signal is hold. *)
Lemma trained_bundle_never_signals_buy_witness :
  fst (TrainModel.main (L := Tiny.lib) Example.train_args Example.train_world)
    = Exit 0 /\
  exists b c,
    w_fs Example.trained_world !! "models/model.joblib" = Some (FJoblib b) /\
    b_model b = Some c /\
    forall w model scaler features r w',
      w_heap w !! model = Some (@ObjClf Tiny.lib c) ->
      Predict.predict_signal model scaler features w = (Ret r, w') ->
      exists Xs preds c' code,
        Tiny.clf_predict c Xs = (inr preds, c') /\
        preds !! 0%nat = Some code /\
        (code = -1 \/ code = 0 \/ code = 1) /\
        (code = 0 -> Predict.signal r = "sell") /\
        (code = -1 \/ code = 1 -> Predict.signal r = "hold") /\
        Predict.signal r <> "buy".
Proof.
  split; [reflexivity|].
  pose proof (trained_bundle_never_signals_buy (L := Tiny.lib)
                tiny_split_keeps_labels tiny_predict_among_fitted
                tiny_predict_frozen tiny_cross_val_frozen
                Example.train_args Example.train_fs Example.dirs ∅
                "2024-01-01T00:00:00") as T.
  assert (Hex : fst (TrainModel.main (L := Tiny.lib) Example.train_args
                       (initial_world Example.train_fs Example.dirs ∅
                          "2024-01-01T00:00:00")) = Exit 0) by reflexivity.
  specialize (T Hex example_labels_in_domain).
  exact T.
Defined.

(** The inconsistency of the two label domains on the example: the vector
    lies by the rows labelled 1 (buy), the probability of buy is 1, and
    the signal is hold. *)
Example buy_vector_signals_hold :
  w_stdout (snd (Predict.main (L := Tiny.lib)
                   (Example.predict_args "[9, 8.5]" None)
                   Example.predict_world))
  = [Tiny.json_dumps None
       (Predict.prediction_json
          (Predict.Prediction "hold" 1 (Predict.ProbsDict 1 0 0)))].
Proof. reflexivity. Qed.

(** * Further properties of the scripts *)

(** ** The label counts of [load_data] *)

Lemma label_counts_step (z : Z) (ys : labels) :
  let n l := (TrainModel.count_label 1 l + TrainModel.count_label 0 l
              + TrainModel.count_label (-1) l)%nat in
  (z = -1 \/ z = 0 \/ z = 1 -> n (z :: ys) = S (n ys)) /\
  (~ (z = -1 \/ z = 0 \/ z = 1) -> n (z :: ys) = n ys).
Proof.
  unfold TrainModel.count_label. cbn [count_occ].
  split.
  - intros [-> | [-> | ->]]; repeat destruct (Z.eq_dec _ _); try lia.
  - intros H. repeat destruct (Z.eq_dec _ _); subst; try lia;
      exfalso; apply H; auto.
Qed.

Lemma label_counts_le (ys : labels) :
  (TrainModel.count_label 1 ys + TrainModel.count_label 0 ys
   + TrainModel.count_label (-1) ys <= length ys)%nat.
Proof.
  induction ys as [|z ys IH]; [reflexivity|].
  destruct (label_counts_step z ys) as [Hin Hout].
  destruct (decide (z = -1 \/ z = 0 \/ z = 1)) as [Hz|Hz].
  - cbv zeta in Hin. rewrite (Hin Hz). cbn [length]. lia.
  - cbv zeta in Hout. rewrite (Hout Hz). cbn [length]. lia.
Qed.

(** X1. The three counts of the [Label distribution] line never exceed the
    number of labels, and they add up to it exactly when every label is
    -1, 0 or 1: a label outside that domain is counted nowhere. *)
Theorem label_counts_cover_domain (ys : labels) :
  (TrainModel.count_label 1 ys + TrainModel.count_label 0 ys
   + TrainModel.count_label (-1) ys <= length ys)%nat /\
  ((TrainModel.count_label 1 ys + TrainModel.count_label 0 ys
    + TrainModel.count_label (-1) ys = length ys)%nat <->
   Forall (fun z => z = -1 \/ z = 0 \/ z = 1) ys).
Proof.
  split; [apply label_counts_le|].
  induction ys as [|z ys IH]; [split; [constructor | reflexivity]|].
  destruct (label_counts_step z ys) as [Hin Hout]. cbv zeta in Hin, Hout.
  pose proof (label_counts_le ys) as Hle.
  destruct (decide (z = -1 \/ z = 0 \/ z = 1)) as [Hz|Hz].
  - rewrite (Hin Hz). cbn [length]. split.
    + intros H. constructor; [exact Hz|]. apply IH. lia.
    + intros H. apply Forall_cons_1 in H as [_ H]. apply IH in H. lia.
  - rewrite (Hout Hz). cbn [length]. split.
    + intros H. lia.
    + intros H. apply Forall_cons_1 in H as [H _]. contradiction.
Qed.

(** ** The feature-importance table of [evaluate_model] *)

Lemma zip_fst {A B} (l : list A) (l' : list B) :
  map fst (TrainModel.zip l l') = take (length l') l.
Proof.
  revert l'. induction l as [|a l IH]; intros [|b l']; cbn; try reflexivity.
  now rewrite IH.
Qed.

Lemma zip_snd {A B} (l : list A) (l' : list B) :
  map snd (TrainModel.zip l l') = take (length l) l'.
Proof.
  revert l'. induction l as [|a l IH]; intros [|b l']; cbn; try reflexivity.
  now rewrite IH.
Qed.

(** X2. [dict(zip(feature_names, importance))] pairs the importances with the
    names of the schedule in order and stops with the shorter of the two:
    its keys are the first names of the schedule, as many as there are
    importances, its values the first 13 importances.  The 13 names are
    distinct, so no entry of the dict replaces another. *)
Theorem feature_importance_keys (importance : list Q) :
  map fst (TrainModel.zip TrainModel.feature_names importance)
    = take (length importance) TrainModel.feature_names /\
  map snd (TrainModel.zip TrainModel.feature_names importance)
    = take 13 importance /\
  length (TrainModel.zip TrainModel.feature_names importance)
    = Nat.min 13 (length importance) /\
  NoDup TrainModel.feature_names.
Proof.
  split; [apply zip_fst|]. split; [apply zip_snd|]. split.
  - rewrite <- (length_map snd), zip_snd, length_take. reflexivity.
  - unfold TrainModel.feature_names.
    repeat (apply NoDup_cons; split;
            [ rewrite ?elem_of_cons, elem_of_nil; intros H;
              repeat (destruct H as [H|H]; [discriminate H|]); exact H | ]).
    apply NoDup_nil_2.
Qed.

Lemma insert_desc_perm x l : TrainModel.insert_desc x l ≡ₚ x :: l.
Proof.
  induction l as [|y l IH]; cbn; [reflexivity|].
  destruct (Qle_bool _ _); [reflexivity|].
  rewrite IH. apply Permutation_swap.
Qed.

Lemma insert_desc_hd y x l :
  (snd x <= snd y)%Q ->
  HdRel (fun a b => (snd b <= snd a)%Q) y l ->
  HdRel (fun a b => (snd b <= snd a)%Q) y (TrainModel.insert_desc x l).
Proof.
  intros Hxy Hl. destruct l as [|z l]; cbn; [now constructor|].
  destruct (Qle_bool _ _); constructor; [exact Hxy|].
  now inversion Hl.
Qed.

Lemma insert_desc_sorted x l :
  Sorted (fun a b => (snd b <= snd a)%Q) l ->
  Sorted (fun a b => (snd b <= snd a)%Q) (TrainModel.insert_desc x l).
Proof.
  induction 1 as [|y l Hs IH Hhd]; cbn.
  - repeat constructor.
  - destruct (Qle_bool (snd y) (snd x)) eqn:E.
    + apply Qle_bool_iff in E. repeat constructor; assumption.
    + constructor; [exact IH|].
      apply insert_desc_hd; [|exact Hhd].
      apply Qlt_le_weak, Qnot_le_lt. intros H.
      apply Qle_bool_iff in H. congruence.
Qed.

Lemma insert_desc_filter q x l :
  List.filter (fun z => Qeq_bool (snd z) q) (TrainModel.insert_desc x l)
  = List.filter (fun z => Qeq_bool (snd z) q) (x :: l).
Proof.
  induction l as [|y l IH]; [reflexivity|].
  cbn [TrainModel.insert_desc].
  destruct (Qle_bool (snd y) (snd x)) eqn:E; [reflexivity|].
  cbn [List.filter] in *. rewrite IH.
  destruct (Qeq_bool (snd x) q) eqn:Ex; [|reflexivity].
  destruct (Qeq_bool (snd y) q) eqn:Ey; [|reflexivity].
  apply Qeq_bool_iff in Ex, Ey.
  assert (Qle_bool (snd y) (snd x) = true) as H; [|congruence].
  apply Qle_bool_iff. rewrite Ex, Ey. apply Qle_refl.
Qed.

(** X3. [sorted(items, key=lambda x: x[1], reverse=True)]: the lines of the
    feature-importance table are the entries of the dict, each once, in
    non-increasing order of score, and entries of equal score stay in the
    order of the dict. *)
Theorem feature_importance_sorted (items : list (string * Q)) :
  TrainModel.sorted_desc items ≡ₚ items /\
  Sorted (fun a b => (snd b <= snd a)%Q) (TrainModel.sorted_desc items) /\
  forall q,
    List.filter (fun z => Qeq_bool (snd z) q) (TrainModel.sorted_desc items)
    = List.filter (fun z => Qeq_bool (snd z) q) items.
Proof.
  unfold TrainModel.sorted_desc.
  induction items as [|x items (Hp & Hs & Hf)]; cbn [foldr].
  - repeat split; constructor.
  - split; [|split].
    + rewrite insert_desc_perm. now rewrite Hp.
    + now apply insert_desc_sorted.
    + intros q. rewrite insert_desc_filter. cbn [List.filter].
      now rewrite Hf.
Qed.

(** * The functions of the two scripts, one by one *)

Lemma lookup_snoc_last {A} (h : list A) (o : A) :
  (h ++ [o])%list !! length h = Some o.
Proof. now apply list_lookup_middle. Qed.

Lemma insert_snoc_last {A} (h : list A) (o o' : A) :
  <[length h := o']> (h ++ [o])%list = (h ++ [o'])%list.
Proof.
  rewrite insert_app_r_alt by lia. now rewrite Nat.sub_diag.
Qed.

(** Like [prune], for a heap that is not known in full. *)
Ltac prune_heap :=
  repeat match goal with
  | H : <[?k := _]> _ !! ?k = Some _ |- _ =>
      apply list_lookup_insert_Some in H;
      destruct H as [(_ & H & _) | [H _]]; [|congruence]
  | H : forall c, _ !! _ <> Some _ |- _ =>
      exfalso; eapply H; first [eassumption | apply list_lookup_insert_eq;
                                eapply lookup_lt_Some; eassumption]
  | H1 : ?t = _, H2 : ?t = _ |- _ => rewrite H1 in H2
  | _ => progress simplify_eq
  end.

Section Functions.
Context {L : Lib}.

(** ** [load_data] *)

(** X4. When [load_data] returns, the file at [input_file] is a text that
    parses to a JSON object whose [features] and [labels] entries convert
    to the arrays returned, and exactly three lines have been printed: the
    sample count, the shape, and the counts of the labels 1, 0 and -1 as
    Buy, Hold and Sell.  Nothing else in the process has changed. *)
Theorem load_data_returns input_file w X y w' :
  TrainModel.load_data input_file w = (Ret (X, y), w') ->
  (exists text data jfeatures jlabels,
     w_fs w !! input_file = Some (FText text) /\
     json_loads text = inr data /\
     py_getitem data "features" = inr jfeatures /\
     np_array_features jfeatures = inr X /\
     py_getitem data "labels" = inr jlabels /\
     np_array_labels jlabels = inr y) /\
  w' =
    add_stdout_lines
      ["Loaded " ++ pretty (length X) ++ " samples";
       "Feature shape: " ++ str_shape X;
       "Label distribution: Buy=" ++ pretty (TrainModel.count_label 1 y)
       ++ ", Hold=" ++ pretty (TrainModel.count_label 0 y)
       ++ ", Sell=" ++ pretty (TrainModel.count_label (-1) y)] w.
Proof.
  intros Hrun.
  enough (wp (TrainModel.load_data input_file) w (fun o w' =>
    forall X y, o = Ret (X, y) ->
    (exists text data jfeatures jlabels,
       w_fs w !! input_file = Some (FText text) /\
       json_loads text = inr data /\
       py_getitem data "features" = inr jfeatures /\
       np_array_features jfeatures = inr X /\
       py_getitem data "labels" = inr jlabels /\
       np_array_labels jlabels = inr y) /\
    w' =
      add_stdout_lines
        ["Loaded " ++ pretty (length X) ++ " samples";
         "Feature shape: " ++ str_shape X;
         "Label distribution: Buy=" ++ pretty (TrainModel.count_label 1 y)
         ++ ", Hold=" ++ pretty (TrainModel.count_label 0 y)
         ++ ", Sell=" ++ pretty (TrainModel.count_label (-1) y)] w)) as Hwp.
  { exact (wp_run _ _ _ _ _ Hwp Hrun X y eq_refl). }
  clear Hrun.
  unfold TrainModel.load_data, read_text.
  wp_exec; intros X0 y0 Heq; try discriminate Heq.
  injection Heq as <- <-.
  split; [eauto 10|].
  unfold add_stdout_lines, add_stdout. cbn. rewrite <- !app_assoc. reflexivity.
Qed.

(** X5. What [load_data] needs of the JSON text it has parsed: a value that is
    not an object raises [TypeError] at the first subscript, an object
    without [features] raises [KeyError], and so does one without
    [labels], once its [features] have been converted.  In each case
    nothing has been printed. *)
Theorem load_data_needs_features_and_labels input_file w text data :
  w_fs w !! input_file = Some (FText text) ->
  json_loads text = inr data ->
  let run := TrainModel.load_data input_file w in
  ((forall kvs, data <> JObj kvs) ->
   exists e, run = (Raise e, w) /\ exn_kind_of e = TypeError) /\
  (forall kvs, data = JObj kvs -> assoc "features" kvs = None ->
   exists e, run = (Raise e, w) /\ exn_kind_of e = KeyError) /\
  (forall kvs jfeatures X,
     data = JObj kvs -> assoc "features" kvs = Some jfeatures ->
     np_array_features jfeatures = inr X ->
     assoc "labels" kvs = None ->
     exists e, run = (Raise e, w) /\ exn_kind_of e = KeyError).
Proof.
  intros Hf Hd. cbv zeta.
  unfold TrainModel.load_data, read_text, bind, read_file, lift, ret.
  rewrite Hf. cbn [of_result]. rewrite Hd. cbn [of_result].
  split; [|split].
  - intros Hno. destruct data; cbn; eauto. exfalso. eapply Hno. reflexivity.
  - intros kvs -> Hfeat. cbn. rewrite Hfeat. cbn. eauto.
  - intros kvs jf X -> Hfeat HX Hlab. cbn. rewrite Hfeat. cbn.
    rewrite HX. cbn. rewrite Hlab. cbn. eauto.
Qed.

(** ** [train_model] *)

(** X6. [train_model] creates a new classifier object, with the fixed
    hyperparameters, and calls [fit] on it once with the arrays it was
    given; the objects that existed keep their state.  It returns the new
    object when [fit] returns, and lets the exception of [fit] through
    without printing the completion line. *)
Theorem train_model_fits_fresh_classifier X_train y_train w :
  let run := TrainModel.train_model X_train y_train w in
  let model := length (w_heap w) in
  let r := clf_fit (RandomForestClassifier
                      {| n_estimators := 200; max_depth := 15;
                         min_samples_split := 10; min_samples_leaf := 5;
                         max_features := "sqrt"; rf_random_state := 42;
                         n_jobs := -1; class_weight := "balanced" |})
                   X_train y_train in
  w_heap (snd run) = (w_heap w ++ [ObjClf (snd r)])%list /\
  w_calls (snd run)
    = (w_calls w ++ [CallFit model X_train y_train (fst r)])%list /\
  match fst r with
  | inr _ =>
      fst run = Ret model /\
      w_stdout (snd run)
        = (w_stdout w ++ [(TrainModel.nl ++ "=== Training Model ===")%string;
                          "✓ Model training complete"])%list
  | inl e =>
      fst run = Raise e /\
      w_stdout (snd run)
        = (w_stdout w
           ++ [(TrainModel.nl ++ "=== Training Model ===")%string])%list
  end.
Proof.
  cbv zeta.
  unfold TrainModel.train_model, fit, clf_call, bind, print, alloc, ret.
  cbn [fst snd add_stdout set_heap w_heap w_stdout w_calls].
  rewrite lookup_snoc_last.
  fold TrainModel.rf_hyperparameters.
  destruct (clf_fit _ X_train y_train) as [[e|u] c1].
  - cbn. rewrite insert_snoc_last. auto.
  - cbn. rewrite insert_snoc_last, <- app_assoc. auto.
Qed.

(** ** [evaluate_model] *)

(** X7. When [evaluate_model] returns, it has called [model.predict] on the
    test features and then [cross_val_score], and nothing else, on the
    estimator; the accuracy in the metrics is [accuracy_score] of the test
    labels against those predictions; the importances are read from the
    estimator as the cross-validation left it, and the metrics hold them
    under the names of the schedule, in schedule order, not in the sorted
    order of the printed table.  No file is touched. *)
Theorem evaluate_model_returns model X_test y_test w m w' :
  TrainModel.evaluate_model model X_test y_test w = (Ret m, w') ->
  exists c y_pred c2 cv_scores c3 importance,
    w_heap w !! model = Some (ObjClf c) /\
    clf_predict c X_test = (inr y_pred, c2) /\
    accuracy_score y_test y_pred = inr (TrainModel.accuracy m) /\
    cross_val_score c2 X_test y_test 5 "accuracy" = (inr cv_scores, c3) /\
    clf_feature_importances c3 = inr importance /\
    TrainModel.feature_importance m
      = TrainModel.zip TrainModel.feature_names importance /\
    w_calls w'
      = (w_calls w ++ [CallPredict model X_test (inr y_pred);
                       CallCrossVal model X_test y_test 5 "accuracy"
                         (inr cv_scores)])%list /\
    w_heap w' = <[model := ObjClf c3]> (w_heap w) /\
    w_fs w' = w_fs w /\ w_stderr w' = w_stderr w.
Proof.
  intros Hrun.
  enough (wp (TrainModel.evaluate_model model X_test y_test) w (fun o w' =>
    forall m, o = Ret m ->
    exists c y_pred c2 cv_scores c3 importance,
      w_heap w !! model = Some (ObjClf c) /\
      clf_predict c X_test = (inr y_pred, c2) /\
      accuracy_score y_test y_pred = inr (TrainModel.accuracy m) /\
      cross_val_score c2 X_test y_test 5 "accuracy" = (inr cv_scores, c3) /\
      clf_feature_importances c3 = inr importance /\
      TrainModel.feature_importance m
        = TrainModel.zip TrainModel.feature_names importance /\
      w_calls w'
        = (w_calls w ++ [CallPredict model X_test (inr y_pred);
                         CallCrossVal model X_test y_test 5 "accuracy"
                           (inr cv_scores)])%list /\
      w_heap w' = <[model := ObjClf c3]> (w_heap w) /\
      w_fs w' = w_fs w /\ w_stderr w' = w_stderr w)) as Hwp.
  { exact (wp_run _ _ _ _ _ Hwp Hrun m eq_refl). }
  clear Hrun.
  unfold TrainModel.evaluate_model, predict, TrainModel.cross_val.
  repeat (wp_step; prune_heap); try (intros ? [=]).
  subst. cbn [TrainModel.accuracy TrainModel.feature_importance].
  do 6 eexists.
  repeat (split; [eassumption || reflexivity|]).
  rewrite <- app_assoc, list_insert_insert_eq. auto.
Qed.

(** ** [save_model] *)

(** X8. With the two estimators on the heap, an output path that may be
    written, that is not a directory and is not its own parent, and a
    parent directory that exists, or whose name no regular file has and
    which may be created, [save_model] returns: the parent directory
    exists afterwards, the file at the output path holds the states the
    two estimators have, with the metadata record of the three fields
    [trained_at] (the current time), [model_type] and [version], no
    other file has changed, the estimators are as they were, and the
    line printed names the path as [Path] spells it. *)
Theorem save_model_writes_bundle model scaler output_path w c s :
  w_heap w !! model = Some (ObjClf c) ->
  w_heap w !! scaler = Some (ObjScaler s) ->
  output_path ∉ w_denied w ->
  output_path ∉ w_dirs w ->
  output_path <> path_parent output_path ->
  path_parent output_path ∈ w_dirs w \/
    (w_fs w !! path_parent output_path = None /\
     path_parent output_path ∉ w_denied w) ->
  let run := TrainModel.save_model model scaler output_path w in
  fst run = Ret tt /\
  w_fs (snd run)
    = <[output_path :=
          FJoblib (Bundle (Some c) (Some s)
                     (Some [("trained_at", w_now w);
                            ("model_type", "RandomForestClassifier");
                            ("version", "1.0.0")]))]> (w_fs w) /\
  path_parent output_path ∈ w_dirs (snd run) /\
  w_dirs w ⊆ w_dirs (snd run) /\
  w_heap (snd run) = w_heap w /\
  w_stdout (snd run)
    = (w_stdout w
       ++ [(TrainModel.nl ++ "✓ Model saved to "
            ++ path_str output_path)%string])%list.
Proof.
  intros Hm Hs Hden Hnd Hne Hdir. cbv zeta.
  unfold TrainModel.save_model, TrainModel.joblib_dump,
    TrainModel.datetime_now_isoformat, mkdir_parents, bind, print, can_write.
  destruct (decide (path_parent output_path ∈ w_dirs w)) as [Hin|Hnin].
  - rewrite (bool_decide_eq_true_2 _ Hin). cbn.
    rewrite (bool_decide_eq_true_2 _ Hden), (bool_decide_eq_true_2 _ Hnd),
      (bool_decide_eq_true_2 _ Hin).
    cbn. rewrite Hm, Hs. cbn. repeat split; auto.
  - destruct Hdir as [Hin|[Hnone Hok]]; [contradiction|].
    rewrite (bool_decide_eq_false_2 _ Hnin).
    rewrite bool_decide_eq_false_2
      by (rewrite Hnone; apply is_Some_None).
    rewrite (bool_decide_eq_false_2 _ Hok).
    cbn.
    assert (Hnd' : output_path ∉ {[path_parent output_path]} ∪ w_dirs w).
    { intros H. apply elem_of_union in H as [H|H]; [|contradiction].
      apply elem_of_singleton in H. contradiction. }
    assert (Hin' : path_parent output_path
                   ∈ {[path_parent output_path]} ∪ w_dirs w).
    { apply elem_of_union_l. now apply elem_of_singleton. }
    rewrite (bool_decide_eq_true_2 _ Hden), (bool_decide_eq_true_2 _ Hnd'),
      (bool_decide_eq_true_2 _ Hin').
    cbn. rewrite Hm, Hs. cbn.
    repeat split; auto. apply union_subseteq_r.
Qed.

(** X9. The ways [save_model] fails.  A parent directory that is missing
    and cannot be made, because a regular file has its name or it may
    not be created, raises before anything has changed.  A file that
    cannot be opened, because the path may not be written or is a
    directory, raises with no file changed, and a parent directory that
    was made for it stays behind.  A dump that fails after the file was
    opened, because one of the two objects cannot be pickled, leaves the
    file cut short.  In no case is the line printed. *)
Theorem save_model_failures model scaler output_path w :
  let run := TrainModel.save_model model scaler output_path w in
  let parent := path_parent output_path in
  (parent ∉ w_dirs w ->
   is_Some (w_fs w !! parent) \/ parent ∈ w_denied w ->
   exists e, run = (Raise e, w) /\ exn_kind_of e = OSError) /\
  (parent ∉ w_dirs w -> w_fs w !! parent = None -> parent ∉ w_denied w ->
   output_path ∈ w_denied w \/ output_path ∈ w_dirs w \/
     output_path = parent ->
   exists e,
     run = (Raise e, set_dirs ({[parent]} ∪ w_dirs w) w) /\
     exn_kind_of e = OSError) /\
  (parent ∈ w_dirs w ->
   output_path ∈ w_denied w \/ output_path ∈ w_dirs w ->
   exists e, run = (Raise e, w) /\ exn_kind_of e = OSError) /\
  (parent ∈ w_dirs w ->
   output_path ∉ w_denied w -> output_path ∉ w_dirs w ->
   (forall c s, ~ (w_heap w !! model = Some (ObjClf c) /\
                   w_heap w !! scaler = Some (ObjScaler s))) ->
   exists e,
     run = (Raise e, set_fs (<[output_path := FPartial]> (w_fs w)) w) /\
     exn_kind_of e = PicklingError).
Proof.
  cbv zeta.
  unfold TrainModel.save_model, TrainModel.joblib_dump,
    TrainModel.datetime_now_isoformat, mkdir_parents, bind, print, can_write.
  split; [|split; [|split]].
  - intros Hnin [Hfile|Hden]; rewrite (bool_decide_eq_false_2 _ Hnin).
    + rewrite (bool_decide_eq_true_2 _ Hfile). eauto.
    + destruct (bool_decide (is_Some _)); [eauto|].
      rewrite (bool_decide_eq_true_2 _ Hden). eauto.
  - intros Hnin Hnone Hok Hbad.
    rewrite (bool_decide_eq_false_2 _ Hnin).
    rewrite bool_decide_eq_false_2 by (rewrite Hnone; apply is_Some_None).
    rewrite (bool_decide_eq_false_2 _ Hok). cbn.
    assert (bool_decide (output_path ∉ w_denied w)
            && bool_decide
                 (output_path ∉ {[path_parent output_path]} ∪ w_dirs w)
            = false) as ->.
    { destruct Hbad as [Hd|[Hd|Hd]].
      - rewrite (bool_decide_eq_false_2 (output_path ∉ w_denied w))
          by (intros H; contradiction). reflexivity.
      - rewrite (bool_decide_eq_false_2 (output_path ∉ _ ∪ _))
          by (intros H; apply H; apply elem_of_union_r; exact Hd).
        apply andb_false_r.
      - rewrite (bool_decide_eq_false_2 (output_path ∉ _ ∪ _))
          by (intros H; apply H; apply elem_of_union_l;
              apply elem_of_singleton; exact Hd).
        apply andb_false_r. }
    cbn. eauto.
  - intros Hin Hbad. rewrite (bool_decide_eq_true_2 _ Hin). cbn.
    assert (bool_decide (output_path ∉ w_denied w)
            && bool_decide (output_path ∉ w_dirs w) = false) as ->.
    { destruct Hbad as [Hd|Hd].
      - rewrite (bool_decide_eq_false_2 (output_path ∉ w_denied w))
          by (intros H; contradiction). reflexivity.
      - rewrite (bool_decide_eq_false_2 (output_path ∉ w_dirs w))
          by (intros H; contradiction).
        apply andb_false_r. }
    cbn. eauto.
  - intros Hin Hden Hnd Hno. rewrite (bool_decide_eq_true_2 _ Hin). cbn.
    rewrite (bool_decide_eq_true_2 _ Hden), (bool_decide_eq_true_2 _ Hnd),
      (bool_decide_eq_true_2 _ Hin).
    cbn.
    destruct (w_heap w !! model) as [[c|s]|] eqn:Em; cbn; eauto.
    destruct (w_heap w !! scaler) as [[c'|s]|] eqn:Es; cbn; eauto.
    exfalso. eapply Hno. split; reflexivity.
Qed.

(** ** [load_model] *)

(** X10. On a file that holds a bundle, [load_model] needs the keys [model]
    and [scaler] and raises [KeyError] for the first one that is missing;
    [metadata] is optional, and the empty dict stands in for it.  The
    estimators come out as two new objects, the classifier first; no file is
    touched and nothing is printed. *)
Theorem load_model_needs_model_and_scaler path w b :
  w_fs w !! path = Some (FJoblib b) ->
  let run := Predict.load_model path w in
  (b_model b = None -> fst run = Raise (Exception KeyError "'model'")) /\
  (b_model b <> None -> b_scaler b = None ->
   fst run = Raise (Exception KeyError "'scaler'")) /\
  (forall c s, b_model b = Some c -> b_scaler b = Some s ->
     fst run = Ret (length (w_heap w), S (length (w_heap w)),
                    default [] (b_metadata b)) /\
     w_heap (snd run) = (w_heap w ++ [ObjClf c; ObjScaler s])%list) /\
  w_fs (snd run) = w_fs w /\
  w_stdout (snd run) = w_stdout w /\ w_stderr (snd run) = w_stderr w.
Proof.
  intros Hf. cbv zeta.
  unfold Predict.load_model, Predict.joblib_load, Predict.dict_item,
    bind, read_file, alloc, ret, raise.
  rewrite Hf.
  destruct (b_model b) as [c|], (b_scaler b) as [s|]; cbn;
    repeat split; try congruence; intros; simplify_eq.
  - rewrite length_app. cbn. now rewrite Nat.add_1_r.
  - now rewrite <- app_assoc.
Qed.

(** ** [predict_signal] *)

(** X11. [predict_signal] returns whenever the vector converts to a row, the
    scaler transforms it, the classifier predicts at least one code and
    gives at least one probability row, and that row has an entry at each
    of the indices 0, 1 and 2; entries past index 2 are left out of the
    dict.  [predict_proba] runs on the classifier as [predict] left it. *)
Theorem predict_signal_returns model scaler features w c s
    X Xs s' preds c' probas c'' code p p0 p1 p2 :
  w_heap w !! model = Some (ObjClf c) ->
  w_heap w !! scaler = Some (ObjScaler s) ->
  np_array_row features = inr X ->
  scaler_transform s X = (inr Xs, s') ->
  clf_predict c Xs = (inr preds, c') ->
  clf_predict_proba c' Xs = (inr probas, c'') ->
  preds !! 0%nat = Some code ->
  probas !! 0%nat = Some p ->
  p !! 0%nat = Some p0 -> p !! 1%nat = Some p1 -> p !! 2%nat = Some p2 ->
  exists conf,
    np_max p = inr conf /\
    fst (Predict.predict_signal model scaler features w)
      = Ret (Predict.Prediction (default "hold" (Predict.label_map !! code))
               conf (Predict.ProbsDict p2 p1 p0)) /\
    w_heap (snd (Predict.predict_signal model scaler features w))
      = <[model := ObjClf c'']> (<[scaler := ObjScaler s']> (w_heap w)).
Proof.
  intros Hm Hs HX Ht Hp Hpp Hcode Hrow H0 H1 H2.
  assert (Hne : scaler <> model) by congruence.
  assert (Hm1 : <[scaler := ObjScaler s']> (w_heap w) !! model
                = Some (ObjClf c))
    by (rewrite list_lookup_insert_ne; assumption).
  assert (Hm2 : <[model := ObjClf c']> (<[scaler := ObjScaler s']> (w_heap w))
                  !! model = Some (ObjClf c')).
  { apply list_lookup_insert_eq. rewrite length_insert.
    eapply lookup_lt_Some; eassumption. }
  destruct p as [|x rest]; [discriminate H0|].
  exists (fold_left qmax rest x). split; [reflexivity|].
  unfold Predict.predict_signal, transform, predict, predict_proba,
    scaler_call, clf_call, bind, lift, ret, py_index.
  unfold loc, labels, matrix in *.
  rewrite HX. cbn [of_result fst snd]. rewrite Hs, Ht.
  cbn [of_result fst snd add_call set_heap w_heap].
  rewrite Hm1, Hp.
  cbn [of_result fst snd add_call set_heap w_heap].
  rewrite Hcode. cbn [of_result].
  rewrite Hm2, Hpp.
  cbn [of_result fst snd add_call set_heap w_heap].
  rewrite Hrow. cbn [of_result np_max].
  rewrite H2, H1, H0. cbn [of_result fst snd w_heap].
  rewrite list_insert_insert_eq. split; reflexivity.
Qed.

(** X12. A probability row with fewer than three entries, as a classifier
    fitted on fewer than three classes returns it, makes [predict_signal]
    raise after the three estimator calls have been made: [ValueError]
    from [np.max] on an empty row, [IndexError] from the index 2 or 1
    otherwise. *)
Theorem predict_signal_short_probability_row model scaler features w c s
    X Xs s' preds c' probas c'' code p :
  w_heap w !! model = Some (ObjClf c) ->
  w_heap w !! scaler = Some (ObjScaler s) ->
  np_array_row features = inr X ->
  scaler_transform s X = (inr Xs, s') ->
  clf_predict c Xs = (inr preds, c') ->
  clf_predict_proba c' Xs = (inr probas, c'') ->
  preds !! 0%nat = Some code ->
  probas !! 0%nat = Some p ->
  (length p < 3)%nat ->
  exists e,
    fst (Predict.predict_signal model scaler features w) = Raise e /\
    exn_kind_of e = (if decide (p = []) then ValueError else IndexError) /\
    w_calls (snd (Predict.predict_signal model scaler features w))
      = (w_calls w ++ [CallTransform scaler X (inr Xs);
                       CallPredict model Xs (inr preds);
                       CallPredictProba model Xs (inr probas)])%list.
Proof.
  intros Hm Hs HX Ht Hp Hpp Hcode Hrow Hlen.
  assert (Hne : scaler <> model) by congruence.
  assert (Hm1 : <[scaler := ObjScaler s']> (w_heap w) !! model
                = Some (ObjClf c))
    by (rewrite list_lookup_insert_ne; assumption).
  assert (Hm2 : <[model := ObjClf c']> (<[scaler := ObjScaler s']> (w_heap w))
                  !! model = Some (ObjClf c')).
  { apply list_lookup_insert_eq. rewrite length_insert.
    eapply lookup_lt_Some; eassumption. }
  unfold Predict.predict_signal, transform, predict, predict_proba,
    scaler_call, clf_call, bind, lift, ret, py_index.
  unfold loc, labels, matrix in *.
  rewrite HX. cbn [of_result fst snd]. rewrite Hs, Ht.
  cbn [of_result fst snd add_call set_heap w_heap].
  rewrite Hm1, Hp.
  cbn [of_result fst snd add_call set_heap w_heap].
  rewrite Hcode. cbn [of_result].
  rewrite Hm2, Hpp.
  cbn [of_result fst snd add_call set_heap w_heap w_calls].
  rewrite Hrow. cbn [of_result].
  destruct p as [|x0 [|x1 [|x2 rest]]]; cbn in Hlen; try lia;
    cbn; eexists; (split; [reflexivity|]); rewrite <- !app_assoc;
    split; reflexivity.
Qed.

End Functions.

(** * Runs of the two scripts *)

Lemma signal_cases (code : Z) :
  default "hold" (Predict.label_map !! code) = "sell" \/
  default "hold" (Predict.label_map !! code) = "hold" \/
  default "hold" (Predict.label_map !! code) = "buy".
Proof.
  rewrite label_map_lookup. repeat case_decide; cbn; auto.
Qed.

Lemma progress_line_not_warning `{L : Lib} a line n :
  progress_line a line -> line <> Predict.feature_warning n.
Proof.
  unfold Predict.feature_warning.
  intros [->|[[md ->]|[path ->]]]; cbn; discriminate.
Qed.

(** Splits the lines a handler printed from those printed before it. *)
Ltac split_lines :=
  rewrite <- ?app_assoc; cbn [app]; f_equal;
  first [ exists []; reflexivity
        | eexists [_]; reflexivity
        | eexists [_; _]; reflexivity
        | eexists [_; _; _]; reflexivity
        | eexists [_; _; _; _]; reflexivity ].

Section Runs.
Context {L : Lib}.

(** X13. Once [parser.parse_args()] has returned, whatever the arguments
    it returned and the state of the file system, a run of either script
    ends in [sys.exit] with status 0 or status 1: no exception leaves the
    [try] statement of [main], and [main] does not return.  (A command
    line that argparse rejects ends the process before that, with status
    2.) *)
Theorem scripts_exit_with_status_0_or_1 pa ta (w1 w2 : World) :
  (fst (Predict.main pa w1) = Exit 0 \/ fst (Predict.main pa w1) = Exit 1) /\
  (fst (TrainModel.main ta w2) = Exit 0 \/
   fst (TrainModel.main ta w2) = Exit 1).
Proof.
  split.
  - change (wp (Predict.main pa) w1 (fun o _ => o = Exit 0 \/ o = Exit 1)).
    unfold_predict_main. wp_exec. all: auto.
  - change (wp (TrainModel.main ta) w2 (fun o _ => o = Exit 0 \/ o = Exit 1)).
    unfold_train_main. wp_exec. all: auto.
Qed.

(** ** The predictor *)

(** X14. A run of the predictor that ends with status 1 has printed nothing on
    the standard output and has written no file and created no directory:
    the output is the last step of the [try] block.  The last two lines on
    the error stream are the message of the exception and its trace. *)
Theorem failed_prediction_leaves_no_output a w :
  fst (Predict.main a w) = Exit 1 ->
  let w' := snd (Predict.main a w) in
  w_stdout w' = w_stdout w /\ w_fs w' = w_fs w /\ w_dirs w' = w_dirs w /\
  exists e lines,
    w_stderr w'
    = (w_stderr w ++ lines
       ++ [("Error: " ++ exn_msg e)%string; format_exc e])%list.
Proof.
  cbv zeta.
  change (wp (Predict.main a) w (fun o w' =>
    o = Exit 1 ->
    w_stdout w' = w_stdout w /\ w_fs w' = w_fs w /\ w_dirs w' = w_dirs w /\
    exists e lines,
      w_stderr w'
      = (w_stderr w ++ lines
         ++ [("Error: " ++ exn_msg e)%string; format_exc e])%list)).
  unfold_predict_main. wp_exec.
  all: intros Hex; try discriminate Hex.
  all: repeat (split; [reflexivity|]).
  all: eexists; split_lines.
Qed.

(** X15. A run of the predictor that ends with status 0 has put one result
    object, whose signal is sell, hold or buy, in one place.  With an
    [--output] path it is the file at that path, written with [indent=2];
    nothing is on the standard output, no other file has changed and the
    last line on the error stream names the path.  Without [--output], or
    with an empty one, it is the only line on the standard output, and no
    file has changed. *)
Theorem prediction_goes_to_one_destination a fs dirs denied now :
  fst (Predict.main a (initial_world fs dirs denied now)) = Exit 0 ->
  let w' := snd (Predict.main a (initial_world fs dirs denied now)) in
  exists r,
    (Predict.signal r = "sell" \/ Predict.signal r = "hold" \/
     Predict.signal r = "buy") /\
    (forall path,
       Predict.arg_output a = Some path -> str_truthy path = true ->
       w_stdout w' = [] /\
       w_fs w'
         = <[path := FText (json_dumps (Some 2%nat)
                              (Predict.prediction_json r))]> fs /\
       last (w_stderr w') = Some ("Prediction saved to " ++ path)) /\
    (Predict.arg_output a = None \/ Predict.arg_output a = Some "" ->
     w_stdout w' = [json_dumps None (Predict.prediction_json r)] /\
     w_fs w' = fs).
Proof.
  cbv zeta.
  change (wp (Predict.main a) (initial_world fs dirs denied now) (fun o w' =>
    o = Exit 0 ->
    exists r,
      (Predict.signal r = "sell" \/ Predict.signal r = "hold" \/
       Predict.signal r = "buy") /\
      (forall path,
         Predict.arg_output a = Some path -> str_truthy path = true ->
         w_stdout w' = [] /\
         w_fs w'
           = <[path := FText (json_dumps (Some 2%nat)
                                (Predict.prediction_json r))]> fs /\
         last (w_stderr w') = Some ("Prediction saved to " ++ path)) /\
      (Predict.arg_output a = None \/ Predict.arg_output a = Some "" ->
       w_stdout w' = [json_dumps None (Predict.prediction_json r)] /\
       w_fs w' = fs))).
  unfold_predict_main. wp_exec.
  all: intros Hex; try discriminate Hex.
  all: eexists (Predict.Prediction
                  (default "hold" (Predict.label_map !! _)) _ _);
    (split; [apply signal_cases|]); split.
  all: try (intros path Hpath Htruthy; prune; fail).
  all: try (intros path Hpath Htruthy; prune;
            split; [reflexivity|]; split;
            [rewrite insert_insert_eq; reflexivity | apply last_snoc]).
  all: try (intros [Hnone|Hempty]; prune; fail).
  all: intros [Hnone|Hempty]; prune; split; reflexivity.
Qed.

(** X16. The error stream of a run of the predictor that ends with status 0,
    line by line: the loading line; the metadata line, when the bundle
    has a metadata record that is not empty; the feature-count warning,
    when and only when the length of the parsed features is not 13; the
    line that names the output file, when there is one. *)
Theorem predictor_error_stream_on_success a fs dirs denied now :
  fst (Predict.main a (initial_world fs dirs denied now)) = Exit 0 ->
  exists b v n,
    fs !! Predict.arg_model a = Some (FJoblib b) /\
    json_loads (Predict.arg_features a) = inr v /\
    py_len v = inr n /\
    w_stderr (snd (Predict.main a (initial_world fs dirs denied now)))
    = ([("Loading model from " ++ Predict.arg_model a ++ "...")%string]
       ++ (if dict_truthy (default [] (b_metadata b))
           then [("Model metadata: "
                  ++ str_dict (default [] (b_metadata b)))%string]
           else [])
       ++ (if bool_decide (n <> 13%nat)
           then [Predict.feature_warning n] else [])
       ++ match Predict.arg_output a with
          | Some path =>
              if str_truthy path
              then [("Prediction saved to " ++ path)%string] else []
          | None => []
          end)%list.
Proof.
  change (wp (Predict.main a) (initial_world fs dirs denied now) (fun o w' =>
    o = Exit 0 ->
    exists b v n,
      fs !! Predict.arg_model a = Some (FJoblib b) /\
      json_loads (Predict.arg_features a) = inr v /\
      py_len v = inr n /\
      w_stderr w'
      = ([("Loading model from " ++ Predict.arg_model a ++ "...")%string]
         ++ (if dict_truthy (default [] (b_metadata b))
             then [("Model metadata: "
                    ++ str_dict (default [] (b_metadata b)))%string]
             else [])
         ++ (if bool_decide (n <> 13%nat)
             then [Predict.feature_warning n] else [])
         ++ match Predict.arg_output a with
            | Some path =>
                if str_truthy path
              then [("Prediction saved to " ++ path)%string] else []
            | None => []
            end)%list)).
  unfold_predict_main. wp_exec.
  all: intros Hex; try discriminate Hex.
  all: do 3 eexists; repeat (split; [eassumption|]).
  all: repeat match goal with
              | H : ?c = _ |- context [if ?c then _ else _] => rewrite H
              | H : ?c = _
                |- context [match ?c with Some _ => _ | None => _ end] =>
                  rewrite H
              end.
  all: reflexivity.
Qed.

(** X17. Features that parse to a JSON number, boolean or null have no length:
    the predictor, which has loaded the model by then, ends with status 1
    on the [TypeError] of [len] before any estimator is called. *)
Theorem unsized_features_fail_before_scaling a fs dirs denied now b c s v e :
  fs !! Predict.arg_model a = Some (FJoblib b) ->
  b_model b = Some c -> b_scaler b = Some s ->
  json_loads (Predict.arg_features a) = inr v ->
  py_len v = inl e ->
  let w' := snd (Predict.main a (initial_world fs dirs denied now)) in
  fst (Predict.main a (initial_world fs dirs denied now)) = Exit 1 /\
  exn_kind_of e = TypeError /\
  w_calls w' = [] /\
  w_heap w' = [ObjClf c; ObjScaler s] /\
  exists lines,
    w_stderr w'
    = (lines ++ [("Error: " ++ exn_msg e)%string; format_exc e])%list.
Proof.
  intros Hf Hm Hs Hv Hlen. cbv zeta.
  assert (Hkind : exn_kind_of e = TypeError).
  { destruct v; cbn in Hlen; simplify_eq; reflexivity. }
  change (wp (Predict.main a) (initial_world fs dirs denied now) (fun o w' =>
    o = Exit 1 /\ exn_kind_of e = TypeError /\ w_calls w' = [] /\
    w_heap w' = [ObjClf c; ObjScaler s] /\
    exists lines,
      w_stderr w'
      = (lines ++ [("Error: " ++ exn_msg e)%string; format_exc e])%list)).
  unfold_predict_main. wp_exec.
  all: repeat (split; [reflexivity || exact Hkind|]).
  all: cbn [app].
  all: first [ exists []; reflexivity
             | eexists [_]; reflexivity
             | eexists [_; _]; reflexivity ].
Qed.

(** X18. Whatever its outcome, a run of the predictor makes at most three
    calls on the estimators, and they are [transform], [predict] and
    [predict_proba]: it never fits, splits or cross-validates.  What
    [predict] and [predict_proba] are given is what the scaler of the
    bundle returned. *)
Theorem predictor_only_predicts a fs dirs denied now :
  let calls :=
    w_calls (snd (Predict.main a (initial_world fs dirs denied now))) in
  (length calls <= 3)%nat /\
  Forall (fun ev => match ev with
                    | CallTransform _ _ _ | CallPredict _ _ _
                    | CallPredictProba _ _ _ => True
                    | _ => False
                    end) calls /\
  (forall m Xs r,
     In (CallPredict m Xs r) calls ->
     exists X, In (CallTransform 1 X (inr Xs)) calls) /\
  (forall m Xs r,
     In (CallPredictProba m Xs r) calls ->
     exists X preds,
       In (CallTransform 1 X (inr Xs)) calls /\
       In (CallPredict m Xs (inr preds)) calls).
Proof.
  cbv zeta.
  change (wp (Predict.main a) (initial_world fs dirs denied now) (fun _ w' =>
    (length (w_calls w') <= 3)%nat /\
    Forall (fun ev => match ev with
                      | CallTransform _ _ _ | CallPredict _ _ _
                      | CallPredictProba _ _ _ => True
                      | _ => False
                      end) (w_calls w') /\
    (forall m Xs r,
       In (CallPredict m Xs r) (w_calls w') ->
       exists X, In (CallTransform 1 X (inr Xs)) (w_calls w')) /\
    (forall m Xs r,
       In (CallPredictProba m Xs r) (w_calls w') ->
       exists X preds,
         In (CallTransform 1 X (inr Xs)) (w_calls w') /\
         In (CallPredict m Xs (inr preds)) (w_calls w')))).
  unfold_predict_main. wp_exec.
  all: cbn [app length In].
  all: split; [lia|]; split; [repeat constructor|].
  all: split; intros m' Xs' r' Hin;
    repeat match type of Hin with
           | _ \/ _ => destruct Hin as [Hin|Hin]
           end;
    try contradiction; try discriminate Hin;
    simplify_eq; repeat eexists; eauto 6.
Qed.

(** ** The trainer *)

Lemma snoc3 {A} (l : list A) a b c :
  (((l ++ [a]) ++ [b]) ++ [c])%list = (l ++ [a; b; c])%list.
Proof. now rewrite <- !app_assoc. Qed.

(** X19. Whatever its outcome, a run of the trainer from a fresh process
    has either changed no file, or it has made its six logged library
    calls, each of which returned, and has changed one file, the one at
    [--output], which holds a bundle with a classifier, a scaler and the
    metadata record, whose [trained_at] is the time of the run.  A run
    that ends with status 0 is of the second kind. *)
Theorem trainer_writes_only_the_bundle a fs dirs denied now :
  let run := TrainModel.main a (initial_world fs dirs denied now) in
  let saved :=
    length (w_calls (snd run)) = 6%nat /\
    Forall (fun ev => raised ev = false) (w_calls (snd run)) /\
    exists c s,
      w_fs (snd run)
      = <[TrainModel.arg_output a :=
            FJoblib (Bundle (Some c) (Some s)
                       (Some [("trained_at", now);
                              ("model_type", "RandomForestClassifier");
                              ("version", "1.0.0")]))]> fs in
  (w_fs (snd run) = fs \/ saved) /\ (fst run = Exit 0 -> saved).
Proof.
  cbv zeta.
  assert (Hsaved :
    fst (TrainModel.main a (initial_world fs dirs denied now)) = Exit 0 ->
    length (w_calls (snd (TrainModel.main a
                            (initial_world fs dirs denied now)))) = 6%nat /\
    Forall (fun ev => raised ev = false)
      (w_calls (snd (TrainModel.main a (initial_world fs dirs denied now)))) /\
    exists c s,
      w_fs (snd (TrainModel.main a (initial_world fs dirs denied now)))
      = <[TrainModel.arg_output a :=
            FJoblib (Bundle (Some c) (Some s)
                       (Some [("trained_at", now);
                              ("model_type", "RandomForestClassifier");
                              ("version", "1.0.0")]))]> fs).
  { intros Hex.
    destruct (train_main_exit_0 a fs dirs denied now Hex) as (b & Htr & Hfs).
    destruct Htr. unfold split_call.
    split; [reflexivity|]. split; [|eauto].
    repeat (apply Forall_cons_2; [reflexivity|]). apply Forall_nil_2. }
  split; [|exact Hsaved].
  destruct (train_main_spec a fs dirs denied now)
    as [_ [[_ Hfs]|(H0 & _)]].
  - left. exact Hfs.
  - right. exact (Hsaved H0).
Qed.

(** X20. The calls of [train_test_split], of [cross_val_score] and of the
    methods of the two estimators in a run of the trainer that ends with
    status 0 are these six, each made once, each successful, in this
    order: the split of the arrays read from the input file, with the
    test size of the command line, seed 42 and the labels as strata;
    [fit_transform] of the scaler on the training features; [transform]
    on the test features; [fit] of the classifier on the scaled training
    features and the training labels; [predict] on the scaled test
    features; [cross_val_score] on the scaled test features and the test
    labels.  (The metrics functions and [np.array], which the run also
    calls, are not in the log.) *)
Theorem successful_training_call_sequence a fs dirs denied now :
  fst (TrainModel.main a (initial_world fs dirs denied now)) = Exit 0 ->
  exists X y X_train X_test y_train y_test X_train_scaled X_test_scaled
         y_pred cv_scores,
    loaded a fs X y /\
    w_calls (snd (TrainModel.main a (initial_world fs dirs denied now)))
    = [CallSplit X y (TrainModel.arg_test_size a) 42 y
         (inr (X_train, X_test, y_train, y_test));
       CallFitTransform 0 X_train (inr X_train_scaled);
       CallTransform 0 X_test (inr X_test_scaled);
       CallFit 1 X_train_scaled y_train (inr tt);
       CallPredict 1 X_test_scaled (inr y_pred);
       CallCrossVal 1 X_test_scaled y_test 5 "accuracy" (inr cv_scores)].
Proof.
  intros Hex.
  destruct (train_main_exit_0 a fs dirs denied now Hex) as (b & Htr & _).
  destruct Htr as [X y Xtr Xte ytr yte Xtr_s Xte_s s1 s2 c1 y_pred c2 cvs c3
                   [Hload _] _ _ _ _].
  exists X, y, Xtr, Xte, ytr, yte, Xtr_s, Xte_s, y_pred, cvs.
  split; [exact Hload | reflexivity].
Qed.

(** X21. The bundle a successful run of the trainer saves is one [load_model]
    accepts: in a fresh process that finds the files the trainer left,
    [load_model] on the trainer's output path returns the classifier and
    the scaler as two new objects in the states that were saved, and the
    metadata record of the run. *)
Theorem saved_bundle_loads a fs dirs denied now dirs' denied' now' :
  fst (TrainModel.main a (initial_world fs dirs denied now)) = Exit 0 ->
  let saved :=
    w_fs (snd (TrainModel.main a (initial_world fs dirs denied now))) in
  exists c s,
    saved !! TrainModel.arg_output a
      = Some (FJoblib (Bundle (Some c) (Some s)
                         (Some (TrainModel.bundle_metadata now)))) /\
    Predict.load_model (TrainModel.arg_output a)
      (initial_world saved dirs' denied' now')
    = (Ret (0%nat, 1%nat,
            [("trained_at", now); ("model_type", "RandomForestClassifier");
             ("version", "1.0.0")]),
       mkWorld [] [] saved dirs' denied' now' [ObjClf c; ObjScaler s] []).
Proof.
  intros Hex. cbv zeta.
  destruct (train_main_exit_0 a fs dirs denied now Hex) as (b & Htr & Hfs).
  destruct Htr.
  eexists _, _.
  assert (Hlook :
    w_fs (snd (TrainModel.main a (initial_world fs dirs denied now)))
      !! TrainModel.arg_output a
    = Some (FJoblib (Bundle (Some c3) (Some s2)
                       (Some (TrainModel.bundle_metadata now))))).
  { rewrite Hfs. apply lookup_insert_eq. }
  split; [exact Hlook|].
  unfold Predict.load_model, Predict.joblib_load, bind, read_file.
  cbn [initial_world w_fs]. rewrite Hlook. reflexivity.
Qed.

(** X22. The report a successful run of the trainer ends with: the accuracy on
    its last line but one is [accuracy_score] of the test labels of the
    split against what [model.predict] returned for the scaled test
    features, and the last line lists the feature importances under the
    names of the schedule, in schedule order. *)
Theorem training_report_ends_with_accuracy a fs dirs denied now :
  fst (TrainModel.main a (initial_world fs dirs denied now)) = Exit 0 ->
  let w' := snd (TrainModel.main a (initial_world fs dirs denied now)) in
  exists X y X_train X_test y_train y_test X_test_scaled y_pred acc
         importance before,
    train_test_split X y (TrainModel.arg_test_size a) 42 y
      = inr (X_train, X_test, y_train, y_test) /\
    In (CallTransform 0 X_test (inr X_test_scaled)) (w_calls w') /\
    In (CallPredict 1 X_test_scaled (inr y_pred)) (w_calls w') /\
    accuracy_score y_test y_pred = inr acc /\
    w_stdout w'
    = (before
       ++ [(TrainModel.nl ++ "=== Training Complete ===")%string;
           ("Accuracy: " ++ fmt_float 4 acc)%string;
           ("Feature Importance: "
            ++ json_dumps (Some 2%nat)
                 (JObj (map (fun '(k, v) => (k, JFloat v))
                          (TrainModel.zip TrainModel.feature_names
                             importance))))%string])%list.
Proof.
  cbv zeta.
  change (wp (TrainModel.main a) (initial_world fs dirs denied now)
    (fun o w' =>
       o = Exit 0 ->
       exists X y X_train X_test y_train y_test X_test_scaled y_pred acc
              importance before,
         train_test_split X y (TrainModel.arg_test_size a) 42 y
           = inr (X_train, X_test, y_train, y_test) /\
         In (CallTransform 0 X_test (inr X_test_scaled)) (w_calls w') /\
         In (CallPredict 1 X_test_scaled (inr y_pred)) (w_calls w') /\
         accuracy_score y_test y_pred = inr acc /\
         w_stdout w'
         = (before
            ++ [(TrainModel.nl ++ "=== Training Complete ===")%string;
                ("Accuracy: " ++ fmt_float 4 acc)%string;
                ("Feature Importance: "
                 ++ json_dumps (Some 2%nat)
                      (JObj (map (fun '(k, v) => (k, JFloat v))
                               (TrainModel.zip TrainModel.feature_names
                                  importance))))%string])%list)).
  unfold_train_main. wp_exec.
  all: intros Hex; try discriminate Hex.
  all: cbn [TrainModel.accuracy TrainModel.feature_importance].
  all: do 11 eexists.
  all: split; [eassumption|].
  all: split; [cbn [app In]; eauto 10|].
  all: split; [cbn [app In]; eauto 10|].
  all: split; [eassumption|].
  all: apply snoc3.
Qed.

(** X23. A run of the trainer that ends with status 1 has, as the last
    two lines on its error stream, the message of the exception and its
    trace. *)
Theorem failed_training_reports_the_exception a w :
  fst (TrainModel.main a w) = Exit 1 ->
  exists e lines,
    w_stderr (snd (TrainModel.main a w))
    = (w_stderr w ++ lines
       ++ [(TrainModel.nl ++ "✗ Error: " ++ exn_msg e)%string;
           format_exc e])%list.
Proof.
  change (wp (TrainModel.main a) w (fun o w' =>
    o = Exit 1 ->
    exists e lines,
      w_stderr w'
      = (w_stderr w ++ lines
         ++ [(TrainModel.nl ++ "✗ Error: " ++ exn_msg e)%string;
             format_exc e])%list)).
  unfold_train_main. wp_exec.
  all: intros Hex; try discriminate Hex.
  all: eexists; split_lines.
Qed.

End Runs.

(** * The further properties on concrete inputs *)

(** The three lines [load_data] prints for the example file. *)
Lemma load_data_returns_witness :
  fst (TrainModel.load_data (L := Tiny.lib) "data.json" Example.train_world)
    = Ret ((Example.X_train ++ Example.X_test)%list,
           (Example.y_train ++ Example.y_test)%list) /\
  w_stdout (snd (TrainModel.load_data (L := Tiny.lib) "data.json"
                   Example.train_world))
    = ["Loaded 10 samples"; "Feature shape: (10, 2)";
       "Label distribution: Buy=3, Hold=3, Sell=4"].
Proof.
  destruct (TrainModel.load_data (L := Tiny.lib) "data.json"
              Example.train_world) as [o w'] eqn:E.
  assert (Ho : o = Ret ((Example.X_train ++ Example.X_test)%list,
                        (Example.y_train ++ Example.y_test)%list)).
  { change o with (fst (o, w')). rewrite <- E. reflexivity. }
  subst o. split; [reflexivity|].
  destruct (load_data_returns (L := Tiny.lib) "data.json" Example.train_world
              _ _ w' E) as [_ Hw].
  cbn [snd]. rewrite Hw. reflexivity.
Defined.

(** A training file that has labels and no features. *)
Lemma load_data_needs_features_and_labels_witness :
  exists e,
    TrainModel.load_data (L := Tiny.lib) "data.json" Cases.no_features
      = (Raise e, Cases.no_features) /\
    exn_kind_of e = KeyError.
Proof.
  destruct (load_data_needs_features_and_labels (L := Tiny.lib) "data.json"
              Cases.no_features Cases.no_features_text
              (JObj [("labels", JArr [JInt 1; JInt 0])]) eq_refl eq_refl)
    as (_ & H & _).
  exact (H [("labels", JArr [JInt 1; JInt 0])] eq_refl eq_refl).
Defined.

(** The example classifier, evaluated on the five test rows of the
    example, predicts every label: accuracy 1, and an importance of 1/2
    for each of its two features, under the first two names. *)
Lemma evaluate_model_returns_witness :
  exists c y_pred c2 cv_scores c3 importance,
    Cases.trained_heap !! 1%nat = Some (@ObjClf Tiny.lib c) /\
    Tiny.clf_predict c Example.X_test_scaled = (inr y_pred, c2) /\
    Tiny.accuracy_score Example.y_test y_pred = inr 1%Q /\
    Tiny.cross_val_score c2 Example.X_test_scaled Example.y_test 5 "accuracy"
      = (inr cv_scores, c3) /\
    Tiny.clf_feature_importances c3 = inr importance /\
    [("ma20_ma50", 1 # 2); ("rsi", 1 # 2)]
      = TrainModel.zip TrainModel.feature_names importance.
Proof.
  destruct (TrainModel.evaluate_model (L := Tiny.lib) 1 Example.X_test_scaled
              Example.y_test Cases.evaluating) as [o w'] eqn:E.
  assert (Ho : o = Ret Cases.metrics).
  { change o with (fst (o, w')). rewrite <- E. reflexivity. }
  subst o.
  destruct (evaluate_model_returns (L := Tiny.lib) 1 Example.X_test_scaled
              Example.y_test Cases.evaluating Cases.metrics w' E)
    as (c & y_pred & c2 & cvs & c3 & imp & H1 & H2 & H3 & H4 & H5 & H6 & _).
  exists c, y_pred, c2, cvs, c3, imp. auto 10.
Defined.

(** Saving the example estimators to [./models/model.joblib] creates the
    directory [models], writes the bundle, and prints the path without
    the leading [./]. *)
Lemma save_model_writes_bundle_witness :
  fst (TrainModel.save_model (L := Tiny.lib) 1 0 "./models/model.joblib"
         Cases.evaluating) = Ret tt /\
  w_fs (snd (TrainModel.save_model (L := Tiny.lib) 1 0
               "./models/model.joblib" Cases.evaluating))
    !! "./models/model.joblib"
    = Some (FJoblib Example.trained_bundle) /\
  "models" ∈ w_dirs (snd (TrainModel.save_model (L := Tiny.lib) 1 0
                            "./models/model.joblib" Cases.evaluating)) /\
  w_stdout (snd (TrainModel.save_model (L := Tiny.lib) 1 0
                   "./models/model.joblib" Cases.evaluating))
    = [(TrainModel.nl ++ "✓ Model saved to models/model.joblib")%string].
Proof.
  assert (Hnd : "./models/model.joblib" ∉ w_dirs Cases.evaluating).
  { intros H. change ("./models/model.joblib" ∈ ({[ "." ]} : gset string)) in H.
    apply elem_of_singleton in H. discriminate H. }
  assert (Hne : "./models/model.joblib"
                <> path_parent (Lib := Tiny.lib) "./models/model.joblib")
    by discriminate.
  destruct (save_model_writes_bundle (L := Tiny.lib) 1 0
              "./models/model.joblib"
              Cases.evaluating Example.trained_clf Example.trained_scaler
              eq_refl eq_refl (not_elem_of_empty _) Hnd Hne
              (or_intror (conj eq_refl (not_elem_of_empty _))))
    as (Hret & Hfs & Hdir & _ & _ & Hout).
  split; [exact Hret|]. split; [|split; [exact Hdir | exact Hout]].
  rewrite Hfs. apply lookup_insert_eq.
Defined.

(** Where the output path may not be written, [save_model] raises after
    it has made the directory [models]; where the classifier is missing,
    it leaves the file cut short. *)
Lemma save_model_failures_witness :
  (exists e,
     TrainModel.save_model (L := Tiny.lib) 1 0 "models/model.joblib"
       Cases.read_only
     = (Raise e, set_dirs ({[ "models" ]} ∪ {[ "." ]}) Cases.read_only) /\
     exn_kind_of e = OSError) /\
  (exists e,
     TrainModel.save_model (L := Tiny.lib) 0 0 "model.joblib"
       Cases.evaluating
     = (Raise e,
        set_fs (<[ "model.joblib" := FPartial ]> Example.train_fs)
          Cases.evaluating) /\
     exn_kind_of e = PicklingError).
Proof.
  pose proof (save_model_failures (L := Tiny.lib) 1 0 "models/model.joblib"
                Cases.read_only) as T1.
  pose proof (save_model_failures (L := Tiny.lib) 0 0 "model.joblib"
                Cases.evaluating) as T2.
  cbv zeta in T1, T2.
  destruct T1 as (_ & T1 & _). destruct T2 as (_ & _ & _ & T2).
  split.
  - apply T1.
    + intros H. change ("models" ∈ ({[ "." ]} : gset string)) in H.
      apply elem_of_singleton in H. discriminate H.
    + reflexivity.
    + intros H.
      change ("models" ∈ ({[ "models/model.joblib" ]} : gset string)) in H.
      apply elem_of_singleton in H. discriminate H.
    + left.
      change ("models/model.joblib"
              ∈ ({[ "models/model.joblib" ]} : gset string)).
      now apply elem_of_singleton.
  - apply T2.
    + change ("." ∈ ({[ "." ]} : gset string)). now apply elem_of_singleton.
    + apply not_elem_of_empty.
    + intros H. change ("model.joblib" ∈ ({[ "." ]} : gset string)) in H.
      apply elem_of_singleton in H. discriminate H.
    + intros c s [H _]. discriminate H.
Defined.

(** The example bundle has both keys and a metadata record. *)
Lemma load_model_needs_model_and_scaler_witness :
  fst (Predict.load_model (L := Tiny.lib) "model.joblib" Example.world13)
    = Ret (0%nat, 1%nat, [("version", "1.0.0")]) /\
  w_heap (snd (Predict.load_model (L := Tiny.lib) "model.joblib"
                 Example.world13))
    = [@ObjClf Tiny.lib Example.clf13; @ObjScaler Tiny.lib Example.scaler13].
Proof.
  destruct (load_model_needs_model_and_scaler (L := Tiny.lib) "model.joblib"
              Example.world13 Example.bundle13 eq_refl)
    as (_ & _ & H & _).
  exact (H Example.clf13 Example.scaler13 eq_refl eq_refl).
Defined.

(** The example classifier gives the row (0, 0, 1) for [vector13]. *)
Lemma predict_signal_returns_witness :
  exists conf,
    np_max [0; 0; 1]%Q = inr conf /\
    fst (Predict.predict_signal (L := Tiny.lib) 0 1 Example.vector13
           Example.loaded13)
      = Ret (Predict.Prediction "buy" conf (Predict.ProbsDict 1 0 0)).
Proof.
  destruct (predict_signal_returns (L := Tiny.lib) 0 1 Example.vector13
              Example.loaded13 Example.clf13 Example.scaler13
              [(replicate 12 9 ++ [19 # 2])%list]%Q
              [(replicate 12 9 ++ [19 # 2])%list]%Q
              Example.scaler13 [2] Example.clf13 [[0; 0; 1]%Q] Example.clf13
              2 [0; 0; 1]%Q 0%Q 0%Q 1%Q
              eq_refl eq_refl eq_refl eq_refl eq_refl eq_refl
              eq_refl eq_refl eq_refl eq_refl eq_refl)
    as (conf & Hmax & Hret & _).
  exists conf. split; [exact Hmax | exact Hret].
Defined.

(** A classifier that knows two classes returns rows of two
    probabilities, and [predict_signal] raises [IndexError]. *)
Lemma predict_signal_short_probability_row_witness :
  exists e,
    fst (Predict.predict_signal (L := Tiny.lib) 0 1 Example.vector13
           Cases.loaded2) = Raise e /\
    exn_kind_of e = IndexError.
Proof.
  destruct (predict_signal_short_probability_row (L := Tiny.lib) 0 1
              Example.vector13 Cases.loaded2 Cases.clf2 Example.scaler13
              [(replicate 12 9 ++ [19 # 2])%list]%Q
              [(replicate 12 9 ++ [19 # 2])%list]%Q
              Example.scaler13 [1] Cases.clf2 [[0; 1]%Q] Cases.clf2
              1 [0; 1]%Q
              eq_refl eq_refl eq_refl eq_refl eq_refl eq_refl
              eq_refl eq_refl (le_n 3))
    as (e & Hraise & Hkind & _).
  exists e. split; [exact Hraise | exact Hkind].
Defined.

(** Features cut short: status 1, nothing on the standard output, no
    file written. *)
Lemma failed_prediction_leaves_no_output_witness :
  fst (Predict.main (L := Tiny.lib)
         (Predict.Args "model.joblib" "[9, 8" (Some "out.json"))
         Example.world13) = Exit 1 /\
  w_stdout (snd (Predict.main (L := Tiny.lib)
                   (Predict.Args "model.joblib" "[9, 8" (Some "out.json"))
                   Example.world13)) = w_stdout Example.world13 /\
  w_fs (snd (Predict.main (L := Tiny.lib)
               (Predict.Args "model.joblib" "[9, 8" (Some "out.json"))
               Example.world13)) = w_fs Example.world13.
Proof.
  assert (Hex : fst (Predict.main (L := Tiny.lib)
                       (Predict.Args "model.joblib" "[9, 8" (Some "out.json"))
                       Example.world13) = Exit 1) by reflexivity.
  split; [exact Hex|].
  destruct (failed_prediction_leaves_no_output (L := Tiny.lib)
              (Predict.Args "model.joblib" "[9, 8" (Some "out.json"))
              Example.world13 Hex) as (Hout & Hfs & _).
  split; [exact Hout | exact Hfs].
Defined.

(** With [--output out.json] the example predictor prints nothing on the
    standard output and names the file on the error stream. *)
Lemma prediction_goes_to_one_destination_witness :
  fst (Predict.main (L := Tiny.lib) (Example.args13 (Some "out.json"))
         Example.world13) = Exit 0 /\
  w_stdout (snd (Predict.main (L := Tiny.lib)
                   (Example.args13 (Some "out.json")) Example.world13)) = [] /\
  last (w_stderr (snd (Predict.main (L := Tiny.lib)
                         (Example.args13 (Some "out.json")) Example.world13)))
    = Some "Prediction saved to out.json".
Proof.
  assert (Hex : fst (Predict.main (L := Tiny.lib)
                       (Example.args13 (Some "out.json"))
                       (initial_world Example.fs13 {[ "." ]} ∅
                          "2024-01-02T00:00:00")) = Exit 0) by reflexivity.
  split; [exact Hex|].
  destruct (prediction_goes_to_one_destination (L := Tiny.lib)
              (Example.args13 (Some "out.json"))
              Example.fs13 {[ "." ]} ∅ "2024-01-02T00:00:00" Hex)
    as (r & _ & Hfile & _).
  destruct (Hfile "out.json" eq_refl eq_refl) as (Hout & _ & Herr).
  split; [exact Hout | exact Herr].
Defined.

(** The error stream of the example predictor for 13 features and no
    output file: two progress lines. *)
Lemma predictor_error_stream_on_success_witness :
  fst (Predict.main (L := Tiny.lib) (Example.args13 None) Example.world13)
    = Exit 0 /\
  w_stderr (snd (Predict.main (L := Tiny.lib) (Example.args13 None)
                   Example.world13))
    = ["Loading model from model.joblib...";
       "Model metadata: {'version': '1.0.0'}"].
Proof.
  assert (Hex : fst (Predict.main (L := Tiny.lib) (Example.args13 None)
                       (initial_world Example.fs13 {[ "." ]} ∅
                          "2024-01-02T00:00:00")) = Exit 0) by reflexivity.
  split; [exact Hex|].
  destruct (predictor_error_stream_on_success (L := Tiny.lib)
              (Example.args13 None)
              Example.fs13 {[ "." ]} ∅ "2024-01-02T00:00:00" Hex)
    as (b & v & n & Hb & Hv & Hn & Herr).
  change (Some (FJoblib Example.bundle13) = Some (FJoblib b)) in Hb.
  injection Hb as <-.
  change (inr Example.vector13 = inr v :> result json) in Hv.
  injection Hv as <-.
  change (inr 13%nat = inr n :> result nat) in Hn.
  injection Hn as <-.
  exact Herr.
Defined.

(** The features [5] are a number, not an array. *)
Lemma unsized_features_fail_before_scaling_witness :
  fst (Predict.main (L := Tiny.lib) (Predict.Args "model.joblib" "5" None)
         Example.world13) = Exit 1 /\
  w_calls (snd (Predict.main (L := Tiny.lib)
                  (Predict.Args "model.joblib" "5" None) Example.world13))
    = [].
Proof.
  destruct (unsized_features_fail_before_scaling (L := Tiny.lib)
              (Predict.Args "model.joblib" "5" None)
              Example.fs13 {[ "." ]} ∅ "2024-01-02T00:00:00"
              Example.bundle13 Example.clf13 Example.scaler13 (JInt 5)
              (Exception TypeError "object has no len()")
              eq_refl eq_refl eq_refl eq_refl eq_refl)
    as (Hex & _ & Hcalls & _).
  split; [exact Hex | exact Hcalls].
Defined.

(** The six calls of the example run. *)
Lemma successful_training_call_sequence_witness :
  fst (TrainModel.main (L := Tiny.lib) Example.train_args Example.train_world)
    = Exit 0 /\
  exists X y X_train X_test y_train y_test X_train_scaled X_test_scaled
         y_pred cv_scores,
    loaded (L := Tiny.lib) Example.train_args Example.train_fs X y /\
    w_calls Example.trained_world
    = [CallSplit X y (1 # 2) 42 y (inr (X_train, X_test, y_train, y_test));
       CallFitTransform 0 X_train (inr X_train_scaled);
       CallTransform 0 X_test (inr X_test_scaled);
       CallFit 1 X_train_scaled y_train (inr tt);
       CallPredict 1 X_test_scaled (inr y_pred);
       CallCrossVal 1 X_test_scaled y_test 5 "accuracy" (inr cv_scores)].
Proof.
  assert (Hex : fst (TrainModel.main (L := Tiny.lib) Example.train_args
                       (initial_world Example.train_fs Example.dirs ∅
                          "2024-01-01T00:00:00")) = Exit 0) by reflexivity.
  split; [exact Hex|].
  exact (successful_training_call_sequence (L := Tiny.lib) Example.train_args
           Example.train_fs Example.dirs ∅ "2024-01-01T00:00:00" Hex).
Defined.

(** The bundle of the example run, loaded by a fresh process. *)
Lemma saved_bundle_loads_witness :
  fst (TrainModel.main (L := Tiny.lib) Example.train_args Example.train_world)
    = Exit 0 /\
  exists c s,
    w_fs Example.trained_world !! "models/model.joblib"
      = Some (FJoblib (Bundle (Some c) (Some s)
                         (Some (TrainModel.bundle_metadata
                                  "2024-01-01T00:00:00")))) /\
    fst (Predict.load_model (L := Tiny.lib) "models/model.joblib"
           Example.predict_world)
    = Ret (0%nat, 1%nat,
           [("trained_at", "2024-01-01T00:00:00");
            ("model_type", "RandomForestClassifier"); ("version", "1.0.0")]).
Proof.
  assert (Hex : fst (TrainModel.main (L := Tiny.lib) Example.train_args
                       (initial_world Example.train_fs Example.dirs ∅
                          "2024-01-01T00:00:00")) = Exit 0) by reflexivity.
  split; [exact Hex|].
  destruct (saved_bundle_loads (L := Tiny.lib) Example.train_args
              Example.train_fs Example.dirs ∅ "2024-01-01T00:00:00"
              Example.dirs ∅ "2024-01-02T00:00:00" Hex)
    as (c & s & Hfile & Hload).
  exists c, s. split; [exact Hfile|].
  exact (f_equal fst Hload).
Defined.

(** The report of the example run ends with the accuracy on its five
    test rows. *)
Lemma training_report_ends_with_accuracy_witness :
  fst (TrainModel.main (L := Tiny.lib) Example.train_args Example.train_world)
    = Exit 0 /\
  exists y_test y_pred acc,
    In (CallPredict 1 Example.X_test_scaled (inr y_pred))
       (w_calls Example.trained_world) /\
    Tiny.accuracy_score y_test y_pred = inr acc /\
    exists before last_line,
      w_stdout Example.trained_world
      = (before
         ++ [(TrainModel.nl ++ "=== Training Complete ===")%string;
             ("Accuracy: " ++ Tiny.fmt_float 4 acc)%string;
             last_line])%list.
Proof.
  assert (Hex : fst (TrainModel.main (L := Tiny.lib) Example.train_args
                       (initial_world Example.train_fs Example.dirs ∅
                          "2024-01-01T00:00:00")) = Exit 0) by reflexivity.
  split; [exact Hex|].
  destruct (training_report_ends_with_accuracy (L := Tiny.lib)
              Example.train_args Example.train_fs Example.dirs ∅
              "2024-01-01T00:00:00" Hex)
    as (X & y & Xtr & Xte & ytr & yte & Xte_s & y_pred & acc & imp & before
        & _ & Htr & Hpred & Hacc & Hout).
  change (w_calls (snd (TrainModel.main (L := Tiny.lib) Example.train_args
                          (initial_world Example.train_fs Example.dirs ∅
                             "2024-01-01T00:00:00"))))
    with Example.trained_calls in Htr, Hpred.
  assert (Xte_s = Example.X_test_scaled) as ->.
  { cbn [In Example.trained_calls] in Htr.
    repeat match type of Htr with
           | _ \/ _ => destruct Htr as [Htr|Htr]
           end;
      try discriminate Htr; try contradiction.
    now injection Htr. }
  exists yte, y_pred, acc. split; [exact Hpred|]. split; [exact Hacc|].
  eexists before, _. exact Hout.
Defined.

(** The training file cut short: the error line and the trace. *)
Lemma failed_training_reports_the_exception_witness :
  fst (TrainModel.main (L := Tiny.lib) Example.train_args
         Example.malformed_world) = Exit 1 /\
  exists e lines,
    w_stderr (snd (TrainModel.main (L := Tiny.lib) Example.train_args
                     Example.malformed_world))
    = (w_stderr Example.malformed_world ++ lines
       ++ [(TrainModel.nl ++ "✗ Error: " ++ exn_msg e)%string;
           Tiny.format_exc e])%list.
Proof.
  assert (Hex : fst (TrainModel.main (L := Tiny.lib) Example.train_args
                       Example.malformed_world) = Exit 1) by reflexivity.
  split; [exact Hex|].
  exact (failed_training_reports_the_exception (L := Tiny.lib)
           Example.train_args Example.malformed_world Hex).
Defined.
